(** * ollama-api-connector: the translation gateway of [server.js]

    A shallow embedding of the request translator
    ([translateOllamaToOpenAI]), the three response translators
    ([translateOpenAIToOllamaChat], [translateOpenAIToOllamaGenerate],
    [translateOpenAIStreamToOllamaChat]), the non-streaming endpoints and the
    four stream handlers of [POST /api/chat], followed by the properties of
    the design document that are proved or refuted about them.

    JavaScript values are the untyped values the handlers receive from
    [express.json()] and [JSON.parse].  Numbers are IEEE-754 doubles: the
    integers among them are written with [Z], the others (1.1, 0.8, the
    infinities) with the binary64 floats of the kernel, whose subtraction
    is the one of line 147.  Strings are byte strings; the tags, markers
    and separators the code looks for are ASCII. *)

From Stdlib Require Import PrimFloat SpecFloat FloatOps.
From Stdlib Require Import String Ascii List ZArith Bool Lia.
Import ListNotations.
Open Scope string_scope.
Open Scope list_scope.

(* ================================================================= *)
(** ** JavaScript values *)

#[local] Set Warnings "-register-all".
#[local] Set Warnings "-inexact-float".

(** A number is a double: [JNum n] is the integer [n], [JNaN] is NaN and
    [JFloat f] is the double [f], which is how the numbers that are no
    integers (1.1, the infinities) are written.  The operations below read
    an integer or a NaN that is written as a [JFloat] as what it is. *)
Inductive JSValue : Type :=
| JUndefined
| JNull
| JBool (b : bool)
| JNum (n : Z)
| JFloat (f : float)
| JNaN
| JStr (s : string)
| JArr (items : list JSValue)
| JObj (fields : list (string * JSValue)).

(** ToBoolean: what [if (v)], [v ? a : b], [!v], [v || w] and [v && w] test. *)
Definition truthy (v : JSValue) : bool :=
  match v with
  | JUndefined | JNull | JNaN => false
  | JBool b => b
  | JNum n => negb (n =? 0)%Z
  | JFloat f => negb (is_zero f || is_nan f)
  | JStr s => negb (s =? "")
  | JArr _ | JObj _ => true
  end.

(** The double nearest to an integer. *)
Definition Z2float (n : Z) : float :=
  SF2Prim (binary_normalize prec emax n 0 false).

(** The integer a double is, when it is one that every integer up to it is
    a double too (at most 2^53 in size). *)
Definition float2Z (f : float) : option Z :=
  match Prim2SF f with
  | S754_zero _ => Some 0%Z
  | S754_finite s m e =>
      let magnitude :=
        if (0 <=? e)%Z then Some (Z.pos m * 2 ^ e)%Z
        else if (Z.pos m mod 2 ^ (- e) =? 0)%Z then Some (Z.pos m / 2 ^ (- e))%Z
        else None in
      match magnitude with
      | Some z =>
          if (z <=? 2 ^ 53)%Z then Some (if s then (- z)%Z else z) else None
      | None => None
      end
  | _ => None
  end.

(** A double as a value. *)
Definition number (f : float) : JSValue :=
  if is_nan f then JNaN
  else if is_infinity f then JFloat f
  else match float2Z f with
       | Some n => JNum n
       | None => JFloat f
       end.

(** The double a number is; [None] for a value that is no number. *)
Definition as_float (v : JSValue) : option float :=
  match v with
  | JNum n => Some (Z2float n)
  | JFloat f => Some f
  | JNaN => Some nan
  | _ => None
  end.

(** [a || b] and [a && b]. *)
Definition js_or (a b : JSValue) : JSValue := if truthy a then a else b.
Definition js_and (a b : JSValue) : JSValue := if truthy a then b else a.

Definition is_undefined (v : JSValue) : bool :=
  match v with JUndefined => true | _ => false end.

Definition nullish (v : JSValue) : bool :=
  match v with JUndefined | JNull => true | _ => false end.

Definition isArray (v : JSValue) : bool :=
  match v with JArr _ => true | _ => false end.

Fixpoint lookup (k : string) (fs : list (string * JSValue)) : option JSValue :=
  match fs with
  | [] => None
  | (k', v) :: rest => if k' =? k then Some v else lookup k rest
  end.

(** [v.k] for a receiver that is neither [undefined] nor [null]; a key that
    is not there reads as [undefined]. *)
Definition own (v : JSValue) (k : string) : JSValue :=
  match v with
  | JObj fs => match lookup k fs with Some x => x | None => JUndefined end
  | JArr l => if k =? "length" then JNum (Z.of_nat (List.length l)) else JUndefined
  | JStr s => if k =? "length" then JNum (Z.of_nat (String.length s)) else JUndefined
  | _ => JUndefined
  end.

(** [v.k]: a TypeError ([None]) when the receiver is [undefined] or [null]. *)
Definition prop (v : JSValue) (k : string) : option JSValue :=
  if nullish v then None else Some (own v k).

(** [v?.k] *)
Definition opt_chain (v : JSValue) (k : string) : JSValue :=
  if nullish v then JUndefined else own v k.

(** [v[0]] *)
Definition index0 (v : JSValue) : option JSValue :=
  match v with
  | JUndefined | JNull => None
  | JArr l => Some (nth 0 l JUndefined)
  | JStr (String c _) => Some (JStr (String c ""))
  | JObj fs => Some (match lookup "0" fs with Some x => x | None => JUndefined end)
  | _ => Some JUndefined
  end.

(** [o.k = v] on an object: the key keeps its place when it is there already. *)
Fixpoint set_field (k : string) (v : JSValue) (fs : list (string * JSValue))
  : list (string * JSValue) :=
  match fs with
  | [] => [(k, v)]
  | (k', v') :: rest =>
      if k' =? k then (k, v) :: rest else (k', v') :: set_field k v rest
  end.

Definition assign (o : JSValue) (k : string) (v : JSValue) : JSValue :=
  match o with
  | JObj fs => JObj (set_field k v fs)
  | _ => o
  end.

(** [v === 'lit'] *)
Definition is_str (lit : string) (v : JSValue) : bool :=
  match v with JStr s => s =? lit | _ => false end.

(** The properties [JSON.stringify] writes for an object literal, each with
    the value it serializes: a property whose value is [undefined] is left
    out, every other one is written ([null] and [0] included).  What the
    text holds for a value is [stringified], below. *)
Definition wire_fields (fs : list (string * JSValue)) : list (string * JSValue) :=
  filter (fun kv => negb (is_undefined (snd kv))) fs.

Definition on_wire (o : JSValue) : list (string * JSValue) :=
  match o with JObj fs => wire_fields fs | _ => [] end.

(** What [JSON.stringify] writes for a number: [null] for NaN and for the
    infinities. *)
Definition stringified_number (f : float) : JSValue :=
  if is_nan f || is_infinity f then JNull else number f.

(** The value of the text [JSON.stringify(v)], that is what
    [JSON.parse(JSON.stringify(v))] gives: a number that is not finite is
    written [null], so is an [undefined] element of an array, and an
    [undefined] property of an object is left out.  [undefined] itself has
    no text. *)
Fixpoint stringified (v : JSValue) : JSValue :=
  match v with
  | JNaN => JNull
  | JFloat f => stringified_number f
  | JArr items =>
      JArr ((fix elements (l : list JSValue) : list JSValue :=
               match l with
               | [] => []
               | x :: rest =>
                   (if is_undefined x then JNull else stringified x)
                     :: elements rest
               end) items)
  | JObj fs =>
      JObj ((fix members (l : list (string * JSValue)) : list (string * JSValue) :=
               match l with
               | [] => []
               | (k, x) :: rest =>
                   if is_undefined x then members rest
                   else (k, stringified x) :: members rest
               end) fs)
  | _ => v
  end.

(** The value the JSON text of an object holds under a key; [None] when the
    key is not in the text. *)
Definition in_text (k : string) (o : JSValue) : option JSValue :=
  match stringified o with
  | JObj fs => lookup k fs
  | _ => None
  end.

(** Exceptions: [None] is a thrown error. *)
Definition bind {A B : Type} (m : option A) (k : A -> option B) : option B :=
  match m with Some a => k a | None => None end.

Notation "x <- m ;; k" := (bind m (fun x => k))
  (at level 61, m at next level, right associativity).

(* ================================================================= *)
(** ** String methods *)

Definition nl_char : ascii := "010"%char.
Definition nl : string := String nl_char "".

(** [s.startsWith(p)] *)
Fixpoint startsWith (p s : string) : bool :=
  match p with
  | EmptyString => true
  | String a p' =>
      match s with
      | String b s' => Ascii.eqb a b && startsWith p' s'
      | EmptyString => false
      end
  end.

(** [s.includes(p)] *)
Fixpoint includes (p s : string) : bool :=
  startsWith p s || match s with
                | EmptyString => false
                | String _ s' => includes p s'
                end.

(** [s.substring(n)] *)
Fixpoint substring_from (n : nat) (s : string) : string :=
  match n, s with
  | O, _ => s
  | S n', String _ s' => substring_from n' s'
  | S _, EmptyString => EmptyString
  end.

(** [s.split('\n')]: never empty, the last element is what follows the last
    newline. *)
Fixpoint split_nl (s : string) : list string :=
  match s with
  | EmptyString => [EmptyString]
  | String c s' =>
      if Ascii.eqb c nl_char then EmptyString :: split_nl s'
      else match split_nl s' with
           | [] => [String c EmptyString]
           | l :: ls => String c l :: ls
           end
  end.

(** White space of [trim()], within ASCII: TAB, LF, VT, FF, CR and space. *)
Definition is_space (c : ascii) : bool :=
  let n := nat_of_ascii c in
  ((9 <=? n) && (n <=? 13) || (n =? 32))%nat.

Fixpoint trim_start (s : string) : string :=
  match s with
  | String c s' => if is_space c then trim_start s' else s
  | EmptyString => EmptyString
  end.

Fixpoint trim_end (s : string) : string :=
  match s with
  | EmptyString => EmptyString
  | String c s' =>
      let t := trim_end s' in
      if is_space c && (t =? "") then EmptyString else String c t
  end.

(** [s.trim()] *)
Definition trim (s : string) : string := trim_end (trim_start s).

(** [lines.join('\n')], the inverse of [split_nl] on lines without newline. *)
Fixpoint join_nl (ls : list string) : string :=
  match ls with
  | [] => EmptyString
  | [l] => l
  | l :: rest => l ++ nl ++ join_nl rest
  end.

(* ================================================================= *)
(** ** What the host provides

    The built-ins the gateway calls and does not define.  Every theorem
    below holds for any host. *)

Class Host : Type := {
  (** [JSON.parse(text)]; [None] is a SyntaxError. *)
  JSON_parse : string -> option JSValue;
  (** [new Date(v * 1000).toISOString()]; [None] is the RangeError of an
      invalid date. *)
  Date_toISOString : JSValue -> option string;
  (** [new Date().toISOString()], the wall clock. *)
  Date_now : string;
  (** ToNumber on a value that is not a number already. *)
  ToNumber : JSValue -> JSValue;
  (** [a + b] when the operands are not two numbers (concatenation and
      coercions). *)
  add_other : JSValue -> JSValue -> JSValue
}.

Section Gateway.

Context `{host : Host}.

(** ToNumber: a number is itself, anything else is the host's business. *)
Definition to_num (v : JSValue) : JSValue :=
  match v with JNum _ | JFloat _ | JNaN => v | _ => ToNumber v end.

(** [a - b]: the operands as numbers, then the IEEE-754 subtraction. *)
Definition js_sub (a b : JSValue) : JSValue :=
  match as_float (to_num a), as_float (to_num b) with
  | Some x, Some y => number (x - y)%float
  | _, _ => JNaN
  end.

(** [a + b]: two integers add as integers (the counts this is used for are
    far from 2^53), two numbers as doubles; with an operand that is no
    number the sum is the host's business. *)
Definition js_add (a b : JSValue) : JSValue :=
  match a, b with
  | JNum x, JNum y => JNum (x + y)
  | _, _ =>
      match as_float a, as_float b with
      | Some x, Some y => number (x + y)%float
      | _, _ => add_other a b
      end
  end.

(** [v > 0] *)
Definition js_gt0 (v : JSValue) : bool :=
  match to_num v with
  | JNum n => (0 <? n)%Z
  | JFloat f => (0 <? f)%float
  | _ => false
  end.

(* ================================================================= *)
(** ** translateOllamaToOpenAI (server.js 62-155) *)

(** The object literal [{ role: r, content: c }]. *)
Definition mk_message (r c : JSValue) : JSValue :=
  JObj [("role", r); ("content", c)].

(** Lines 67-74: the loop over [request.messages]. *)
Fixpoint push_messages (items : list JSValue) (messages : list JSValue)
  : option (list JSValue) :=
  match items with
  | [] => Some messages
  | item :: rest =>
      role <- prop item "role" ;;
      if truthy (js_and role (own item "content"))
      then push_messages rest (messages ++ [mk_message role (own item "content")])
      else push_messages rest messages
  end.

(** The state of the tag parser, lines 90-91 and the [messages] it pushes to. *)
Record TagState : Type := {
  currentRole : JSValue;
  currentContent : string;
  tagMessages : list JSValue
}.

(** Lines 95-98, 102-105 and 118-120: [if (currentRole && currentContent)]. *)
Definition flush_open (st : TagState) : TagState :=
  if truthy (currentRole st) && negb (currentContent st =? "")
  then {| currentRole := currentRole st;
          currentContent := "";
          tagMessages := tagMessages st ++
            [mk_message (currentRole st) (JStr (trim (currentContent st)))] |}
  else st.

(** Lines 109-112: [if (currentContent)] on a closing line. *)
Definition flush_close (st : TagState) : TagState :=
  if negb (currentContent st =? "")
  then {| currentRole := currentRole st;
          currentContent := "";
          tagMessages := tagMessages st ++
            [mk_message (currentRole st) (JStr (trim (currentContent st)))] |}
  else st.

(** Lines 94-115: the body of the loop over [promptLines]. *)
Definition tag_line (st : TagState) (line : string) : TagState :=
  if startsWith "<user>" line then
    {| currentRole := JStr "user";
       currentContent := substring_from 6 line;
       tagMessages := tagMessages (flush_open st) |}
  else if startsWith "<assistant>" line then
    {| currentRole := JStr "assistant";
       currentContent := substring_from 11 line;
       tagMessages := tagMessages (flush_open st) |}
  else if (line =? "</user>") || (line =? "</assistant>") then
    flush_close st
  else if negb (currentContent st =? "") then
    {| currentRole := currentRole st;
       currentContent := currentContent st ++ nl ++ line;
       tagMessages := tagMessages st |}
  else st.

(** Lines 89-120: the delimited-prompt parser, pushing to [messages]. *)
Definition parse_tagged_prompt (prompt : string) (messages : list JSValue)
  : list JSValue :=
  tagMessages
    (flush_open
       (fold_left tag_line (split_nl prompt)
          {| currentRole := JNull; currentContent := ""; tagMessages := messages |})).

(** [request.prompt.includes(tag)]: the string method on a string, the array
    method on an array, a TypeError on anything else. *)
Definition prompt_includes (tag : string) (prompt : JSValue) : option bool :=
  match prompt with
  | JStr s => Some (includes tag s)
  | JArr l => Some (existsb (is_str tag) l)
  | _ => None
  end.

(** Lines 83-122: the [prompt] fallback. *)
Definition push_prompt (prompt : JSValue) (messages : list JSValue)
  : option (list JSValue) :=
  hasUser <- prompt_includes "<user>" prompt ;;
  if negb hasUser then
    hasAssistant <- prompt_includes "<assistant>" prompt ;;
    if negb hasAssistant
    then Some (messages ++ [mk_message (JStr "user") prompt])
    else match prompt with
         | JStr s => Some (parse_tagged_prompt s messages)
         | _ => None
         end
  else match prompt with
       | JStr s => Some (parse_tagged_prompt s messages)
       | _ => None
       end.

(** Lines 126-133: the loop over [request.history]. *)
Fixpoint push_history (items : list JSValue) (messages : list JSValue)
  : option (list JSValue) :=
  match items with
  | [] => Some messages
  | item :: rest =>
      role <- prop item "role" ;;
      if is_str "user" role || is_str "assistant" role
      then push_history rest
             (messages ++ [mk_message role (js_or (own item "content") (JStr ""))])
      else push_history rest messages
  end.

Definition is_nil {A : Type} (l : list A) : bool :=
  match l with [] => true | _ => false end.

(** Lines 63-138: the RequestNormalizer, from the request body to the
    message list. *)
Definition normalize_messages (request : JSValue) : option (list JSValue) :=
  reqMessages <- prop request "messages" ;;
  m1 <- match reqMessages with
        | JArr items => push_messages items []
        | _ => Some []
        end ;;
  m2 <- (if is_nil m1 && truthy (own request "system")
         then Some (m1 ++ [mk_message (JStr "system") (own request "system")])
         else Some m1) ;;
  m3 <- (if is_nil m2 && truthy (own request "prompt")
         then push_prompt (own request "prompt") m2
         else Some m2) ;;
  m4 <- (if is_nil m3
         then match own request "history" with
              | JArr items => push_history items m3
              | _ => Some m3
              end
         else Some m3) ;;
  Some (if is_nil m4 then m4 ++ [mk_message (JStr "user") (JStr "")] else m4).

(** Lines 140-154: the [openaiRequest] object literal. *)
Definition translateOllamaToOpenAI (request : JSValue) : option JSValue :=
  messages <- normalize_messages request ;;
  let options := own request "options" in
  Some (JObj
    [ ("model", js_or (own request "model") (JStr "gpt-3.5-turbo"));
      ("messages", JArr messages);
      ("stream", js_or (own request "stream") (JBool false));
      ("temperature", opt_chain options "temperature");
      ("max_tokens", opt_chain options "num_predict");
      ("top_p", opt_chain options "top_p");
      ("frequency_penalty",
         if truthy (opt_chain options "repeat_penalty")
         then js_sub (own options "repeat_penalty") (JNum 1)
         else JUndefined);
      ("presence_penalty", js_or (opt_chain options "presence_penalty") JUndefined);
      ("tools", js_or (own request "tools") JUndefined);
      ("tool_choice", js_or (opt_chain options "tool_choice") JUndefined);
      ("response_format", js_or (opt_chain options "response_format") JUndefined) ]).

(* ================================================================= *)
(** ** The response translators (server.js 158-297) *)

(** The three object literals of [translateOpenAIToOllamaChat] differ in
    their last three properties only; the shared ones are evaluated first,
    in this order, and only they can throw. *)
Definition chat_literal (response pe ec tt : JSValue) : option JSValue :=
  created <- prop response "created" ;;
  created_at <- Date_toISOString created ;;
  choices <- prop response "choices" ;;
  choice <- index0 choices ;;
  message <- prop choice "message" ;;
  role <- prop message "role" ;;
  content <- prop message "content" ;;
  Some (JObj
    [ ("model", own response "model");
      ("created_at", JStr created_at);
      ("message", JObj [("role", role); ("content", content)]);
      ("done", JBool (is_str "stop" (own choice "finish_reason")));
      ("prompt_eval_count", pe);
      ("eval_count", ec);
      ("total_tokens", tt) ]).

(** Lines 158-204. *)
Definition translateOpenAIToOllamaChat (response : JSValue) : option JSValue :=
  usage <- prop response "usage" ;;
  if truthy usage then
    chat_literal response
      (js_or (own usage "prompt_tokens") (JNum 0))
      (js_or (own usage "completion_tokens") (JNum 0))
      (js_or (own usage "total_tokens") (JNum 0))
  else
    let timings := own response "timings" in
    if truthy timings && negb (is_undefined (own timings "cache_n")) then
      chat_literal response
        (own timings "cache_n")
        (js_or (own timings "predicted_n") (JNum 0))
        (js_add (own timings "cache_n") (js_or (own timings "predicted_n") (JNum 0)))
    else
      chat_literal response (JNum 0) (JNum 0) (JNum 0).

(** The same for [translateOpenAIToOllamaGenerate]. *)
Definition generate_literal (response pe ec tt : JSValue) : option JSValue :=
  created <- prop response "created" ;;
  created_at <- Date_toISOString created ;;
  choices <- prop response "choices" ;;
  choice <- index0 choices ;;
  message <- prop choice "message" ;;
  content <- prop message "content" ;;
  Some (JObj
    [ ("model", own response "model");
      ("created_at", JStr created_at);
      ("response", content);
      ("done", JBool (is_str "stop" (own choice "finish_reason")));
      ("prompt_eval_count", pe);
      ("eval_count", ec);
      ("total_tokens", tt) ]).

(** Lines 207-244. *)
Definition translateOpenAIToOllamaGenerate (response : JSValue) : option JSValue :=
  usage <- prop response "usage" ;;
  if truthy usage then
    generate_literal response
      (js_or (own usage "prompt_tokens") (JNum 0))
      (js_or (own usage "completion_tokens") (JNum 0))
      (js_or (own usage "total_tokens") (JNum 0))
  else
    let timings := own response "timings" in
    if truthy timings && negb (is_undefined (own timings "cache_n")) then
      generate_literal response
        (own timings "cache_n")
        (js_or (own timings "predicted_n") (JNum 0))
        (js_add (own timings "cache_n") (js_or (own timings "predicted_n") (JNum 0)))
    else
      generate_literal response (JNum 0) (JNum 0) (JNum 0).

(** Lines 270-280: the token counts of a streaming frame. *)
Definition stream_usage (response ollamaResponse : JSValue) : JSValue :=
  let usage := own response "usage" in
  let timings := own response "timings" in
  if truthy usage then
    assign (assign (assign ollamaResponse
      "prompt_eval_count" (js_or (own usage "prompt_tokens") (JNum 0)))
      "eval_count" (js_or (own usage "completion_tokens") (JNum 0)))
      "total_tokens" (js_or (own usage "total_tokens") (JNum 0))
  else if truthy timings && negb (is_undefined (own timings "cache_n")) then
    assign (assign (assign ollamaResponse
      "prompt_eval_count" (own timings "cache_n"))
      "eval_count" (js_or (own timings "predicted_n") (JNum 0)))
      "total_tokens"
        (js_add (own timings "cache_n") (js_or (own timings "predicted_n") (JNum 0)))
  else ollamaResponse.

(** Lines 283-294: the properties of the final frame. *)
Definition stream_final (response ollamaResponse : JSValue) : JSValue :=
  let timings := own response "timings" in
  let o := assign (assign ollamaResponse "done_reason" (JStr "stop")) "context" (JArr []) in
  if truthy timings then
    assign (assign (assign (assign o
      "total_duration" (js_or (own timings "total_duration") (JNum 0)))
      "load_duration" (js_or (own timings "load_duration") (JNum 0)))
      "prompt_eval_duration" (js_or (own timings "prompt_eval_duration") (JNum 0)))
      "eval_duration" (js_or (own timings "eval_duration") (JNum 0))
  else o.

(** Lines 247-297. *)
Definition translateOpenAIStreamToOllamaChat (response : JSValue) : option JSValue :=
  choices <- prop response "choices" ;;
  choice <- index0 choices ;;
  d <- prop choice "delta" ;;
  let delta := js_or d (JObj []) in
  let message :=
    JObj [ ("role", js_or (own delta "role") (JStr "assistant"));
           ("content", js_or (own delta "content") (JStr "")) ] in
  let message :=
    if truthy (own delta "tool_calls") && js_gt0 (own (own delta "tool_calls") "length")
    then assign message "tool_calls" (own delta "tool_calls")
    else message in
  let isDone := truthy (own choice "finish_reason") in
  let ollamaResponse :=
    JObj [ ("model", own response "model");
           ("created_at", JStr Date_now);
           ("message", message);
           ("done", JBool isDone) ] in
  let ollamaResponse := stream_usage response ollamaResponse in
  Some (if isDone then stream_final response ollamaResponse else ollamaResponse).

(* ================================================================= *)
(** ** The non-streaming endpoints (server.js 300-349, 588-615) *)

(** What [await openaiClient.post(...)] can do: resolve with [data], or
    reject with an error that carries a [response] (the upstream answered
    with a status outside 2xx) and a [code]. *)
Record AxiosError : Type := {
  err_response : option (Z * JSValue);
  err_code : JSValue
}.

Inductive Outcome : Type :=
| Resolved (data : JSValue)
| Rejected (e : AxiosError).

(** [res.status(s).json(b)]; [res.json(b)] keeps the status 200. *)
Record Reply : Type := { status : Z; body : JSValue }.

Definition server_error : JSValue :=
  JObj [("error", JObj [ ("message", JStr "Internal server error");
                         ("type", JStr "server_error") ])].

Definition timeout_error : JSValue :=
  JObj [("error",
         JObj [ ("message",
                 JStr "Request timeout - the OpenAI server took too long to respond");
                ("type", JStr "timeout_error") ])].

(** The [catch] blocks at lines 310-330 and 595-615.  [None] is an error
    thrown by the gateway's own code: it has neither [response] nor [code]. *)
Definition catch_reply (error : option AxiosError) : Reply :=
  match error with
  | Some e =>
      match err_response e with
      | Some (st, data) => {| status := st; body := JObj [("error", data)] |}
      | None =>
          if is_str "ECONNABORTED" (err_code e)
          then {| status := 504; body := timeout_error |}
          else {| status := 500; body := server_error |}
      end
  | None => {| status := 500; body := server_error |}
  end.

(** [POST /api/generate], lines 300-331. *)
Definition api_generate (post : JSValue -> Outcome) (ollamaRequest : JSValue) : Reply :=
  match translateOllamaToOpenAI ollamaRequest with
  | None => catch_reply None
  | Some openaiRequest =>
      match post openaiRequest with
      | Rejected e => catch_reply (Some e)
      | Resolved data =>
          match translateOpenAIToOllamaGenerate data with
          | None => catch_reply None
          | Some ollamaResponse => {| status := 200; body := ollamaResponse |}
          end
      end
  end.

(** [v.length === 0] *)
Definition length_is_zero (v : JSValue) : bool :=
  match own v "length" with
  | JNum 0 => true
  | JFloat f => is_zero f
  | _ => false
  end.

(** Lines 337-342: the streaming decision.  [accept_header] is
    [req.headers.accept], a string when the header was sent. *)
Definition isStreaming (ollamaRequest : JSValue) (accept_header : option string)
  : option bool :=
  let accept := match accept_header with Some a => a | None => "" end in
  stream <- prop ollamaRequest "stream" ;;
  let isStreaming := truthy stream || includes "text/event-stream" accept in
  let messages := own ollamaRequest "messages" in
  Some (if isStreaming && (negb (truthy messages) || length_is_zero messages)
        then false else isStreaming).

(** [POST /api/chat] when [isStreaming] is false: lines 344 and 588-615. *)
Definition api_chat_single (post : JSValue -> Outcome) (ollamaRequest : JSValue) : Reply :=
  match translateOllamaToOpenAI ollamaRequest with
  | None => catch_reply None
  | Some openaiRequest =>
      match post openaiRequest with
      | Rejected e => catch_reply (Some e)
      | Resolved data =>
          match translateOpenAIToOllamaChat data with
          | None => catch_reply None
          | Some ollamaResponse => {| status := 200; body := ollamaResponse |}
          end
      end
  end.

(** What [POST /api/chat] does with a request: one reply, or a reply opened
    as an event stream (line 352) whose frames the stream handlers below
    write while the upstream is called with [stream: true] (lines 359-362). *)
Inductive ChatAnswer : Type :=
| Single (reply : Reply)
| Streamed (openaiRequest : JSValue).

(** [POST /api/chat], lines 334-616. *)
Definition api_chat (post : JSValue -> Outcome) (ollamaRequest : JSValue)
  (accept_header : option string) : ChatAnswer :=
  match isStreaming ollamaRequest accept_header with
  | None => Single (catch_reply None)
  | Some false => Single (api_chat_single post ollamaRequest)
  | Some true =>
      match translateOllamaToOpenAI ollamaRequest with
      | None => Single (catch_reply None)
      | Some openaiRequest => Streamed (assign openaiRequest "stream" (JBool true))
      end
  end.

(* ================================================================= *)
(** ** The stream handlers of POST /api/chat (server.js 367-576) *)

(** What is handed to [res.write]: [JSON.stringify(v) + '\n'] or a literal
    text.  The text of a serialised object starts with an opening brace, so
    it is never the terminal marker. *)
Inductive Written : Type :=
| WJson (v : JSValue)
| WText (s : string).

(** The calls made on the response object [res], in the order they are
    made.  [res.flush()] is not among them: [server.js] defines no [flush],
    installs no middleware that adds one, and is written in a syntax
    (optional chaining) that needs a Node.js release whose response objects
    have none, so each of its seven [res.flush()] is a TypeError.  Inside a
    [try] it passes control to the [catch] block; elsewhere it leaves the
    handler uncaught. *)
Inductive ResCall : Type :=
| ResWrite (w : Written)
| ResEnd.

(** The terminal marker, the text of [res.write('[DONE]\n')]. *)
Definition DONE : Written := WText ("[DONE]" ++ nl).

(** The variables the four handlers close over (lines 367-369), the calls
    made on [res] so far, and whether a handler was left by an exception
    that nothing catches.  The handlers run as event listeners, outside the
    [try] of the route, and [server.js] registers no handler for uncaught
    exceptions: Node.js ends the process on it. *)
Record Session : Type := {
  responseBuffer : string;
  firstChunk : bool;
  streamEnded : bool;
  calls : list ResCall;
  crashed : bool
}.

Definition new_session : Session :=
  {| responseBuffer := ""; firstChunk := true; streamEnded := false; calls := [];
     crashed := false |}.

Definition emit (cs : list ResCall) (st : Session) : Session :=
  {| responseBuffer := responseBuffer st;
     firstChunk := firstChunk st;
     streamEnded := streamEnded st;
     calls := calls st ++ cs;
     crashed := crashed st |}.

(** Calls on [res] followed by [streamEnded = true]. *)
Definition finish (cs : list ResCall) (st : Session) : Session :=
  {| responseBuffer := responseBuffer st;
     firstChunk := firstChunk st;
     streamEnded := true;
     calls := calls st ++ cs;
     crashed := crashed st |}.

(** [res.flush()] outside every [try]: the TypeError leaves the handler. *)
Definition throw_uncaught (st : Session) : Session :=
  {| responseBuffer := responseBuffer st;
     firstChunk := firstChunk st;
     streamEnded := streamEnded st;
     calls := calls st;
     crashed := true |}.

Definition set_buffer (b : string) (st : Session) : Session :=
  {| responseBuffer := b;
     firstChunk := firstChunk st;
     streamEnded := streamEnded st;
     calls := calls st;
     crashed := crashed st |}.

Definition clear_firstChunk (st : Session) : Session :=
  {| responseBuffer := responseBuffer st;
     firstChunk := false;
     streamEnded := streamEnded st;
     calls := calls st;
     crashed := crashed st |}.

(** How the body of a loop over lines is left: on to the next line, or out
    of the handler, by a [return] or by an exception. *)
Inductive Flow : Type := Next | Return.

(** What the head of the [try] block yields (lines 400-409 and 491-506):
    [None] when [JSON.parse], the read of [jsonData.error] or the translator
    throws; the error object of the payload; or the translated delta. *)
Inductive Payload : Type :=
| PError (e : JSValue)
| PDelta (ollamaData : JSValue).

Definition read_payload (data : string) : option Payload :=
  jsonData <- JSON_parse data ;;
  e <- prop jsonData "error" ;;
  if truthy e then Some (PError e)
  else ollamaData <- translateOpenAIStreamToOllamaChat jsonData ;;
       Some (PDelta ollamaData).

Definition parse_error : JSValue :=
  JObj [("error", JObj [ ("message", JStr "Error parsing response");
                         ("type", JStr "parse_error") ])].

(** Lines 411-419. *)
Definition firstChunkData (ollamaData : JSValue) : JSValue :=
  JObj [ ("model", own ollamaData "model");
         ("created_at", own ollamaData "created_at");
         ("message", JObj [("role", JStr "assistant"); ("content", JStr "")]);
         ("done", JBool false);
         ("prompt_eval_count", own ollamaData "prompt_eval_count");
         ("eval_count", own ollamaData "eval_count");
         ("total_tokens", own ollamaData "total_tokens") ].

(** Lines 424-432. *)
Definition contentChunk (ollamaData : JSValue) : JSValue :=
  JObj [ ("model", own ollamaData "model");
         ("created_at", own ollamaData "created_at");
         ("message", own ollamaData "message");
         ("done", JBool false);
         ("prompt_eval_count", own ollamaData "prompt_eval_count");
         ("eval_count", own ollamaData "eval_count");
         ("total_tokens", own ollamaData "total_tokens") ].

(** Lines 436-450. *)
Definition doneChunk (ollamaData : JSValue) : JSValue :=
  JObj [ ("model", own ollamaData "model");
         ("created_at", own ollamaData "created_at");
         ("message", own ollamaData "message");
         ("done", JBool true);
         ("prompt_eval_count", own ollamaData "prompt_eval_count");
         ("eval_count", own ollamaData "eval_count");
         ("total_tokens", own ollamaData "total_tokens");
         ("done_reason", own ollamaData "done_reason");
         ("context", own ollamaData "context");
         ("total_duration", own ollamaData "total_duration");
         ("load_duration", own ollamaData "load_duration");
         ("prompt_eval_duration", own ollamaData "prompt_eval_duration");
         ("eval_duration", own ollamaData "eval_duration") ].

(** Lines 459-465: the [catch] block of the 'data' loop. *)
Definition data_catch (st : Session) : Session :=
  finish [ResWrite (WJson parse_error); ResWrite DONE; ResEnd] st.

(** Lines 410-465: what the 'data' handler does with a translated delta.
    After the marker of a finishing delta (454) comes [res.flush()] (455),
    inside the [try]: lines 456-457 are not reached and the [catch] block
    runs. *)
Definition data_delta (ollamaData : JSValue) (st : Session) : Session :=
  let st :=
    if firstChunk st
    then clear_firstChunk (emit [ResWrite (WJson (firstChunkData ollamaData))] st)
    else st in
  let st :=
    if truthy (js_or (own (own ollamaData "message") "content")
                     (own (own ollamaData "message") "tool_calls"))
    then emit [ResWrite (WJson (contentChunk ollamaData))] st
    else st in
  let st :=
    if truthy (own ollamaData "done")
    then emit [ResWrite (WJson (doneChunk ollamaData))] st
    else st in
  if truthy (own ollamaData "done")
  then data_catch (emit [ResWrite DONE] st)
  else st.

(** Lines 388-466: the body of the loop of the 'data' handler.  At the end
    record the marker is written (392) and [res.flush()] (393), outside the
    [try], leaves the handler before [res.end()] and the assignment of
    [streamEnded]. *)
Definition data_line (line : string) (st : Session) : Session * Flow :=
  if startsWith "data: " line then
    let data := substring_from 6 line in
    if data =? "[DONE]" then
      (if negb (streamEnded st)
       then throw_uncaught (emit [ResWrite DONE] st)
       else st, Return)
    else
      match read_payload data with
      | Some (PError e) =>
          (finish [ResWrite (WJson (JObj [("error", e)])); ResWrite DONE; ResEnd] st,
           Return)
      | Some (PDelta ollamaData) => (data_delta ollamaData st, Next)
      | None => (data_catch st, Next)
      end
  else (st, Next).

(** Line 387: [for (const line of lines)], left early by [return] or by the
    exception. *)
Fixpoint data_loop (lines : list string) (st : Session) : Session :=
  match lines with
  | [] => st
  | line :: rest =>
      match data_line line st with
      | (st', Return) => st'
      | (st', Next) => data_loop rest st'
      end
  end.

(** Lines 382-468: [openaiResponse.data.on('data', ...)].  [lines.pop()]
    takes the last element of the split, which always has one. *)
Definition on_data (chunk : string) (st : Session) : Session :=
  if streamEnded st then st
  else
    let lines := split_nl (responseBuffer st ++ chunk) in
    data_loop (removelast lines) (set_buffer (last lines "") st).

(** Lines 523-537: the [catch] block of the 'end' loop.  Its own
    [res.flush()] (534) is not inside a [try]: the handler is left after
    the marker. *)
Definition end_catch (st : Session) : Session :=
  throw_uncaught (emit [ResWrite (WJson parse_error); ResWrite DONE] st).

(** Lines 477-538: the body of the loop of the 'end' handler.  Each of its
    branches that writes the marker goes on to a [res.flush()]: the one of
    the end record (483) leaves the handler, those of the [try] block (500,
    519) pass control to the [catch] block. *)
Definition end_line (line : string) (st : Session) : Session * Flow :=
  if startsWith "data: " line then
    let data := substring_from 6 line in
    if data =? "[DONE]" then
      (if negb (streamEnded st)
       then throw_uncaught (emit [ResWrite DONE] st)
       else st, Return)
    else
      match read_payload data with
      | Some (PError e) =>
          (end_catch
             (emit [ResWrite (WJson (JObj [("error", e)])); ResWrite DONE] st),
           Return)
      | Some (PDelta ollamaData) =>
          let st :=
            emit [ResWrite (WJson
                    (JObj [ ("model", own ollamaData "model");
                            ("created_at", own ollamaData "created_at");
                            ("message", own ollamaData "message");
                            ("done", own ollamaData "done") ]))] st in
          if truthy (own ollamaData "done")
          then (end_catch (emit [ResWrite DONE] st), Return)
          else (st, Next)
      | None => (end_catch st, Return)
      end
  else (st, Next).

Fixpoint end_loop (lines : list string) (st : Session) : Session * Flow :=
  match lines with
  | [] => (st, Next)
  | line :: rest =>
      match end_line line st with
      | (st', Return) => (st', Return)
      | (st', Next) => end_loop rest st'
      end
  end.

(** Lines 471-550: [openaiResponse.data.on('end', ...)].  After the marker
    of line 544, [res.flush()] (545) leaves the handler. *)
Definition on_end (st : Session) : Session :=
  if streamEnded st then st
  else
    match (if negb (trim (responseBuffer st) =? "")
           then end_loop (split_nl (responseBuffer st)) st
           else (st, Next)) with
    | (st', Return) => st'
    | (st', Next) =>
        if negb (streamEnded st')
        then throw_uncaught (emit [ResWrite DONE] st')
        else st'
    end.

(** Lines 552-560: [openaiResponse.data.on('close', ...)]. *)
Definition on_close (st : Session) : Session :=
  if streamEnded st then st
  else finish [ResWrite DONE; ResEnd] st.

(** Lines 562-576: [openaiResponse.data.on('error', ...)]; [message] is
    [error.message]. *)
Definition on_error (message : JSValue) (st : Session) : Session :=
  if streamEnded st then st
  else
    finish
      [ ResWrite (WJson (JObj [("error",
           JObj [ ("message", js_or message (JStr "Stream error"));
                  ("type", JStr "stream_error") ])]));
        ResWrite DONE; ResEnd ] st.

(** The events of the upstream body stream. *)
Inductive StreamEvent : Type :=
| OnData (chunk : string)
| OnEnd
| OnClose
| OnError (message : JSValue).

(** An event reaches its handler as long as the process runs. *)
Definition handle (ev : StreamEvent) (st : Session) : Session :=
  if crashed st then st
  else
    match ev with
    | OnData chunk => on_data chunk st
    | OnEnd => on_end st
    | OnClose => on_close st
    | OnError message => on_error message st
    end.

(** The handlers run one after the other, each to completion. *)
Definition run (evs : list StreamEvent) (st : Session) : Session :=
  fold_left (fun st ev => handle ev st) evs st.

(** A streaming session: the chunks, then 'end' and 'close'. *)
Definition session (chunks : list string) : Session :=
  run (map OnData chunks ++ [OnEnd; OnClose]) new_session.

End Gateway.

(* ================================================================= *)
(** ** Reading the calls on [res] *)

(** The arguments of the [res.write] calls, in order. *)
Fixpoint writes (cs : list ResCall) : list Written :=
  match cs with
  | [] => []
  | ResWrite w :: rest => w :: writes rest
  | _ :: rest => writes rest
  end.

(** The [res.write] calls made before the first [res.end()]: what reaches
    the client. *)
Fixpoint delivered (cs : list ResCall) : list Written :=
  match cs with
  | [] => []
  | ResEnd :: _ => []
  | ResWrite w :: rest => w :: delivered rest
  end.

Definition is_DONE (w : Written) : bool :=
  match w with
  | WText s => s =? "[DONE]" ++ nl
  | WJson _ => false
  end.

Definition count_DONE (ws : list Written) : nat :=
  List.length (filter is_DONE ws).

(** A frame: a written object with a [message] and a [done] flag. *)
Definition frame_done (w : Written) : JSValue :=
  match w with WJson v => own v "done" | WText _ => JUndefined end.

Definition frame_content (w : Written) : JSValue :=
  match w with WJson v => own (own v "message") "content" | WText _ => JUndefined end.

(** The synthetic opening frame: assistant role, empty content, [done] false. *)
Definition is_opening (w : Written) : bool :=
  match w with
  | WJson v =>
      is_str "" (own (own v "message") "content")
      && is_str "assistant" (own (own v "message") "role")
      && is_undefined (own (own v "message") "tool_calls")
      && match own v "done" with JBool false => true | _ => false end
  | WText _ => false
  end.

(** A content frame: a frame whose message has content or tool calls. *)
Definition is_content (w : Written) : bool :=
  match w with
  | WJson v =>
      truthy (js_or (own (own v "message") "content")
                    (own (own v "message") "tool_calls"))
  | WText _ => false
  end.

(* ================================================================= *)
(** ** A host to run the handlers on

    [JSON.parse] on JSON text whose strings use the short escapes,
    [toISOString] by the civil calendar, and ToNumber on primitives, a
    string being read as a JSON number literal.  The inputs of the examples
    below stay within that. *)

Module Sample.

Definition is_digit (c : ascii) : bool :=
  let n := nat_of_ascii c in ((48 <=? n) && (n <=? 57))%nat.

Definition json_space (c : ascii) : bool :=
  let n := nat_of_ascii c in ((n =? 32) || (n =? 9) || (n =? 10) || (n =? 13))%nat.

Fixpoint skip_ws (s : string) : string :=
  match s with
  | String c s' => if json_space c then skip_ws s' else s
  | EmptyString => EmptyString
  end.

Fixpoint read_digits (acc : Z) (s : string) : Z * string :=
  match s with
  | String c s' =>
      if is_digit c
      then read_digits (10 * acc + Z.of_nat (nat_of_ascii c - 48)) s'
      else (acc, s)
  | EmptyString => (acc, s)
  end.

(** One digit at least. *)
Definition read_some_digits (acc : Z) (s : string) : option (Z * string) :=
  match s with
  | String c _ => if is_digit c then Some (read_digits acc s) else None
  | EmptyString => None
  end.

(** The digits of a number literal without its sign, as [d] and [x] of
    [d * 10 ^ x]: an integer part without leading zero, then a fraction and
    an exponent if they are there. *)
Definition read_literal (s : string) : option (Z * Z * string) :=
  match s with
  | String c s' =>
      let leading_zero :=
        Ascii.eqb c "0" && match s' with String d _ => is_digit d | _ => false end in
      if leading_zero then None
      else
        whole <- read_some_digits 0 s ;;
        fraction <-
          match snd whole with
          | String dot s1 =>
              if Ascii.eqb dot "." then
                f <- read_some_digits (fst whole) s1 ;;
                Some (fst f,
                      (- Z.of_nat (String.length s1 - String.length (snd f)))%Z,
                      snd f)
              else Some (fst whole, 0%Z, snd whole)
          | EmptyString => Some (fst whole, 0%Z, snd whole)
          end ;;
        let '(d, x, rest) := fraction in
        match rest with
        | String e s2 =>
            if Ascii.eqb e "e" || Ascii.eqb e "E" then
              match s2 with
              | String sign s3 =>
                  if Ascii.eqb sign "-" then
                    n <- read_some_digits 0 s3 ;; Some (d, (x - fst n)%Z, snd n)
                  else if Ascii.eqb sign "+" then
                    n <- read_some_digits 0 s3 ;; Some (d, (x + fst n)%Z, snd n)
                  else
                    n <- read_some_digits 0 s2 ;; Some (d, (x + fst n)%Z, snd n)
              | EmptyString => None
              end
            else Some (d, x, rest)
        | EmptyString => Some (d, x, rest)
        end
  | EmptyString => None
  end.

(** The double nearest to [d * 10 ^ x], for [d >= 0].  A quotient is taken
    with more than sixty bits and one more bit that tells whether it is
    exact, which rounds as the exact value does. *)
Definition decimal (d x : Z) : float :=
  if (0 <=? x)%Z then Z2float (d * 10 ^ x)
  else
    let den := (10 ^ (- x))%Z in
    let shift := (Z.log2 den + 64)%Z in
    let q := ((d * 2 ^ shift) / den)%Z in
    let exact := ((d * 2 ^ shift) mod den =? 0)%Z in
    SF2Prim (binary_normalize prec emax
               (2 * q + (if exact then 0 else 1)) (- (shift + 1)) false).

(** A number literal, with its sign. *)
Definition read_number (s : string) : option (JSValue * string) :=
  match s with
  | String c rest =>
      if Ascii.eqb c "-" then
        r <- read_literal rest ;;
        let '(d, x, rest') := r in Some (number (- decimal d x)%float, rest')
      else
        r <- read_literal s ;;
        let '(d, x, rest') := r in Some (number (decimal d x), rest')
  | EmptyString => None
  end.

Definition unescape (c : ascii) : option ascii :=
  let n := nat_of_ascii c in
  if (n =? 34)%nat then Some c                       (* quote *)
  else if (n =? 92)%nat then Some c                  (* backslash *)
  else if (n =? 47)%nat then Some c                  (* slash *)
  else if (n =? 110)%nat then Some nl_char           (* n *)
  else if (n =? 116)%nat then Some (ascii_of_nat 9)  (* t *)
  else if (n =? 114)%nat then Some (ascii_of_nat 13) (* r *)
  else if (n =? 98)%nat then Some (ascii_of_nat 8)   (* b *)
  else if (n =? 102)%nat then Some (ascii_of_nat 12) (* f *)
  else None.

(** The rest of a string literal, after its opening quote. *)
Fixpoint read_string (s : string) : option (string * string) :=
  match s with
  | EmptyString => None
  | String c s' =>
      let n := nat_of_ascii c in
      if (n =? 34)%nat then Some (EmptyString, s')
      else if (n =? 92)%nat then
        match s' with
        | String e s'' =>
            ch <- unescape e ;;
            r <- read_string s'' ;;
            Some (String ch (fst r), snd r)
        | EmptyString => None
        end
      else if (n <? 32)%nat then None
      else r <- read_string s' ;; Some (String c (fst r), snd r)
  end.

Section Containers.

Variable read_value : string -> option (JSValue * string).

(** The elements of an array, after the first one's position is reached. *)
Fixpoint read_elements (fuel : nat) (s : string) : option (list JSValue * string) :=
  match fuel with
  | O => None
  | S fuel' =>
      r <- read_value s ;;
      match skip_ws (snd r) with
      | String c rest =>
          if Ascii.eqb c "," then
            more <- read_elements fuel' rest ;;
            Some (fst r :: fst more, snd more)
          else if Ascii.eqb c "]" then Some ([fst r], rest)
          else None
      | EmptyString => None
      end
  end.

(** The members of an object; a repeated key keeps its place and takes its
    last value. *)
Fixpoint read_members (fuel : nat) (s : string)
  : option (list (string * JSValue) * string) :=
  match fuel with
  | O => None
  | S fuel' =>
      match skip_ws s with
      | String q s1 =>
          if Ascii.eqb q (ascii_of_nat 34) then
            k <- read_string s1 ;;
            match skip_ws (snd k) with
            | String colon s2 =>
                if Ascii.eqb colon ":" then
                  r <- read_value s2 ;;
                  match skip_ws (snd r) with
                  | String c rest =>
                      if Ascii.eqb c "," then
                        more <- read_members fuel' rest ;;
                        Some ((fst k,
                               match lookup (fst k) (fst more) with
                               | Some later => later
                               | None => fst r
                               end)
                                :: filter (fun kv => negb (fst kv =? fst k)) (fst more),
                              snd more)
                      else if Ascii.eqb c "}" then Some ([(fst k, fst r)], rest)
                      else None
                  | EmptyString => None
                  end
                else None
            | EmptyString => None
            end
          else None
      | EmptyString => None
      end
  end.

End Containers.

Fixpoint read_value (fuel : nat) (s : string) : option (JSValue * string) :=
  match fuel with
  | O => None
  | S fuel' =>
      match skip_ws s with
      | EmptyString => None
      | String c rest =>
          if Ascii.eqb c "{" then
            match skip_ws rest with
            | String c' rest' =>
                if Ascii.eqb c' "}" then Some (JObj [], rest')
                else r <- read_members (read_value fuel') fuel' rest ;;
                     Some (JObj (fst r), snd r)
            | EmptyString => None
            end
          else if Ascii.eqb c "[" then
            match skip_ws rest with
            | String c' rest' =>
                if Ascii.eqb c' "]" then Some (JArr [], rest')
                else r <- read_elements (read_value fuel') fuel' rest ;;
                     Some (JArr (fst r), snd r)
            | EmptyString => None
            end
          else if Ascii.eqb c (ascii_of_nat 34) then
            r <- read_string rest ;; Some (JStr (fst r), snd r)
          else if Ascii.eqb c "-" || is_digit c then
            read_number (String c rest)
          else if startsWith "true" (String c rest) then
            Some (JBool true, substring_from 4 (String c rest))
          else if startsWith "false" (String c rest) then
            Some (JBool false, substring_from 5 (String c rest))
          else if startsWith "null" (String c rest) then
            Some (JNull, substring_from 4 (String c rest))
          else None
      end
  end.

Definition parse (text : string) : option JSValue :=
  r <- read_value (S (String.length text)) text ;;
  match skip_ws (snd r) with
  | EmptyString => Some (fst r)
  | String _ _ => None
  end.

(** The last [width] decimal digits of [n]. *)
Fixpoint pad (width : nat) (n : Z) : string :=
  match width with
  | O => EmptyString
  | S w => pad w (n / 10) ++ String (ascii_of_nat (48 + Z.to_nat (n mod 10))) EmptyString
  end.

(** The ISO-8601 text of a number of milliseconds since the epoch, by the
    civil calendar of the days since 1970-01-01. *)
Definition iso_of_millis (ms : Z) : option string :=
  if (Z.abs ms <=? 8640000000000000)%Z then
    let t := (ms / 1000)%Z in
    let days := (t / 86400)%Z in
    let secs := (t mod 86400)%Z in
    let z := (days + 719468)%Z in
    let era := (z / 146097)%Z in
    let doe := (z mod 146097)%Z in
    let yoe := ((doe - doe / 1460 + doe / 36524 - doe / 146096) / 365)%Z in
    let doy := (doe - (365 * yoe + yoe / 4 - yoe / 100))%Z in
    let mp := ((5 * doy + 2) / 153)%Z in
    let d := (doy - (153 * mp + 2) / 5 + 1)%Z in
    let m := (if mp <? 10 then mp + 3 else mp - 9)%Z in
    let y := (yoe + era * 400 + (if m <=? 2 then 1 else 0))%Z in
    let year :=
      if ((0 <=? y) && (y <=? 9999))%Z then pad 4 y
      else ((if (y <? 0)%Z then "-" else "+") ++ pad 6 (Z.abs y))%string in
    Some (year ++ "-" ++ pad 2 m ++ "-" ++ pad 2 d ++ "T"
            ++ pad 2 (secs / 3600) ++ ":" ++ pad 2 (secs / 60 mod 60) ++ ":"
            ++ pad 2 (secs mod 60) ++ "." ++ pad 3 (ms mod 1000) ++ "Z")%string
  else None.

Definition to_number (v : JSValue) : JSValue :=
  match v with
  | JNull => JNum 0
  | JBool b => JNum (if b then 1 else 0)
  | JNum _ | JFloat _ => v
  | JStr s =>
      match trim s with
      | EmptyString => JNum 0
      | t =>
          match read_number t with
          | Some (n, EmptyString) => n
          | _ => JNaN
          end
      end
  | _ => JNaN
  end.

(** The integer part of a finite double. *)
Definition truncate (f : float) : option Z :=
  match Prim2SF f with
  | S754_zero _ => Some 0%Z
  | S754_finite s m e =>
      let z := if (0 <=? e)%Z then (Z.pos m * 2 ^ e)%Z else (Z.pos m / 2 ^ (- e))%Z in
      Some (if s then (- z)%Z else z)
  | _ => None
  end.

(** [new Date(created * 1000).toISOString()]: the product as doubles, then
    its integer part as the time value. *)
Definition date_iso (created : JSValue) : option string :=
  match as_float (to_number created) with
  | Some seconds =>
      match truncate (seconds * 1000)%float with
      | Some ms => iso_of_millis ms
      | None => None
      end
  | None => None
  end.

Definition add_primitives (a b : JSValue) : JSValue :=
  match to_number a, to_number b with
  | JNum x, JNum y => JNum (x + y)
  | x, y =>
      match as_float x, as_float y with
      | Some x', Some y' => number (x' + y')%float
      | _, _ => JNaN
      end
  end.

#[export] Instance host : Host := {
  JSON_parse := parse;
  Date_toISOString := date_iso;
  Date_now := "2024-01-01T00:00:00.000Z";
  ToNumber := to_number;
  add_other := add_primitives
}.

End Sample.

(** JSON text is written with apostrophes for its double quotes. *)
Fixpoint dq (s : string) : string :=
  match s with
  | EmptyString => EmptyString
  | String c s' =>
      String (if Ascii.eqb c "'" then ascii_of_nat 34 else c) (dq s')
  end.

(** The body of a request or of an upstream answer, from its JSON text. *)
Definition json (text : string) : JSValue :=
  match Sample.parse (dq text) with
  | Some v => v
  | None => JUndefined
  end.

(* ================================================================= *)
(** ** What the design document claims, where it differs from the code *)

(** The streaming decision in the document's words: streaming when the
    request asks for it or the Accept header signals event-stream, unless
    the normalized message list is empty. *)
Definition claimed_isStreaming (ollamaRequest : JSValue) (accept_header : option string)
  : option bool :=
  let accept := match accept_header with Some a => a | None => "" end in
  normalized <- normalize_messages ollamaRequest ;;
  Some ((truthy (own ollamaRequest "stream") || includes "text/event-stream" accept)
        && negb (is_nil normalized)).

(** An entry of [messages] has a field when reading it gives a value. *)
Definition has_field (k : string) (item : JSValue) : bool :=
  negb (is_undefined (own item k)).

(** The normalized sequence in the document's words: the entries that have
    both [role] and [content], in order, unchanged. *)
Definition claimed_messages (items : list JSValue) : list JSValue :=
  filter (fun item => has_field "role" item && has_field "content" item) items.

(** What the loop over [request.messages] keeps, and what it pushes for an
    entry it keeps. *)
Definition kept (item : JSValue) : bool :=
  truthy (own item "role") && truthy (own item "content").

Definition pushed (item : JSValue) : JSValue :=
  mk_message (own item "role") (own item "content").

(** The delimited prompts the tag parser reads span by span.  A span opens
    on a line that starts with its tag and carries text; the lines that
    follow are plain; it is closed by a line that is a closing tag (of
    either role), or left open. *)
Inductive Tag : Type := User | Assistant.

Definition tag_name (t : Tag) : string :=
  match t with User => "user" | Assistant => "assistant" end.

Definition open_tag (t : Tag) : string :=
  match t with User => "<user>" | Assistant => "<assistant>" end.

Definition close_tag (t : Tag) : string :=
  match t with User => "</user>" | Assistant => "</assistant>" end.

Record Span : Type := {
  span_role : Tag;
  span_first : string;
  span_more : list string;
  span_close : option Tag
}.

Fixpoint no_nl (s : string) : bool :=
  match s with
  | EmptyString => true
  | String c s' => negb (Ascii.eqb c nl_char) && no_nl s'
  end.

(** A line that is neither an opening line nor a closing line. *)
Definition plain_line (l : string) : bool :=
  no_nl l
  && negb (startsWith "<user>" l) && negb (startsWith "<assistant>" l)
  && negb (l =? "</user>") && negb (l =? "</assistant>").

Definition span_ok (sp : Span) : bool :=
  negb (span_first sp =? "") && no_nl (span_first sp)
  && forallb plain_line (span_more sp).

Definition span_lines (sp : Span) : list string :=
  (open_tag (span_role sp) ++ span_first sp)%string
    :: span_more sp
    ++ match span_close sp with Some t => [close_tag t] | None => [] end.

(** The text of a span, from the opening tag to the end of its last line. *)
Definition span_text (sp : Span) : string :=
  join_nl (span_first sp :: span_more sp).

Definition span_message (sp : Span) : JSValue :=
  mk_message (JStr (tag_name (span_role sp))) (JStr (trim (span_text sp))).

(** The prompt made of plain lines [before] and then the spans. *)
Definition render (before : list string) (spans : list Span) : string :=
  join_nl (before ++ concat (map span_lines spans)).

(** While content is accumulated there is a role to flush it with. *)
Definition consistent (st : TagState) : Prop :=
  currentContent st = ""%string \/ truthy (currentRole st) = true.

(** The messages pushed so far, with the content that end of input would
    flush. *)
Definition settled (st : TagState) : list JSValue := tagMessages (flush_open st).

(** [response.choices[0]], the read every response translator starts from. *)
Definition first_choice (response : JSValue) : option JSValue :=
  choices <- prop response "choices" ;; index0 choices.

(** The three token counts of a translated reply. *)
Definition token_counts (reply : JSValue) : JSValue * JSValue * JSValue :=
  (own reply "prompt_eval_count", own reply "eval_count", own reply "total_tokens").

(** The value that is serialized under a key of the outbound request, if
    the key is written at all. *)
Definition sent (k : string) (openaiRequest : JSValue) : option JSValue :=
  lookup k (on_wire openaiRequest).

(** What the JSON text holds for a property of an object literal: nothing
    when its value is [undefined], the text of the value otherwise. *)
Definition unless_undefined (v : JSValue) : option JSValue :=
  if is_undefined v then None else Some (stringified v).

(** The same after [v || undefined]: nothing when the value is falsy. *)
Definition unless_falsy (v : JSValue) : option JSValue :=
  if truthy v then Some (stringified v) else None.

(** Whether [res.end()] is among the calls. *)
Definition is_End (c : ResCall) : bool :=
  match c with ResEnd => true | _ => false end.

Definition res_ended (cs : list ResCall) : bool := existsb is_End cs.

(** The state of the response as the handlers keep it: [streamEnded] tells
    whether [res.end()] was called; the writes made before the first
    [res.end()] stop with the terminal marker; and a session that an
    uncaught exception has left was not ended and made the marker its last
    call. *)
Definition session_inv (st : Session) : Prop :=
  streamEnded st = res_ended (calls st)
  /\ (streamEnded st = true -> exists ws, delivered (calls st) = ws ++ [DONE])
  /\ (crashed st = true ->
      streamEnded st = false /\ exists cs, calls st = cs ++ [ResWrite DONE]).

(** The opening frame, if there is one, is the only one and no content frame
    comes before it. *)
Fixpoint opened_once (ws : list Written) : bool :=
  match ws with
  | [] => true
  | w :: rest =>
      if is_opening w then negb (existsb is_opening rest)
      else negb (is_content w) && opened_once rest
  end.

(** What the 'data' handler has written, as far as the opening frame goes:
    until the first delta there is neither an opening nor a content frame;
    from then on there is the one opening frame, before any content frame. *)
Definition opening_inv (st : Session) : Prop :=
  opened_once (writes (calls st)) = true
  /\ existsb is_opening (writes (calls st)) = negb (firstChunk st).

(** Calls that write neither an opening nor a content frame. *)
Definition neutral (cs : list ResCall) : Prop :=
  existsb is_opening (writes cs) = false /\ existsb is_content (writes cs) = false.

(* ================================================================= *)
(** ** Inputs of the examples *)

(** One chunk of an upstream that reports usage after the last delta: the
    delta with the finish reason, the usage record without choices, and the
    end record. *)
Definition chunk_finish_then_usage : string :=
  (dq "data: {'model':'m','choices':[{'delta':{},'finish_reason':'stop'}]}"
   ++ nl ++ nl
   ++ dq "data: {'model':'m','choices':[],'usage':{'prompt_tokens':5,'completion_tokens':3,'total_tokens':8}}"
   ++ nl ++ nl ++ "data: [DONE]" ++ nl ++ nl)%string.

(** A delta with content whose line is not terminated by a newline. *)
Definition line_delta_Hi : string :=
  dq "data: {'model':'m','choices':[{'delta':{'content':'Hi'},'finish_reason':null}]}".

(** One chunk with the finishing delta followed by one more delta. *)
Definition chunk_finish_then_delta : string :=
  (dq "data: {'model':'m','choices':[{'delta':{},'finish_reason':'stop'}]}"
   ++ nl
   ++ dq "data: {'model':'m','choices':[{'delta':{'content':'late'},'finish_reason':null}]}"
   ++ nl)%string.

(** The streaming scenario of the design document: three deltas in two
    chunks, the first chunk ending in the middle of a line. *)
Definition scenario_chunk1 : string :=
  (dq "data: {'model':'m','choices':[{'delta':{'content':'Hel'},'finish_reason':null}]}"
   ++ nl ++ dq "data: {'model':'m','choi")%string.

Definition scenario_chunk2 : string :=
  (dq "ces':[{'delta':{'content':'lo'},'finish_reason':null}]}" ++ nl
   ++ dq "data: {'model':'m','choices':[{'delta':{},'finish_reason':'stop'}]}"
   ++ nl ++ nl ++ "data: [DONE]" ++ nl)%string.

Definition request_prompt_stream : JSValue := json "{'prompt':'hi','stream':true}".

Definition request_chat : JSValue :=
  json "{'messages':[{'role':'user','content':'hi'}],'stream':false}".

Definition upstream_401_body : JSValue :=
  json "{'error':{'message':'Invalid API key','type':'auth_error'}}".

Definition post_401 (openaiRequest : JSValue) : Outcome :=
  Rejected {| err_response := Some (401%Z, upstream_401_body);
              err_code := JStr "ERR_BAD_REQUEST" |}.

Definition items_empty_content : list JSValue :=
  [ json "{'role':'assistant','content':''}"; json "{'role':'user','content':'hi'}" ].

Definition items_extra_field : list JSValue :=
  [ json "{'role':'user','content':'hi','name':'bob'}" ].

Definition items_mixed : list JSValue :=
  [ json "{'role':'system','content':'be brief'}";
    json "{'role':'user'}";
    json "{'content':'orphan'}";
    json "{'role':'user','content':'hi'}" ].

Definition request_with (items : list JSValue) : JSValue :=
  JObj [("model", JStr "m"); ("messages", JArr items)].

Definition request_zero_penalties : JSValue :=
  json "{'prompt':'hi','options':{'repeat_penalty':0,'presence_penalty':0,'temperature':0}}".

Definition request_penalties : JSValue :=
  json "{'prompt':'hi','options':{'repeat_penalty':2,'presence_penalty':1,'temperature':0}}".

(** Options as clients send them, and a repeat penalty that is no number. *)
Definition request_fractions : JSValue :=
  json "{'prompt':'hi','options':{'repeat_penalty':1.1,'presence_penalty':0.5,'temperature':0.8,'num_predict':128}}".

Definition request_text_penalty : JSValue :=
  json "{'prompt':'hi','options':{'repeat_penalty':'abc'}}".

Definition prompt_tag_alone : string := ("<user>" ++ nl ++ "hello" ++ nl ++ "</user>")%string.

Definition prompt_inline_close : string := "<user>hi</user>".

Definition spans_example : list Span :=
  [ {| span_role := User; span_first := " hello"; span_more := ["there "];
       span_close := Some User |};
    {| span_role := Assistant; span_first := "ok"; span_more := [];
       span_close := Some User |};
    {| span_role := User; span_first := "again"; span_more := ["and again"];
       span_close := None |} ].

Definition response_usage_and_timings : JSValue :=
  json "{'model':'m','created':1700000000,'choices':[{'message':{'role':'assistant','content':'hi'},'finish_reason':'stop'}],'usage':{'prompt_tokens':5,'completion_tokens':3,'total_tokens':8},'timings':{'cache_n':1,'predicted_n':2}}".


Definition response_bare : JSValue :=
  json "{'model':'m','created':1700000000,'choices':[{'message':{'role':'assistant','content':'hi'},'finish_reason':'stop'}]}".

Definition response_no_choices : JSValue :=
  json "{'model':'m','created':1700000000,'choices':[],'usage':{'prompt_tokens':5,'completion_tokens':0,'total_tokens':5}}".

(* ================================================================= *)
(** ** More of the gateway: the listing endpoints (server.js 636-689) *)

Section Listing.

Context `{host : Host}.

(** Lines 640-644: the callback of [response.data.data.map]. *)
Definition tag_entry (model : JSValue) : option JSValue :=
  id <- prop model "id" ;;
  Some (JObj [("name", id); ("modified_at", JStr Date_now); ("size", JNum 0)]).

Fixpoint tag_entries (models : list JSValue) : option (list JSValue) :=
  match models with
  | [] => Some []
  | model :: rest =>
      entry <- tag_entry model ;;
      entries <- tag_entries rest ;;
      Some (entry :: entries)
  end.

(** [GET /api/tags], lines 637-656.  [get] is what
    [await openaiClient.get('/v1/models')] does; [map] is a method of arrays
    only, so a listing that is no array is a TypeError. *)
Definition api_tags (get : Outcome) : Reply :=
  match get with
  | Rejected _ => {| status := 500; body := server_error |}
  | Resolved data =>
      match (listing <- prop data "data" ;;
             match listing with
             | JArr models => tag_entries models
             | _ => None
             end) with
      | Some models => {| status := 200; body := JObj [("models", JArr models)] |}
      | None => {| status := 500; body := server_error |}
      end
  end.

(** A value inside a template literal: a string is itself, anything else is
    turned into text by [to_text] (ToString). *)
Definition interpolate (to_text : JSValue -> string) (v : JSValue) : string :=
  match v with JStr s => s | _ => to_text v end.

Definition show_details : JSValue :=
  JObj [ ("format", JStr "openai"); ("family", JStr "gpt");
         ("families", JArr [JStr "gpt"]);
         ("parameter_size", JStr "unknown");
         ("quantization_level", JStr "unknown") ].

(** [POST /api/show], lines 659-689.  [get path] is what
    [await openaiClient.get(path)] does. *)
Definition api_show (to_text : JSValue -> string) (get : string -> Outcome)
  (reqBody : JSValue) : Reply :=
  match prop reqBody "model" with
  | None => {| status := 500; body := server_error |}
  | Some model =>
      match get ("/v1/models/" ++ interpolate to_text model)%string with
      | Rejected e =>
          match err_response e with
          | Some (404%Z, _) =>
              {| status := 404;
                 body := JObj [("error",
                   JStr ("model not found: "
                         ++ interpolate to_text (own reqBody "model"))%string)] |}
          | _ => {| status := 500; body := server_error |}
          end
      | Resolved data =>
          match (created <- prop data "created" ;; Date_toISOString created) with
          | Some modified_at =>
              {| status := 200;
                 body := JObj [ ("model", model); ("details", show_details);
                                ("modified_at", JStr modified_at);
                                ("size", JNum 0) ] |}
          | None => {| status := 500; body := server_error |}
          end
      end
  end.

(** [POST /api/pull], lines 619-634: no upstream call. *)
Definition api_pull (reqBody : JSValue) : Reply :=
  match prop reqBody "name" with
  | None => {| status := 500; body := server_error |}
  | Some name =>
      {| status := 200; body := JObj [("status", JStr "success"); ("model", name)] |}
  end.

End Listing.

(* ================================================================= *)
(** ** Notions the further properties are stated with *)

(** The events that terminate a stream: 'end', 'close' and 'error'. *)
Definition is_terminal (ev : StreamEvent) : bool :=
  match ev with OnData _ => false | _ => true end.

(** The chunks of a stream as one text. *)
Definition all_chunks (chunks : list string) : string :=
  fold_right append EmptyString chunks.

(** Lines, each followed by its newline. *)
Definition terminated_lines (lines : list string) : string :=
  fold_right (fun l rest => (l ++ nl ++ rest)%string) EmptyString lines.

(** What the loop over [request.history] keeps, and what it pushes. *)
Definition history_kept (item : JSValue) : bool :=
  is_str "user" (own item "role") || is_str "assistant" (own item "role").

Definition history_pushed (item : JSValue) : JSValue :=
  mk_message (own item "role") (js_or (own item "content") (JStr "")).

(** Whether the request's own [messages] leave the list empty: no array, or
    an array without [null] entries of which the loop keeps nothing. *)
Definition no_messages (request : JSValue) : Prop :=
  match own request "messages" with
  | JArr items =>
      Forall (fun item => nullish item = false) items /\ filter kept items = []
  | _ => True
  end.

(** A line that opens a span. *)
Definition opens (line : string) : bool :=
  startsWith "<user>" line || startsWith "<assistant>" line.

(** A message as the tag parser pushes it. *)
Definition tagged_message (m : JSValue) : Prop :=
  exists t text, m = mk_message (JStr (tag_name t)) (JStr (trim text)).

(** The keys of the [openaiRequest] object literal. *)
Definition openaiRequest_fields : list string :=
  [ "model"; "messages"; "stream"; "temperature"; "max_tokens"; "top_p";
    "frequency_penalty"; "presence_penalty"; "tools"; "tool_choice";
    "response_format" ].

(** An object with [role] and [content] and nothing else. *)
Definition role_content_only (m : JSValue) : Prop :=
  exists r c, m = mk_message r c.

(** The entry [/api/tags] lists for an upstream model. *)
Definition listed `{host : Host} (model : JSValue) : JSValue :=
  JObj [("name", own model "id"); ("modified_at", JStr Date_now); ("size", JNum 0)].

(** Whether a span is being accumulated. *)
Definition pending (st : TagState) : nat :=
  if currentContent st =? "" then 0 else 1.

(** What the tag parser keeps true of its state after [n] opening lines. *)
Definition tag_inv (st : TagState) (n : nat) : Prop :=
  Forall tagged_message (tagMessages st)
  /\ (currentContent st <> ""%string -> exists t, currentRole st = JStr (tag_name t))
  /\ (List.length (tagMessages st) + pending st <= n)%nat.

(* ================================================================= *)
(** ** Inputs of the further examples *)

Definition events_error_midway : list StreamEvent :=
  [ OnData scenario_chunk1; OnError (JStr "socket hang up");
    OnData scenario_chunk2; OnClose ].

(** A stream that ends after its first chunk, with half a record left. *)
Definition events_end_first : list StreamEvent :=
  [ OnData scenario_chunk1; OnEnd; OnData scenario_chunk2; OnClose ].

(** Two deltas cut into three chunks, in the middle of a key and in the
    middle of a line. *)
Definition chunks_cut : list string :=
  [ scenario_chunk1;
    (dq "ces':[{'delta':{'content':'lo'},'finish_reason':null}]}" ++ nl ++ "da")%string;
    "" ].

Definition keep_alive_lines : list string := [": keep-alive"; ""; "event: ping"].

Definition error_payload : string := dq "{'error':{'message':'overloaded'}}".

Definition response_heartbeat : JSValue :=
  json "{'model':'m','choices':[{'delta':{'role':'assistant','content':''},'finish_reason':null}]}".

Definition response_final_delta : JSValue :=
  json "{'model':'m','choices':[{'delta':{},'finish_reason':'length'}],'timings':{'cache_n':4,'predicted_n':6,'total_duration':9}}".

Definition request_system_and_prompt : JSValue :=
  json "{'system':'be brief','prompt':'hi','history':[{'role':'user','content':'old'}]}".

Definition request_history : JSValue :=
  json "{'history':[{'role':'user','content':'a'},{'role':'system','content':'s'},{'role':'assistant'}]}".

Definition request_null_entry : JSValue :=
  json "{'messages':[{'role':'user','content':'hi'},null]}".

Definition request_unknown_options : JSValue :=
  json "{'prompt':'hi','keep_alive':'5m','options':{'top_k':40,'seed':1}}".

Definition request_inline_tags : JSValue :=
  json "{'prompt':'please answer <user>hi</user>'}".

Definition post_timeout (openaiRequest : JSValue) : Outcome :=
  Rejected {| err_response := None; err_code := JStr "ECONNABORTED" |}.

Definition post_no_choices (openaiRequest : JSValue) : Outcome :=
  Resolved response_no_choices.

Definition models_answer : JSValue := json "{'object':'list','data':[{'id':'a'},{'id':'b'}]}".

Definition get_404 (path : string) : Outcome :=
  Rejected {| err_response := Some (404%Z, JNull); err_code := JStr "ERR_BAD_REQUEST" |}.

Definition no_text (v : JSValue) : string := EmptyString.

(* ================================================================= *)
(** ** Values and strings: basic facts *)

Lemma truthy_js_and (a b : JSValue) :
  truthy (js_and a b) = truthy a && truthy b.
Proof.
  unfold js_and. destruct (truthy a) eqn:Ha; simpl; auto.
Qed.

Lemma truthy_js_or (a b : JSValue) :
  truthy (js_or a b) = truthy a || truthy b.
Proof.
  unfold js_or. destruct (truthy a) eqn:Ha; simpl; auto.
Qed.


Lemma prop_Some (v : JSValue) (k : string) (x : JSValue) :
  prop v k = Some x -> nullish v = false /\ x = own v k.
Proof.
  unfold prop. destruct (nullish v); intros E; inversion E; auto.
Qed.

Lemma prop_not_nullish (v : JSValue) (k : string) :
  nullish v = false -> prop v k = Some (own v k).
Proof.
  unfold prop. intros ->. reflexivity.
Qed.

Lemma bind_Some {A B : Type} (m : option A) (k : A -> option B) (b : B) :
  bind m k = Some b -> exists a, m = Some a /\ k a = Some b.
Proof.
  destruct m as [a|]; simpl; intros E; [exists a; auto | discriminate].
Qed.

Lemma index0_nullish (v : JSValue) : nullish v = true -> index0 v = None.
Proof.
  destruct v; simpl; intros E; try discriminate; reflexivity.
Qed.

Lemma lookup_wire_fields (k : string) (fs : list (string * JSValue)) :
  NoDup (map fst fs) ->
  lookup k (wire_fields fs) =
  match lookup k fs with
  | Some v => if is_undefined v then None else Some v
  | None => None
  end.
Proof.
  induction fs as [|[k' v] fs IH]; simpl; intros ND; [reflexivity|].
  inversion ND as [|? ? Hnotin ND']; subst.
  destruct (String.eqb_spec k' k) as [->|Hne].
  - destruct (is_undefined v) eqn:Hu; simpl.
    + rewrite (IH ND').
      destruct (lookup k fs) as [w|] eqn:Hl; [|reflexivity].
      exfalso. apply Hnotin. clear - Hl.
      induction fs as [|[k1 v1] fs IH]; simpl in *; [discriminate|].
      destruct (String.eqb_spec k1 k); auto.
    + rewrite String.eqb_refl. reflexivity.
  - destruct (is_undefined v) eqn:Hu; simpl.
    + apply IH; assumption.
    + destruct (String.eqb_spec k' k); [contradiction|]. apply IH; assumption.
Qed.

(* ================================================================= *)
(** ** The response translators *)

Section ResponseTranslators.

Context `{host : Host}.

Lemma chat_literal_choice (response pe ec tt o : JSValue) :
  chat_literal response pe ec tt = Some o ->
  exists choice, first_choice response = Some choice /\ nullish choice = false.
Proof.
  unfold chat_literal, first_choice. intros E.
  apply bind_Some in E as (created & _ & E).
  apply bind_Some in E as (created_at & _ & E).
  apply bind_Some in E as (choices & Hc & E).
  apply bind_Some in E as (choice & Hi & E).
  apply bind_Some in E as (message & Hm & _).
  apply prop_Some in Hm as [Hn _].
  exists choice. rewrite Hc. simpl. auto.
Qed.

Lemma generate_literal_choice (response pe ec tt o : JSValue) :
  generate_literal response pe ec tt = Some o ->
  exists choice, first_choice response = Some choice /\ nullish choice = false.
Proof.
  unfold generate_literal, first_choice. intros E.
  apply bind_Some in E as (created & _ & E).
  apply bind_Some in E as (created_at & _ & E).
  apply bind_Some in E as (choices & Hc & E).
  apply bind_Some in E as (choice & Hi & E).
  apply bind_Some in E as (message & Hm & _).
  apply prop_Some in Hm as [Hn _].
  exists choice. rewrite Hc. simpl. auto.
Qed.

Lemma chat_choice (response o : JSValue) :
  translateOpenAIToOllamaChat response = Some o ->
  exists choice, first_choice response = Some choice /\ nullish choice = false.
Proof.
  unfold translateOpenAIToOllamaChat. intros E.
  apply bind_Some in E as (usage & _ & E).
  destruct (truthy usage); [eapply chat_literal_choice; eassumption|].
  destruct (_ && _); eapply chat_literal_choice; eassumption.
Qed.

Lemma generate_choice (response o : JSValue) :
  translateOpenAIToOllamaGenerate response = Some o ->
  exists choice, first_choice response = Some choice /\ nullish choice = false.
Proof.
  unfold translateOpenAIToOllamaGenerate. intros E.
  apply bind_Some in E as (usage & _ & E).
  destruct (truthy usage); [eapply generate_literal_choice; eassumption|].
  destruct (_ && _); eapply generate_literal_choice; eassumption.
Qed.

Lemma stream_choice (response o : JSValue) :
  translateOpenAIStreamToOllamaChat response = Some o ->
  exists choice, first_choice response = Some choice /\ nullish choice = false.
Proof.
  unfold translateOpenAIStreamToOllamaChat, first_choice. intros E.
  apply bind_Some in E as (choices & Hc & E).
  apply bind_Some in E as (choice & Hi & E).
  apply bind_Some in E as (d & Hd & _).
  apply prop_Some in Hd as [Hn _].
  exists choice. rewrite Hc. simpl. auto.
Qed.

Lemma no_first_choice (response : JSValue) :
  own response "choices" = JUndefined \/ own response "choices" = JArr [] ->
  forall choice, first_choice response = Some choice -> nullish choice = true.
Proof.
  unfold first_choice, prop. intros H choice E.
  destruct (nullish response); [discriminate|]. simpl in E.
  destruct H as [H|H]; rewrite H in E; simpl in E; [discriminate|].
  inversion E; reflexivity.
Qed.

Lemma none_of_no_choice {A : Type} (response : JSValue) (r : option A) :
  own response "choices" = JUndefined \/ own response "choices" = JArr [] ->
  (forall o, r = Some o ->
     exists choice, first_choice response = Some choice /\ nullish choice = false) ->
  r = None.
Proof.
  intros H K. destruct r as [o|]; [|reflexivity].
  destruct (K o eq_refl) as (choice & Hc & Hn).
  rewrite (no_first_choice response H choice Hc) in Hn. discriminate.
Qed.

(** C10.  Every response translator reads [choices[0]] and goes on to read
    a property of it: when the choices of the upstream response are absent
    or an empty array, each of the three translators throws ([None]), and a
    translator that returns a reply has read a first choice that is neither
    [undefined] nor [null].  No branch of a translator tests for it. *)
Theorem C10_translators_need_first_choice (response : JSValue) :
  (own response "choices" = JUndefined \/ own response "choices" = JArr [] ->
   translateOpenAIToOllamaChat response = None
   /\ translateOpenAIToOllamaGenerate response = None
   /\ translateOpenAIStreamToOllamaChat response = None)
  /\
  (forall o,
     translateOpenAIToOllamaChat response = Some o
     \/ translateOpenAIToOllamaGenerate response = Some o
     \/ translateOpenAIStreamToOllamaChat response = Some o ->
     exists choice, first_choice response = Some choice /\ nullish choice = false).
Proof.
  split.
  - intros H. repeat split; apply (none_of_no_choice response _ H); intros o E.
    + eapply chat_choice; eassumption.
    + eapply generate_choice; eassumption.
    + eapply stream_choice; eassumption.
  - intros o [E|[E|E]].
    + eapply chat_choice; eassumption.
    + eapply generate_choice; eassumption.
    + eapply stream_choice; eassumption.
Qed.





End ResponseTranslators.

(* ================================================================= *)
(** ** The request translator and the endpoints *)

Section RequestTranslator.

Context `{host : Host}.

Lemma truthy_defined (v : JSValue) : truthy v = true -> is_undefined v = false.
Proof.
  destruct v; simpl; intros E; try discriminate; reflexivity.
Qed.

Lemma js_sub_defined (a b : JSValue) : is_undefined (js_sub a b) = false.
Proof.
  unfold js_sub.
  destruct (as_float (to_num a)) as [x|], (as_float (to_num b)) as [y|];
    try reflexivity.
  unfold number. destruct (is_nan (x - y)); [reflexivity|].
  destruct (is_infinity (x - y)); [reflexivity|].
  destruct (float2Z (x - y)); reflexivity.
Qed.

Lemma push_messages_spec (items acc : list JSValue) :
  Forall (fun item => nullish item = false) items ->
  push_messages items acc = Some (acc ++ map pushed (filter kept items)).
Proof.
  intros H. revert acc.
  induction H as [|item items Hn _ IH]; intros acc; simpl.
  - rewrite app_nil_r. reflexivity.
  - rewrite (prop_not_nullish item "role" Hn). simpl.
    rewrite truthy_js_and. unfold kept at 1.
    destruct (truthy (own item "role") && truthy (own item "content")); simpl.
    + rewrite IH, <- app_assoc. reflexivity.
    + apply IH.
Qed.

Lemma normalize_nonempty (request : JSValue) (messages : list JSValue) :
  normalize_messages request = Some messages -> messages <> [].
Proof.
  unfold normalize_messages. intros E.
  apply bind_Some in E as (rm & _ & E).
  apply bind_Some in E as (m1 & _ & E).
  apply bind_Some in E as (m2 & _ & E).
  apply bind_Some in E as (m3 & _ & E).
  apply bind_Some in E as (m4 & _ & E).
  inversion E; subst. destruct m4; simpl; discriminate.
Qed.

(** A [messages] array of which nothing is kept leaves the list empty for
    the later sources; with none of them the one message is synthesized. *)
Lemma nothing_kept_falls_back (request : JSValue) (items : list JSValue) :
  nullish request = false ->
  own request "messages" = JArr items ->
  Forall (fun item => nullish item = false) items ->
  filter kept items = [] ->
  truthy (own request "system") = false ->
  truthy (own request "prompt") = false ->
  isArray (own request "history") = false ->
  normalize_messages request = Some [mk_message (JStr "user") (JStr "")].
Proof.
  intros Hreq Hm Hitems Hkept Hs Hp Hh. unfold normalize_messages.
  rewrite (prop_not_nullish request "messages" Hreq), Hm. simpl.
  rewrite (push_messages_spec items [] Hitems), Hkept. simpl.
  rewrite Hs, Hp. simpl.
  destruct (own request "history"); try reflexivity. discriminate Hh.
Qed.

(** C7, as the code has it.  When the request carries a [messages] array
    without [null] entries and the loop keeps at least one entry, the
    normalized sequence is the input filtered to the entries whose [role]
    and [content] are both truthy, in order, each reduced to its [role] and
    [content], which are unchanged; it is the [messages] of the outbound
    request. *)
Theorem C7_messages_filtered_by_truthiness (request : JSValue) (items : list JSValue) :
  nullish request = false ->
  own request "messages" = JArr items ->
  Forall (fun item => nullish item = false) items ->
  filter kept items <> [] ->
  normalize_messages request = Some (map pushed (filter kept items))
  /\ exists openaiRequest,
       translateOllamaToOpenAI request = Some openaiRequest
       /\ own openaiRequest "messages" = JArr (map pushed (filter kept items)).
Proof.
  intros Hreq Hm Hitems Hkept.
  assert (N : normalize_messages request = Some (map pushed (filter kept items))).
  { unfold normalize_messages.
    rewrite (prop_not_nullish request "messages" Hreq), Hm. simpl.
    rewrite (push_messages_spec items [] Hitems). simpl.
    destruct (map pushed (filter kept items)) as [|m ms] eqn:Hmap.
    - apply map_eq_nil in Hmap. contradiction.
    - reflexivity. }
  split; [exact N|].
  unfold translateOllamaToOpenAI. rewrite N. simpl.
  eexists. split; reflexivity.
Qed.

Lemma openaiRequest_keys (fs : list (string * JSValue)) :
  map fst fs =
  [ "model"; "messages"; "stream"; "temperature"; "max_tokens"; "top_p";
    "frequency_penalty"; "presence_penalty"; "tools"; "tool_choice";
    "response_format" ] ->
  NoDup (map fst fs).
Proof.
  intros ->.
  repeat (constructor; [simpl; intuition discriminate|]). constructor.
Qed.

Lemma number_defined (f : float) : is_undefined (number f) = false.
Proof.
  unfold number. destruct (is_nan f); [reflexivity|].
  destruct (is_infinity f); [reflexivity|].
  destruct (float2Z f); reflexivity.
Qed.

(** The text of a double is the same whichever way the double is written. *)
Lemma stringified_number_spec (f : float) :
  stringified (number f) = stringified_number f.
Proof.
  unfold number, stringified_number.
  destruct (is_nan f) eqn:N; [reflexivity|].
  destruct (is_infinity f) eqn:I.
  - simpl. unfold stringified_number. rewrite N, I. reflexivity.
  - destruct (float2Z f) eqn:Z; simpl;
      unfold stringified_number, number; rewrite ?N, ?I, ?Z; reflexivity.
Qed.

(** The text of an object holds, for each property that is written, the
    text of its value. *)
Lemma in_text_sent (k : string) (fs : list (string * JSValue)) :
  in_text k (JObj fs) = option_map stringified (sent k (JObj fs)).
Proof.
  unfold in_text, sent, on_wire, wire_fields.
  cbn [stringified]. induction fs as [|[k' x] rest IH]; [reflexivity|].
  cbn [filter snd]. destruct (is_undefined x); cbn [negb]; [exact IH|].
  cbn [lookup]. destruct (k' =? k); [reflexivity|exact IH].
Qed.

Lemma in_text_field (k : string) (fs : list (string * JSValue)) :
  NoDup (map fst fs) ->
  in_text k (JObj fs) =
  match lookup k fs with
  | Some v => unless_undefined v
  | None => None
  end.
Proof.
  intros ND. rewrite in_text_sent. unfold sent, on_wire.
  rewrite (lookup_wire_fields k fs ND).
  destruct (lookup k fs) as [v|]; [|reflexivity].
  unfold unless_undefined. destruct (is_undefined v); reflexivity.
Qed.

Lemma unless_falsy_wire (v : JSValue) :
  unless_undefined (js_or v JUndefined) = unless_falsy v.
Proof.
  unfold js_or, unless_falsy, unless_undefined.
  destruct (truthy v) eqn:T; simpl; [|reflexivity].
  rewrite (truthy_defined v T). reflexivity.
Qed.

(** C8, as the code has it.  In the JSON text of the outbound request,
    [frequency_penalty] is left out when the repeat penalty is falsy (so
    also when it is zero) and is otherwise the text of the repeat penalty
    minus one: for an option that is a number, the double that the
    IEEE-754 subtraction of one gives, [null] if that is not finite; for
    an option that ToNumber turns into NaN, [null].  [temperature],
    [max_tokens] and [top_p] carry the text of their option whenever it is
    given, zero included, and are left out when it is not;
    [presence_penalty], [tool_choice] and [response_format] carry the text
    of their option when it is truthy and are left out otherwise, so a
    presence penalty of zero is not sent. *)
Theorem C8_outbound_options (request openaiRequest : JSValue) :
  translateOllamaToOpenAI request = Some openaiRequest ->
  let options := own request "options" in
  in_text "frequency_penalty" openaiRequest =
    (if truthy (opt_chain options "repeat_penalty")
     then Some (stringified (js_sub (own options "repeat_penalty") (JNum 1)))
     else None)
  /\ (forall f, opt_chain options "repeat_penalty" = JFloat f ->
        in_text "frequency_penalty" openaiRequest =
        if is_zero f || is_nan f then None
        else Some (stringified_number (f - 1)%float))
  /\ (forall n, opt_chain options "repeat_penalty" = JNum n ->
        in_text "frequency_penalty" openaiRequest =
        if (n =? 0)%Z then None
        else Some (stringified_number (Z2float n - 1)%float))
  /\ in_text "temperature" openaiRequest
       = unless_undefined (opt_chain options "temperature")
  /\ in_text "max_tokens" openaiRequest
       = unless_undefined (opt_chain options "num_predict")
  /\ in_text "top_p" openaiRequest = unless_undefined (opt_chain options "top_p")
  /\ in_text "presence_penalty" openaiRequest
       = unless_falsy (opt_chain options "presence_penalty")
  /\ in_text "tool_choice" openaiRequest
       = unless_falsy (opt_chain options "tool_choice")
  /\ in_text "response_format" openaiRequest
       = unless_falsy (opt_chain options "response_format").
Proof.
  intros E options. unfold translateOllamaToOpenAI in E.
  apply bind_Some in E as (messages & _ & E).
  inversion E as [Ho]; clear E. fold options.
  assert (F : in_text "frequency_penalty" (JObj
    [ ("model", js_or (own request "model") (JStr "gpt-3.5-turbo"));
      ("messages", JArr messages);
      ("stream", js_or (own request "stream") (JBool false));
      ("temperature", opt_chain options "temperature");
      ("max_tokens", opt_chain options "num_predict");
      ("top_p", opt_chain options "top_p");
      ("frequency_penalty",
         if truthy (opt_chain options "repeat_penalty")
         then js_sub (own options "repeat_penalty") (JNum 1)
         else JUndefined);
      ("presence_penalty", js_or (opt_chain options "presence_penalty") JUndefined);
      ("tools", js_or (own request "tools") JUndefined);
      ("tool_choice", js_or (opt_chain options "tool_choice") JUndefined);
      ("response_format", js_or (opt_chain options "response_format") JUndefined) ])
    = if truthy (opt_chain options "repeat_penalty")
      then Some (stringified (js_sub (own options "repeat_penalty") (JNum 1)))
      else None).
  { rewrite in_text_field by (apply openaiRequest_keys; reflexivity).
    cbn [lookup String.eqb Ascii.eqb Bool.eqb]. unfold unless_undefined.
    destruct (truthy (opt_chain options "repeat_penalty")); cbn [is_undefined].
    - rewrite js_sub_defined. reflexivity.
    - reflexivity. }
  split; [exact F|].
  assert (O : forall v, opt_chain options "repeat_penalty" = v ->
              nullish v = false -> own options "repeat_penalty" = v).
  { intros v <-. unfold opt_chain. destruct (nullish options); [discriminate|auto]. }
  split.
  { intros f Hf. rewrite F, (O _ Hf eq_refl), Hf. cbn [truthy].
    destruct (is_zero f || is_nan f); cbn [negb]; [reflexivity|].
    unfold js_sub. cbn [to_num as_float].
    rewrite stringified_number_spec. reflexivity. }
  split.
  { intros n Hn. rewrite F, (O _ Hn eq_refl), Hn. cbn [truthy].
    destruct (n =? 0)%Z; cbn [negb]; [reflexivity|].
    unfold js_sub. cbn [to_num as_float].
    rewrite stringified_number_spec. reflexivity. }
  rewrite !in_text_field by (apply openaiRequest_keys; reflexivity).
  cbn [lookup String.eqb Ascii.eqb Bool.eqb].
  rewrite !unless_falsy_wire. repeat split.
Qed.

(** C4, as the code has it.  Streaming is selected exactly when the request
    asks for it or the Accept header signals event-stream, and the
    [messages] field of the request itself is truthy and its length is not
    zero.  The normalized list has no part in it: it is never empty. *)
Theorem C4_streaming_decision (request : JSValue) (accept_header : option string) :
  isStreaming request accept_header =
    (if nullish request then None
     else Some ((truthy (own request "stream")
                 || includes "text/event-stream"
                      (match accept_header with Some a => a | None => "" end))
                && truthy (own request "messages")
                && negb (length_is_zero (own request "messages"))))
  /\ (forall normalized,
        normalize_messages request = Some normalized -> normalized <> []).
Proof.
  split.
  - unfold isStreaming, prop. destruct (nullish request); [reflexivity|]. simpl.
    destruct (truthy (own request "stream") || _); simpl; [|reflexivity].
    destruct (truthy (own request "messages")); simpl; [|reflexivity].
    destruct (length_is_zero (own request "messages")); reflexivity.
  - apply normalize_nonempty.
Qed.

(** C6, as the code has it.  When the upstream call of a non-streaming
    request is rejected with a response, the client receives the status of
    that response and an object whose one property, [error], is the
    upstream body, unchanged: from [/api/generate], and from [/api/chat]
    when streaming is not selected. *)
Theorem C6_upstream_error_wrapped
  (post : JSValue -> Outcome) (request openaiRequest : JSValue)
  (e : AxiosError) (upstream_status : Z) (upstream_body : JSValue) :
  translateOllamaToOpenAI request = Some openaiRequest ->
  post openaiRequest = Rejected e ->
  err_response e = Some (upstream_status, upstream_body) ->
  api_generate post request
    = {| status := upstream_status; body := JObj [("error", upstream_body)] |}
  /\ (forall accept_header,
        isStreaming request accept_header = Some false ->
        api_chat post request accept_header
        = Single {| status := upstream_status;
                    body := JObj [("error", upstream_body)] |}).
Proof.
  intros Ht Hp He. split.
  - unfold api_generate. rewrite Ht, Hp. unfold catch_reply. rewrite He. reflexivity.
  - intros accept_header Hs. unfold api_chat, api_chat_single.
    rewrite Hs, Ht, Hp. unfold catch_reply. rewrite He. reflexivity.
Qed.

End RequestTranslator.

(* ================================================================= *)
(** ** The delimited-prompt parser *)

Section TagParser.

Context `{host : Host}.

Lemma append_assoc3 (a b c : string) : ((a ++ b) ++ c = a ++ (b ++ c))%string.
Proof.
  induction a as [|x a IH]; simpl; [reflexivity|]. rewrite IH. reflexivity.
Qed.

Lemma append_nonempty (a b : string) : a <> ""%string -> (a ++ b)%string <> ""%string.
Proof.
  destruct a; simpl; [contradiction|discriminate].
Qed.

Lemma no_nl_append (a b : string) : no_nl (a ++ b) = no_nl a && no_nl b.
Proof.
  induction a as [|x a IH]; simpl; [reflexivity|].
  rewrite IH, andb_assoc. reflexivity.
Qed.

Lemma split_nl_no_nl (s : string) : no_nl s = true -> split_nl s = [s].
Proof.
  induction s as [|c s IH]; simpl; [reflexivity|].
  destruct (Ascii.eqb c nl_char); simpl; [discriminate|].
  intros H. rewrite (IH H). reflexivity.
Qed.

Lemma split_nl_break (a b : string) :
  no_nl a = true -> split_nl (a ++ String nl_char b) = a :: split_nl b.
Proof.
  induction a as [|c a IH]; simpl; [reflexivity|].
  destruct (Ascii.eqb c nl_char); simpl; [discriminate|].
  intros H. rewrite (IH H). reflexivity.
Qed.

Lemma split_nl_line (a b : string) :
  no_nl a = true -> split_nl (a ++ nl ++ b) = a :: split_nl b.
Proof.
  exact (split_nl_break a b).
Qed.

Lemma split_join (lines : list string) :
  lines <> [] -> forallb no_nl lines = true -> split_nl (join_nl lines) = lines.
Proof.
  induction lines as [|l rest IH]; [contradiction|].
  intros _ H. simpl in H. apply andb_prop in H as [Hl Hrest].
  destruct rest as [|l' rest].
  - simpl. apply split_nl_no_nl; assumption.
  - change (join_nl (l :: l' :: rest)) with (l ++ nl ++ join_nl (l' :: rest))%string.
    rewrite (split_nl_line _ _ Hl), IH; [reflexivity|discriminate|assumption].
Qed.

(** What a span has accumulated when its last plain line is read. *)
Lemma accumulated_text (first : string) (more : list string) :
  fold_left (fun c l => (c ++ nl ++ l)%string) more first = join_nl (first :: more).
Proof.
  revert first. induction more as [|l more IH]; intros first; [reflexivity|].
  cbn [fold_left]. rewrite IH.
  destruct more as [|l' more].
  - reflexivity.
  - change (join_nl ((first ++ nl ++ l)%string :: l' :: more))
      with ((first ++ nl ++ l) ++ nl ++ join_nl (l' :: more))%string.
    change (join_nl (first :: l :: l' :: more))
      with (first ++ nl ++ (l ++ nl ++ join_nl (l' :: more)))%string.
    rewrite !append_assoc3. reflexivity.
Qed.

Lemma join_nonempty (first : string) (more : list string) :
  first <> ""%string -> join_nl (first :: more) <> ""%string.
Proof.
  intros H. destruct more as [|l more]; [exact H|].
  change (join_nl (first :: l :: more)) with (first ++ nl ++ join_nl (l :: more))%string.
  apply append_nonempty; assumption.
Qed.

Lemma tag_line_open (st : TagState) (t : Tag) (first : string) :
  tag_line st (open_tag t ++ first) =
  {| currentRole := JStr (tag_name t);
     currentContent := first;
     tagMessages := settled st |}.
Proof.
  destruct t; reflexivity.
Qed.

Lemma tag_line_close (st : TagState) (t : Tag) :
  tag_line st (close_tag t) = flush_close st.
Proof.
  destruct t; reflexivity.
Qed.

Lemma tag_line_plain (st : TagState) (l : string) :
  plain_line l = true ->
  tag_line st l =
  if negb (currentContent st =? "")
  then {| currentRole := currentRole st;
          currentContent := currentContent st ++ nl ++ l;
          tagMessages := tagMessages st |}
  else st.
Proof.
  unfold plain_line, tag_line. intros H.
  repeat (apply andb_prop in H as [H ?]).
  repeat match goal with
         | K : negb ?b = true |- _ => apply negb_true_iff in K; rewrite K
         end.
  reflexivity.
Qed.

Lemma consistent_tag_line (st : TagState) (l : string) :
  consistent st -> consistent (tag_line st l).
Proof.
  unfold consistent, tag_line, flush_close. intros C.
  destruct (startsWith "<user>" l); [right; reflexivity|].
  destruct (startsWith "<assistant>" l); [right; reflexivity|].
  destruct (_ || _).
  - destruct (negb (currentContent st =? "")); simpl; auto.
  - destruct (negb (currentContent st =? "")) eqn:E; simpl; auto.
    right. destruct C as [C|C]; [|exact C].
    rewrite C in E. discriminate.
Qed.

Lemma consistent_fold (lines : list string) (st : TagState) :
  consistent st -> consistent (fold_left tag_line lines st).
Proof.
  revert st. induction lines as [|l lines IH]; intros st C; simpl; [exact C|].
  apply IH, consistent_tag_line, C.
Qed.

Lemma fold_plain_idle (lines : list string) (st : TagState) :
  forallb plain_line lines = true ->
  currentContent st = ""%string ->
  fold_left tag_line lines st = st.
Proof.
  induction lines as [|l lines IH]; simpl; intros H E; [reflexivity|].
  apply andb_prop in H as [Hl H].
  rewrite (tag_line_plain st l Hl), E. simpl. apply IH; assumption.
Qed.

Lemma fold_plain_open (lines : list string) (st : TagState) :
  forallb plain_line lines = true ->
  currentContent st <> ""%string ->
  fold_left tag_line lines st =
  {| currentRole := currentRole st;
     currentContent :=
       fold_left (fun c l => (c ++ nl ++ l)%string) lines (currentContent st);
     tagMessages := tagMessages st |}.
Proof.
  revert st. induction lines as [|l lines IH]; simpl; intros st H E.
  - destruct st; reflexivity.
  - apply andb_prop in H as [Hl H].
    rewrite (tag_line_plain st l Hl).
    apply String.eqb_neq in E. rewrite E. simpl.
    rewrite IH; [reflexivity|assumption|].
    simpl. apply append_nonempty. apply String.eqb_neq. exact E.
Qed.

Lemma span_step (sp : Span) (st : TagState) :
  span_ok sp = true ->
  settled (fold_left tag_line (span_lines sp) st) = settled st ++ [span_message sp].
Proof.
  unfold span_ok. intros H.
  apply andb_prop in H as [H Hmore]. apply andb_prop in H as [Hne Hnl].
  apply negb_true_iff, String.eqb_neq in Hne.
  unfold span_lines. cbn [fold_left]. rewrite fold_left_app, tag_line_open.
  rewrite (fold_plain_open _ _ Hmore) by exact Hne.
  cbn [currentContent currentRole tagMessages].
  rewrite accumulated_text.
  pose proof (join_nonempty (span_first sp) (span_more sp) Hne) as Htext.
  apply String.eqb_neq in Htext.
  unfold span_message, span_text.
  remember (join_nl (span_first sp :: span_more sp)) as text eqn:Ht. clear Ht.
  assert (Hrole : truthy (JStr (tag_name (span_role sp))) = true)
    by (destruct (span_role sp); reflexivity).
  remember (JStr (tag_name (span_role sp))) as role eqn:Hr. clear Hr.
  destruct (span_close sp) as [t|]; cbn [fold_left].
  - rewrite tag_line_close. unfold flush_close.
    cbn [currentContent currentRole tagMessages]. rewrite Htext.
    unfold settled at 1, flush_open.
    cbn [currentContent currentRole tagMessages negb].
    rewrite andb_false_r. reflexivity.
  - unfold settled at 1, flush_open.
    cbn [currentContent currentRole tagMessages]. rewrite Hrole, Htext.
    reflexivity.
Qed.

Lemma spans_fold (spans : list Span) (st : TagState) :
  forallb span_ok spans = true ->
  settled (fold_left tag_line (concat (map span_lines spans)) st)
  = settled st ++ map span_message spans.
Proof.
  revert st. induction spans as [|sp spans IH]; cbn [map concat forallb fold_left];
    intros st H.
  - rewrite app_nil_r. reflexivity.
  - apply andb_prop in H as [Hsp H].
    rewrite fold_left_app, (IH _ H), (span_step sp st Hsp), <- app_assoc.
    reflexivity.
Qed.

Lemma plain_no_nl (lines : list string) :
  forallb plain_line lines = true -> forallb no_nl lines = true.
Proof.
  induction lines as [|l lines IH]; simpl; intros H; [reflexivity|].
  apply andb_prop in H as [Hl H]. rewrite (IH H), andb_true_r.
  unfold plain_line in Hl. repeat (apply andb_prop in Hl as [Hl _]). exact Hl.
Qed.

Lemma span_lines_no_nl (spans : list Span) :
  forallb span_ok spans = true ->
  forallb no_nl (concat (map span_lines spans)) = true.
Proof.
  induction spans as [|sp spans IH]; simpl; intros H; [reflexivity|].
  apply andb_prop in H as [Hsp H].
  unfold span_ok in Hsp.
  apply andb_prop in Hsp as [Hsp Hmore]. apply andb_prop in Hsp as [_ Hnl].
  rewrite no_nl_append, Hnl, andb_true_r.
  rewrite forallb_app, forallb_app, (plain_no_nl _ Hmore), (IH H), andb_true_r.
  destruct (span_role sp), (span_close sp) as [[|]|]; reflexivity.
Qed.

Lemma parse_rendered (before : list string) (spans : list Span) (messages : list JSValue) :
  forallb plain_line before = true ->
  forallb span_ok spans = true ->
  parse_tagged_prompt (render before spans) messages
  = messages ++ map span_message spans.
Proof.
  intros Hb Hs. unfold parse_tagged_prompt, render.
  set (init := {| currentRole := JNull; currentContent := ""; tagMessages := messages |}).
  assert (Hinit : settled init = messages) by reflexivity.
  fold (settled (fold_left tag_line
                   (split_nl (join_nl (before ++ concat (map span_lines spans)))) init)).
  destruct (before ++ concat (map span_lines spans)) as [|l ls] eqn:Hlines.
  - apply app_eq_nil in Hlines as [-> Hc].
    destruct spans as [|sp spans]; [|discriminate Hc].
    simpl. rewrite app_nil_r. reflexivity.
  - rewrite split_join; [|discriminate|].
    + rewrite <- Hlines, fold_left_app.
      rewrite (fold_plain_idle before init Hb eq_refl).
      rewrite (spans_fold spans init Hs), Hinit. reflexivity.
    + rewrite <- Hlines, forallb_app, (plain_no_nl _ Hb), (span_lines_no_nl _ Hs).
      reflexivity.
Qed.

Lemma startsWith_includes (p s : string) :
  startsWith p s = true -> includes p s = true.
Proof.
  intros H. destruct s; simpl; rewrite H; reflexivity.
Qed.

Lemma includes_append_r (p a b : string) :
  includes p b = true -> includes p (a ++ b) = true.
Proof.
  intros H. induction a as [|c a IH]; simpl; [exact H|].
  rewrite IH. apply orb_true_r.
Qed.

Lemma startsWith_append_l (p s b : string) :
  startsWith p s = true -> startsWith p (s ++ b) = true.
Proof.
  revert s. induction p as [|x p IH]; intros s; simpl; [reflexivity|].
  destruct s as [|c s]; simpl; [discriminate|].
  intros H. apply andb_prop in H as [H1 H2]. rewrite H1, (IH s H2). reflexivity.
Qed.

Lemma includes_append_l (p a b : string) :
  includes p a = true -> includes p (a ++ b) = true.
Proof.
  induction a as [|c a IH]; simpl.
  - rewrite orb_false_r. intros H.
    destruct p; [destruct b; reflexivity|discriminate H].
  - intros H. apply orb_prop in H as [H|H].
    + pose proof (startsWith_append_l p (String c a) b H) as K.
      simpl in K. rewrite K. reflexivity.
    + rewrite (IH H). apply orb_true_r.
Qed.

Lemma includes_join (p l : string) (lines : list string) :
  In l lines -> includes p l = true -> includes p (join_nl lines) = true.
Proof.
  intros Hin Hl. induction lines as [|x rest IH]; [contradiction|].
  destruct rest as [|y rest].
  - destruct Hin as [->|[]]. exact Hl.
  - change (join_nl (x :: y :: rest)) with (x ++ nl ++ join_nl (y :: rest))%string.
    destruct Hin as [->|Hin].
    + apply includes_append_l, Hl.
    + apply includes_append_r, includes_append_r, IH, Hin.
Qed.

Lemma rendered_has_tag (before : list string) (sp : Span) (spans : list Span) :
  includes (open_tag (span_role sp)) (render before (sp :: spans)) = true.
Proof.
  unfold render.
  apply (includes_join _ (open_tag (span_role sp) ++ span_first sp)%string).
  - apply in_or_app. right. simpl. left. reflexivity.
  - apply startsWith_includes. destruct (span_role sp); simpl;
      rewrite ?Ascii.eqb_refl; reflexivity.
Qed.

(** The prompt fallback on a rendered prompt: the tags are found and the
    parser is what runs. *)
Lemma push_rendered (before : list string) (spans : list Span) :
  forallb plain_line before = true ->
  forallb span_ok spans = true ->
  spans <> [] ->
  push_prompt (JStr (render before spans)) [] = Some (map span_message spans).
Proof.
  intros Hb Hs Hne. destruct spans as [|sp spans]; [contradiction|].
  pose proof (rendered_has_tag before sp spans) as T.
  pose proof (parse_rendered before (sp :: spans) [] Hb Hs) as P.
  simpl app in P. unfold push_prompt. simpl prompt_includes.
  destruct (span_role sp); simpl open_tag in T.
  - rewrite T. simpl. rewrite P. reflexivity.
  - rewrite T. destruct (includes "<user>" _); simpl; rewrite P; reflexivity.
Qed.

(** C9, as the code has it.  On every prompt string the prompt fallback
    returns, without an exception.  Tags are read line by line: for a prompt
    made of plain lines followed by spans, each opened by a line that
    starts with its tag and carries text after it, continued by plain lines
    and closed by a closing line of either role, by the next opening line
    or by end of input, the parser emits one message per span, in order,
    with the role of the opening tag and the trimmed text of the span (the
    plain lines before the first span are ignored).  And on every prompt,
    content that is accumulated when end of input is reached is flushed as
    a last message with the current role. *)
Theorem C9_tag_parser :
  (forall prompt messages, exists out, push_prompt (JStr prompt) messages = Some out)
  /\
  (forall before spans,
     forallb plain_line before = true ->
     forallb span_ok spans = true ->
     parse_tagged_prompt (render before spans) [] = map span_message spans
     /\ (spans <> [] ->
         push_prompt (JStr (render before spans)) [] = Some (map span_message spans)))
  /\
  (forall prompt messages,
     let st := fold_left tag_line (split_nl prompt)
                 {| currentRole := JNull; currentContent := "";
                    tagMessages := messages |} in
     currentContent st <> ""%string ->
     truthy (currentRole st) = true
     /\ parse_tagged_prompt prompt messages
        = tagMessages st
            ++ [mk_message (currentRole st) (JStr (trim (currentContent st)))]).
Proof.
  split; [|split].
  - intros prompt messages. unfold push_prompt. simpl.
    destruct (includes "<user>" prompt); simpl; [eexists; reflexivity|].
    destruct (includes "<assistant>" prompt); simpl; eexists; reflexivity.
  - intros before spans Hb Hs. split.
    + apply (parse_rendered before spans [] Hb Hs).
    + apply push_rendered; assumption.
  - intros prompt messages st Hc.
    assert (C : consistent st) by (apply consistent_fold; left; reflexivity).
    destruct C as [C|C]; [contradiction|].
    split; [exact C|].
    unfold parse_tagged_prompt. fold st. unfold flush_open.
    apply String.eqb_neq in Hc. rewrite C, Hc. reflexivity.
Qed.

End TagParser.

(* ================================================================= *)
(** ** The stream handlers *)

Section StreamHandlers.

Context `{host : Host}.

Lemma res_ended_app (cs cs' : list ResCall) :
  res_ended (cs ++ cs') = res_ended cs || res_ended cs'.
Proof.
  unfold res_ended. apply existsb_app.
Qed.

Lemma delivered_app (cs cs' : list ResCall) :
  delivered (cs ++ cs') =
  if res_ended cs then delivered cs else delivered cs ++ delivered cs'.
Proof.
  induction cs as [|c cs IH]; simpl; [reflexivity|].
  destruct c as [w|]; simpl; [|reflexivity].
  rewrite IH. destruct (res_ended cs); reflexivity.
Qed.

(** Writes, as calls. *)
Lemma res_ended_writes (ws : list Written) : res_ended (map ResWrite ws) = false.
Proof.
  induction ws as [|w ws IH]; [reflexivity|exact IH].
Qed.

Lemma delivered_writes (ws : list Written) : delivered (map ResWrite ws) = ws.
Proof.
  induction ws as [|w ws IH]; simpl; [reflexivity|]. rewrite IH. reflexivity.
Qed.

(** Writes keep the invariant of a session that runs. *)
Lemma inv_emit (ws : list Written) (st : Session) :
  crashed st = false ->
  session_inv st -> session_inv (emit (map ResWrite ws) st).
Proof.
  unfold session_inv, emit. cbn [streamEnded calls crashed].
  intros C (I1 & I2 & I3).
  rewrite res_ended_app, res_ended_writes, orb_false_r, delivered_app.
  split; [exact I1|]. split.
  - intros E. rewrite <- I1, E. apply I2, E.
  - rewrite C. discriminate.
Qed.

(** Writes, the marker and [res.end()] keep it too, and end the stream. *)
Lemma inv_finish (ws : list Written) (st : Session) :
  crashed st = false ->
  session_inv st ->
  session_inv (finish (map ResWrite ws ++ [ResWrite DONE; ResEnd]) st).
Proof.
  unfold session_inv, finish. cbn [streamEnded calls crashed].
  intros C (I1 & I2 & I3).
  rewrite !res_ended_app, delivered_app. cbn [res_ended existsb is_End].
  rewrite orb_true_r, orb_true_r. split; [reflexivity|]. split.
  - intros _. destruct (res_ended (calls st)) eqn:E.
    + apply I2. rewrite I1. reflexivity.
    + rewrite delivered_app, res_ended_writes, delivered_writes.
      exists (delivered (calls st) ++ ws). rewrite <- app_assoc. reflexivity.
  - rewrite C. discriminate.
Qed.

(** The marker and then the exception, on a stream that is not ended. *)
Lemma inv_throw (ws : list Written) (st : Session) :
  streamEnded st = false ->
  session_inv st ->
  session_inv (throw_uncaught (emit (map ResWrite ws ++ [ResWrite DONE]) st)).
Proof.
  unfold session_inv, throw_uncaught, emit. cbn [streamEnded calls crashed].
  intros E (I1 & I2 & I3).
  rewrite !res_ended_app, res_ended_writes. cbn [res_ended existsb is_End orb].
  rewrite !orb_false_r. split; [exact I1|]. split.
  - rewrite E. discriminate.
  - intros _. split; [exact E|].
    exists (calls st ++ map ResWrite ws). rewrite <- app_assoc. reflexivity.
Qed.

Lemma inv_clear_firstChunk (st : Session) :
  session_inv st -> session_inv (clear_firstChunk st).
Proof.
  exact (fun I => I).
Qed.

Lemma inv_set_buffer (b : string) (st : Session) :
  session_inv st -> session_inv (set_buffer b st).
Proof.
  exact (fun I => I).
Qed.

Lemma inv_data_catch (st : Session) :
  crashed st = false -> session_inv st -> session_inv (data_catch st).
Proof.
  intros C I. exact (inv_finish [WJson parse_error] st C I).
Qed.

(** What a delta makes the 'data' handler call: the frames it owes and, for
    a finishing delta, the marker, the frame of the [catch] block, the
    marker again and [res.end()]. *)
Lemma data_delta_calls (ollamaData : JSValue) (st : Session) :
  exists frames,
    data_delta ollamaData st =
    (if truthy (own ollamaData "done")
     then finish
            (map ResWrite (map WJson frames
                             ++ [WJson (doneChunk ollamaData); DONE;
                                 WJson parse_error])
               ++ [ResWrite DONE; ResEnd])
     else emit (map ResWrite (map WJson frames)))
      (if firstChunk st then clear_firstChunk st else st).
Proof.
  unfold data_delta, data_catch.
  destruct (firstChunk st) eqn:F;
    destruct (truthy (js_or _ _));
    destruct (truthy (own ollamaData "done"));
    [ exists [firstChunkData ollamaData; contentChunk ollamaData]
    | exists [firstChunkData ollamaData; contentChunk ollamaData]
    | exists [firstChunkData ollamaData]
    | exists [firstChunkData ollamaData]
    | exists [contentChunk ollamaData]
    | exists [contentChunk ollamaData]
    | exists []
    | exists [] ];
    unfold finish, emit, clear_firstChunk; cbn [streamEnded calls crashed
      responseBuffer firstChunk map app];
    rewrite <- ?app_assoc, ?app_nil_r; cbn [app]; try reflexivity.
  destruct st; cbn in *; subst; reflexivity.
Qed.

Lemma data_delta_crashed (ollamaData : JSValue) (st : Session) :
  crashed (data_delta ollamaData st) = crashed st.
Proof.
  destruct (data_delta_calls ollamaData st) as [frames ->].
  destruct (truthy (own ollamaData "done")), (firstChunk st); reflexivity.
Qed.

Lemma inv_data_delta (ollamaData : JSValue) (st : Session) :
  crashed st = false ->
  session_inv st -> session_inv (data_delta ollamaData st).
Proof.
  intros C I. destruct (data_delta_calls ollamaData st) as [frames ->].
  assert (I' : session_inv (if firstChunk st then clear_firstChunk st else st)).
  { destruct (firstChunk st); exact I. }
  assert (C' : crashed (if firstChunk st then clear_firstChunk st else st) = false).
  { destruct (firstChunk st); exact C. }
  destruct (truthy (own ollamaData "done")).
  - apply inv_finish; assumption.
  - apply inv_emit; assumption.
Qed.

(** A line of the 'data' loop keeps the invariant, and the loop goes on only
    in a session that runs. *)
Lemma inv_data_line (line : string) (st : Session) :
  crashed st = false ->
  session_inv st ->
  session_inv (fst (data_line line st))
  /\ (snd (data_line line st) = Next -> crashed (fst (data_line line st)) = false).
Proof.
  intros C I. unfold data_line.
  destruct (startsWith "data: " line); [|auto].
  destruct (substring_from 6 line =? "[DONE]").
  - cbn [fst snd]. split; [|discriminate].
    destruct (streamEnded st) eqn:E; cbn [negb]; [exact I|].
    exact (inv_throw [] st E I).
  - destruct (read_payload (substring_from 6 line)) as [[e|ollamaData]|];
      cbn [fst snd].
    + split; [|discriminate].
      exact (inv_finish [WJson (JObj [("error", e)])] st C I).
    + split; [apply inv_data_delta; assumption|].
      intros _. rewrite data_delta_crashed. exact C.
    + split; [apply inv_data_catch; assumption|]. intros _. exact C.
Qed.

Lemma inv_data_loop (lines : list string) (st : Session) :
  crashed st = false ->
  session_inv st -> session_inv (data_loop lines st).
Proof.
  revert st. induction lines as [|line lines IH]; intros st C I; simpl; [exact I|].
  destruct (inv_data_line line st C I) as [I' C'].
  destruct (data_line line st) as [st' [|]]; cbn [fst snd] in *; auto.
Qed.

Lemma inv_on_data (chunk : string) (st : Session) :
  crashed st = false ->
  session_inv st -> session_inv (on_data chunk st).
Proof.
  intros C I. unfold on_data. destruct (streamEnded st) eqn:E; [exact I|].
  apply inv_data_loop; [exact C|]. apply inv_set_buffer, I.
Qed.

(** The 'end' handler never reaches [res.end()]: a line of its loop leaves
    [streamEnded] as it is, and leaves the loop only by the exception. *)
Lemma end_line_spec (line : string) (st : Session) :
  streamEnded st = false ->
  crashed st = false ->
  session_inv st ->
  session_inv (fst (end_line line st))
  /\ streamEnded (fst (end_line line st)) = false
  /\ crashed (fst (end_line line st))
     = match snd (end_line line st) with Return => true | Next => false end.
Proof.
  intros E C I. unfold end_line, end_catch.
  destruct (startsWith "data: " line); [|auto].
  destruct (substring_from 6 line =? "[DONE]").
  - cbn [fst snd]. rewrite E. cbn [negb].
    split; [exact (inv_throw [] st E I)|]. split; [exact E|reflexivity].
  - destruct (read_payload (substring_from 6 line)) as [[e|ollamaData]|];
      cbn [fst snd].
    + split; [|split; [exact E|reflexivity]].
      apply (inv_throw [WJson parse_error]); [exact E|].
      exact (inv_emit [WJson (JObj [("error", e)]); DONE] st C I).
    + destruct (truthy (own ollamaData "done")); cbn [fst snd].
      * split; [|split; [exact E|reflexivity]].
        apply (inv_throw [WJson parse_error]); [exact E|].
        apply (inv_emit [DONE]); [exact C|].
        exact (inv_emit [WJson _] st C I).
      * split; [exact (inv_emit [WJson _] st C I)|].
        split; [exact E|exact C].
    + split; [exact (inv_throw [WJson parse_error] st E I)|].
      split; [exact E|reflexivity].
Qed.

Lemma end_loop_spec (lines : list string) (st : Session) :
  streamEnded st = false ->
  crashed st = false ->
  session_inv st ->
  session_inv (fst (end_loop lines st))
  /\ streamEnded (fst (end_loop lines st)) = false
  /\ crashed (fst (end_loop lines st))
     = match snd (end_loop lines st) with Return => true | Next => false end.
Proof.
  revert st. induction lines as [|line lines IH]; intros st E C I; simpl; [auto|].
  destruct (end_line_spec line st E C I) as (I' & E' & C').
  destruct (end_line line st) as [st' [|]]; cbn [fst snd] in *; auto.
Qed.

(** The 'end' handler on a stream that runs and is not ended: the marker is
    its last call, [res.end()] is not called, and the handler is left by
    the exception. *)
Lemma on_end_spec (st : Session) :
  streamEnded st = false ->
  crashed st = false ->
  session_inv st ->
  session_inv (on_end st)
  /\ streamEnded (on_end st) = false
  /\ crashed (on_end st) = true.
Proof.
  intros E C I. unfold on_end. rewrite E.
  set (r := if negb (trim (responseBuffer st) =? "")
            then end_loop (split_nl (responseBuffer st)) st
            else (st, Next)).
  assert (R : session_inv (fst r)
              /\ streamEnded (fst r) = false
              /\ crashed (fst r)
                 = match snd r with Return => true | Next => false end).
  { unfold r. destruct (negb _); [apply end_loop_spec; assumption|auto]. }
  destruct r as [st' [|]]; cbn [fst snd] in R; destruct R as (I' & E' & C').
  - rewrite E'. cbn [negb].
    split; [exact (inv_throw [] st' E' I')|]. split; [exact E'|reflexivity].
  - auto.
Qed.

Lemma inv_on_close (st : Session) :
  crashed st = false ->
  session_inv st -> session_inv (on_close st) /\ streamEnded (on_close st) = true.
Proof.
  intros C I. unfold on_close. destruct (streamEnded st) eqn:E; [auto|].
  split; [exact (inv_finish [] st C I)|reflexivity].
Qed.

Lemma inv_on_error (message : JSValue) (st : Session) :
  crashed st = false ->
  session_inv st ->
  session_inv (on_error message st) /\ streamEnded (on_error message st) = true.
Proof.
  intros C I. unfold on_error. destruct (streamEnded st) eqn:E; [auto|].
  split; [exact (inv_finish [WJson _] st C I)|reflexivity].
Qed.

Lemma inv_handle (ev : StreamEvent) (st : Session) :
  session_inv st -> session_inv (handle ev st).
Proof.
  intros I. unfold handle. destruct (crashed st) eqn:C; [exact I|].
  destruct ev.
  - apply inv_on_data; assumption.
  - destruct (streamEnded st) eqn:E.
    + unfold on_end. rewrite E. exact I.
    + apply on_end_spec; assumption.
  - apply inv_on_close; assumption.
  - apply inv_on_error; assumption.
Qed.

Lemma inv_run (evs : list StreamEvent) (st : Session) :
  session_inv st -> session_inv (run evs st).
Proof.
  unfold run. revert st. induction evs as [|ev evs IH]; intros st I; simpl; [exact I|].
  apply IH, inv_handle, I.
Qed.

Lemma inv_new_session : session_inv new_session.
Proof.
  split; [reflexivity|]. split; discriminate.
Qed.

(** Once the stream is ended every handler returns at once. *)
Lemma ended_ignores (ev : StreamEvent) (st : Session) :
  streamEnded st = true -> handle ev st = st.
Proof.
  intros E. unfold handle. destruct (crashed st); [reflexivity|].
  destruct ev; unfold on_data, on_end, on_close, on_error; rewrite E; reflexivity.
Qed.

Lemma ended_ignores_all (evs : list StreamEvent) (st : Session) :
  streamEnded st = true -> run evs st = st.
Proof.
  unfold run. induction evs as [|ev evs IH]; intros E; simpl; [reflexivity|].
  rewrite (ended_ignores ev st E). apply IH, E.
Qed.

(** No event reaches a process that an uncaught exception has ended. *)
Lemma crashed_ignores_all (evs : list StreamEvent) (st : Session) :
  crashed st = true -> run evs st = st.
Proof.
  unfold run. induction evs as [|ev evs IH]; intros C; simpl; [reflexivity|].
  unfold handle at 2. rewrite C. apply IH, C.
Qed.

(** What a delta with a finish reason makes the 'data' handler do: after
    the opening and content frames it may owe, the frame with [done] true
    and the terminal marker; then, [res.flush()] being no function, the
    frame of the [catch] block, the marker a second time and the end of the
    response. *)
Lemma data_delta_finish (ollamaData : JSValue) (st : Session) :
  truthy (own ollamaData "done") = true ->
  exists frames,
    calls (data_delta ollamaData st) =
      calls st ++ map ResWrite (map WJson frames)
        ++ [ ResWrite (WJson (doneChunk ollamaData)); ResWrite DONE;
             ResWrite (WJson parse_error); ResWrite DONE; ResEnd ]
    /\ streamEnded (data_delta ollamaData st) = true.
Proof.
  intros D. destruct (data_delta_calls ollamaData st) as [frames ->].
  exists frames. rewrite D. split; [|reflexivity].
  unfold finish. cbn [calls].
  replace (calls (if firstChunk st then clear_firstChunk st else st))
    with (calls st) by (destruct (firstChunk st); reflexivity).
  rewrite map_app, <- !app_assoc. reflexivity.
Qed.

(** What the 'end' handler does with a delta left in the buffer: whatever
    [firstChunk] says, it writes the one frame of the delta and no opening
    frame, then the terminal marker (after the marker and the frame of the
    [catch] block, when the delta has a finish reason), and is left by the
    exception, without [res.end()]. *)
Lemma on_end_residual_delta (st : Session) (ollamaData : JSValue) :
  streamEnded st = false ->
  no_nl (responseBuffer st) = true ->
  trim (responseBuffer st) <> ""%string ->
  startsWith "data: " (responseBuffer st) = true ->
  substring_from 6 (responseBuffer st) <> "[DONE]"%string ->
  read_payload (substring_from 6 (responseBuffer st)) = Some (PDelta ollamaData) ->
  calls (on_end st) =
  calls st ++
  ResWrite (WJson (JObj [ ("model", own ollamaData "model");
                          ("created_at", own ollamaData "created_at");
                          ("message", own ollamaData "message");
                          ("done", own ollamaData "done") ]))
  :: (if truthy (own ollamaData "done")
      then [ResWrite DONE; ResWrite (WJson parse_error); ResWrite DONE]
      else [ResWrite DONE]).
Proof.
  intros He Hnl Ht Hs Hd Hp. unfold on_end. rewrite He.
  apply String.eqb_neq in Ht. rewrite Ht. simpl negb. cbv iota.
  rewrite (split_nl_no_nl _ Hnl). simpl end_loop. unfold end_line.
  apply String.eqb_neq in Hd. rewrite Hs, Hd, Hp.
  destruct (truthy (own ollamaData "done")); simpl; rewrite ?He; simpl;
    rewrite <- ?app_assoc; reflexivity.
Qed.

End StreamHandlers.

(* ================================================================= *)
(** ** The opening frame on the 'data' path *)

Section OpeningFrame.

Context `{host : Host}.

Lemma writes_app (cs cs' : list ResCall) :
  writes (cs ++ cs') = writes cs ++ writes cs'.
Proof.
  induction cs as [|c cs IH]; simpl; [reflexivity|].
  destruct c; simpl; rewrite IH; reflexivity.
Qed.

Lemma opened_once_no_opening (ws : list Written) :
  existsb is_opening ws = false ->
  opened_once ws = negb (existsb is_content ws).
Proof.
  induction ws as [|w ws IH]; simpl; [reflexivity|].
  destruct (is_opening w); simpl; [discriminate|].
  intros H. rewrite (IH H), negb_orb. reflexivity.
Qed.

Lemma opened_once_app (ws ws' : list Written) :
  opened_once (ws ++ ws') =
  if existsb is_opening ws
  then opened_once ws && negb (existsb is_opening ws')
  else negb (existsb is_content ws) && opened_once ws'.
Proof.
  induction ws as [|w ws IH]; simpl; [reflexivity|].
  destruct (is_opening w); simpl.
  - rewrite existsb_app, negb_orb. reflexivity.
  - rewrite IH. destruct (existsb is_opening ws).
    + rewrite andb_assoc. reflexivity.
    + rewrite negb_orb, andb_assoc. reflexivity.
Qed.

Lemma opening_inv_neutral (cs : list ResCall) (st st' : Session) :
  neutral cs ->
  calls st' = calls st ++ cs ->
  firstChunk st' = firstChunk st ->
  opening_inv st -> opening_inv st'.
Proof.
  unfold opening_inv. intros [No Nc] -> -> [O F].
  rewrite writes_app, opened_once_app, existsb_app, No, orb_false_r.
  split; [|exact F].
  destruct (existsb is_opening (writes (calls st))) eqn:E.
  - rewrite O. reflexivity.
  - rewrite (opened_once_no_opening _ No), Nc.
    rewrite (opened_once_no_opening _ E) in O. rewrite O. reflexivity.
Qed.

Lemma content_is_not_opening (ollamaData : JSValue) :
  truthy (js_or (own (own ollamaData "message") "content")
                (own (own ollamaData "message") "tool_calls")) = true ->
  is_opening (WJson (contentChunk ollamaData)) = false.
Proof.
  rewrite truthy_js_or. unfold is_opening.
  change (own (own (contentChunk ollamaData) "message") "content")
    with (own (own ollamaData "message") "content").
  change (own (own (contentChunk ollamaData) "message") "tool_calls")
    with (own (own ollamaData "message") "tool_calls").
  destruct (own (own ollamaData "message") "content") as [| | | | | |s| |];
    try reflexivity.
  destruct s; [|reflexivity]. simpl truthy. simpl orb.
  intros T. rewrite (truthy_defined _ T), andb_false_r. reflexivity.
Qed.

Lemma opening_inv_after (cs : list ResCall) (st st' : Session) :
  firstChunk st = false ->
  existsb is_opening (writes cs) = false ->
  calls st' = calls st ++ cs ->
  firstChunk st' = false ->
  opening_inv st -> opening_inv st'.
Proof.
  unfold opening_inv. intros Fc No -> -> [O F]. rewrite Fc in F. simpl in F.
  rewrite writes_app, opened_once_app, existsb_app, F, O, No. split; reflexivity.
Qed.

Lemma opening_inv_first (w : Written) (cs : list ResCall) (st st' : Session) :
  firstChunk st = true ->
  is_opening w = true ->
  existsb is_opening (writes cs) = false ->
  calls st' = calls st ++ ResWrite w :: cs ->
  firstChunk st' = false ->
  opening_inv st -> opening_inv st'.
Proof.
  unfold opening_inv. intros Fc Ow No -> -> [O F]. rewrite Fc in F. simpl in F.
  rewrite writes_app, opened_once_app, existsb_app, F.
  rewrite (opened_once_no_opening _ F) in O. rewrite O.
  simpl. rewrite Ow, No. split; reflexivity.
Qed.

Lemma data_delta_opening_inv (ollamaData : JSValue) (st : Session) :
  opening_inv st -> opening_inv (data_delta ollamaData st).
Proof.
  intros I. unfold data_delta.
  destruct (truthy (js_or (own (own ollamaData "message") "content")
                          (own (own ollamaData "message") "tool_calls"))) eqn:C;
    [pose proof (content_is_not_opening ollamaData C) as NO|];
    destruct (firstChunk st) eqn:Fc;
    destruct (truthy (own ollamaData "done")); cbv beta iota zeta;
    try exact I;
    first
      [ eapply (opening_inv_first (WJson (firstChunkData ollamaData)));
        [ exact Fc | reflexivity | | simpl; rewrite <- ?app_assoc; reflexivity
        | reflexivity | exact I ];
        cbn [writes app existsb]; rewrite ?NO; simpl; rewrite ?andb_false_r; reflexivity
      | eapply opening_inv_after;
        [ exact Fc | | simpl; rewrite <- ?app_assoc; reflexivity
        | simpl; try exact Fc; reflexivity | exact I ];
        cbn [writes app existsb]; rewrite ?NO; simpl; rewrite ?andb_false_r; reflexivity ].
Qed.

Lemma data_line_opening_inv (line : string) (st : Session) :
  opening_inv st -> opening_inv (fst (data_line line st)).
Proof.
  intros I. unfold data_line.
  destruct (startsWith "data: " line); [|exact I].
  destruct (substring_from 6 line =? "[DONE]").
  - simpl. destruct (negb (streamEnded st)); [|exact I].
    eapply opening_inv_neutral;
      [|reflexivity|reflexivity|exact I]; split; reflexivity.
  - destruct (read_payload (substring_from 6 line)) as [[e|ollamaData]|]; simpl.
    + eapply opening_inv_neutral;
      [|reflexivity|reflexivity|exact I]; split; reflexivity.
    + apply data_delta_opening_inv, I.
    + eapply opening_inv_neutral;
      [|reflexivity|reflexivity|exact I]; split; reflexivity.
Qed.

Lemma data_loop_opening_inv (lines : list string) (st : Session) :
  opening_inv st -> opening_inv (data_loop lines st).
Proof.
  revert st. induction lines as [|line lines IH]; intros st I; simpl; [exact I|].
  pose proof (data_line_opening_inv line st I) as I'.
  destruct (data_line line st) as [st' [|]]; simpl in I'; auto.
Qed.

(** Over the chunks of a session the 'data' handler writes the opening
    frame at most once, and no content frame before it. *)
Lemma data_path_opened_once (chunks : list string) :
  opened_once (writes (calls (run (map OnData chunks) new_session))) = true.
Proof.
  assert (G : forall st, opening_inv st ->
                opening_inv (run (map OnData chunks) st)).
  { unfold run. induction chunks as [|chunk chunks IH]; intros st I; simpl; [exact I|].
    apply IH. unfold handle, on_data. destruct (crashed st); [exact I|].
    destruct (streamEnded st); [exact I|].
    apply data_loop_opening_inv. exact I. }
  apply (G new_session). split; reflexivity.
Qed.

End OpeningFrame.

(* ================================================================= *)
(** ** The handlers on concrete streams and requests *)

Section Examples.

#[local] Existing Instance Sample.host.

(** The streaming scenario of the design document, as the code runs it: an
    opening frame, the frames of [Hel] and [lo], the final frame with
    [done] true and the terminal marker; then, [res.flush()] being no
    function, the error frame of the [catch] block and the marker once
    more, before [res.end()]. *)
Example scenario_three_deltas :
  let cs := calls (session [scenario_chunk1; scenario_chunk2]) in
  map frame_content (writes cs)
    = [JStr ""; JStr "Hel"; JStr "lo"; JStr ""; JUndefined; JUndefined; JUndefined]
  /\ map frame_done (writes cs)
     = [JBool false; JBool false; JBool false; JBool true;
        JUndefined; JUndefined; JUndefined]
  /\ map is_DONE (writes cs) = [false; false; false; false; true; false; true]
  /\ map is_opening (writes cs) = [true; false; false; false; false; false; false]
  /\ nth 5 (writes cs) DONE = WJson parse_error
  /\ map is_End cs = [false; false; false; false; false; false; false; true].
Proof.
  vm_compute. repeat split.
Qed.

(** The non-streaming scenario of the design document. *)
Example scenario_chat_usage :
  option_map token_counts (translateOpenAIToOllamaChat response_usage_and_timings)
  = Some (JNum 5, JNum 3, JNum 8)
  /\ option_map (fun o => own o "done")
       (translateOpenAIToOllamaChat response_usage_and_timings)
     = Some (JBool true).
Proof.
  vm_compute. split; reflexivity.
Qed.

(** C1, on streams the code can receive.  On the scenario of the design
    document the client is sent the terminal marker twice: after the first
    one [res.flush()] throws inside the [try], and the [catch] block writes
    an error frame and the marker again before [res.end()].  When the
    delta with the finish reason and a record the translator rejects
    arrive in one chunk, the loop over the lines goes on after the stream
    is ended and the 'data' handler writes the marker a third time, after
    [res.end()], behind one more error frame, and calls [res.end()] again.
    The marker is not written exactly once, and the first marker is not
    the last write. *)
Theorem C1_marker_written_again_after_end :
  let scenario := calls (session [scenario_chunk1; scenario_chunk2]) in
  let cs := calls (session [chunk_finish_then_usage]) in
  count_DONE (writes scenario) = 2%nat
  /\ count_DONE (delivered scenario) = 2%nat
  /\ count_DONE (writes cs) = 3%nat
  /\ count_DONE (delivered cs) = 2%nat
  /\ map is_DONE (writes cs) = [false; false; true; false; true; false; true]
  /\ map is_End cs
     = [false; false; false; false; false; true; false; false; true]
  /\ nth 3 (writes cs) DONE = WJson parse_error
  /\ nth 5 (writes cs) DONE = WJson parse_error.
Proof.
  vm_compute. repeat split.
Qed.

(** C2, on a stream the code can receive.  When the first delta reaches the
    gateway only in what is left in the buffer at the end of the stream,
    the 'end' handler writes its content frame and no opening frame at
    all; the same line followed by a newline goes through the 'data'
    handler, which writes the opening frame first. *)
Theorem C2_residual_delta_has_no_opening_frame :
  let ws := writes (calls (session [line_delta_Hi])) in
  map frame_content ws = [JStr "Hi"; JUndefined]
  /\ map is_content ws = [true; false]
  /\ existsb is_opening ws = false
  /\ map is_opening (writes (calls (session [(line_delta_Hi ++ nl)%string])))
     = [true; false; false].
Proof.
  vm_compute. repeat split.
Qed.

(** C3, on a chunk the code can receive.  A delta with a finish reason gets
    its frame with [done] true and the terminal marker right after it;
    [res.flush()] then throws, the [catch] block writes an error frame and
    the marker again, and the stream is ended.  But the line that follows
    in the same chunk is still translated and written, after the markers
    and after [res.end()]: not all further input is ignored. *)
Theorem C3_lines_after_finish_are_processed :
  let st := on_data chunk_finish_then_delta new_session in
  streamEnded st = true
  /\ map frame_done (writes (calls st))
     = [JBool false; JBool true; JUndefined; JUndefined; JUndefined; JBool false]
  /\ map is_DONE (writes (calls st)) = [false; false; true; false; true; false]
  /\ nth 3 (writes (calls st)) DONE = WJson parse_error
  /\ map frame_content (writes (calls st))
     = [JStr ""; JStr ""; JUndefined; JUndefined; JUndefined; JStr "late"]
  /\ map is_End (calls st) = [false; false; false; false; false; true; false].
Proof.
  vm_compute. repeat split.
Qed.

(** C4 as stated fails: a request with a prompt and no [messages] asks for
    streaming and its normalized list has one message, yet streaming is
    off. *)
Lemma C4_counterexample :
  normalize_messages request_prompt_stream
    = Some [mk_message (JStr "user") (JStr "hi")]
  /\ claimed_isStreaming request_prompt_stream None = Some true
  /\ isStreaming request_prompt_stream None = Some false.
Proof.
  vm_compute. repeat split.
Qed.

Lemma C4_witness :
  isStreaming request_chat (Some "text/event-stream") = Some true
  /\ [mk_message (JStr "user") (JStr "hi")] <> [].
Proof.
  split.
  - rewrite (proj1 (C4_streaming_decision request_chat (Some "text/event-stream"))).
    reflexivity.
  - apply (proj2 (C4_streaming_decision request_chat (Some "text/event-stream"))).
    reflexivity.
Defined.


(** C6 as stated fails: the body the client receives is not the upstream
    body but an object that holds it. *)
Lemma C6_counterexample :
  status (api_generate post_401 request_prompt_stream) = 401%Z
  /\ body (api_generate post_401 request_prompt_stream) <> upstream_401_body
  /\ api_chat post_401 request_chat None
     <> Single {| status := 401; body := upstream_401_body |}.
Proof.
  split; [reflexivity|].
  split; intros H; vm_compute in H; discriminate H.
Qed.

Lemma C6_witness :
  api_generate post_401 request_prompt_stream
    = {| status := 401; body := JObj [("error", upstream_401_body)] |}
  /\ api_chat post_401 request_chat None
    = Single {| status := 401; body := JObj [("error", upstream_401_body)] |}.
Proof.
  split.
  - eapply C6_upstream_error_wrapped; reflexivity.
  - edestruct (C6_upstream_error_wrapped post_401 request_chat) as [_ K];
      [reflexivity|reflexivity|reflexivity|].
    apply (K None). reflexivity.
Defined.

(** C7 as stated fails: with an empty array the normalized sequence is the
    synthesized empty user message; an entry whose content is the empty
    string has both fields and is dropped; and a kept entry loses the
    fields it has besides [role] and [content]. *)
Lemma C7_counterexample :
  normalize_messages (request_with []) <> Some (claimed_messages [])
  /\ normalize_messages (request_with items_empty_content)
     <> Some (claimed_messages items_empty_content)
  /\ normalize_messages (request_with items_extra_field)
     <> Some (claimed_messages items_extra_field).
Proof.
  repeat split; intros H; vm_compute in H; discriminate H.
Qed.

Lemma C7_witness :
  normalize_messages (request_with items_mixed)
  = Some [ mk_message (JStr "system") (JStr "be brief");
           mk_message (JStr "user") (JStr "hi") ].
Proof.
  refine (proj1 (C7_messages_filtered_by_truthiness
                   (request_with items_mixed) items_mixed eq_refl eq_refl _ _)).
  - repeat constructor.
  - vm_compute. discriminate.
Defined.

(** C8 as stated fails: a repeat penalty of zero and a presence penalty of
    zero are given, and neither [frequency_penalty] (which would be minus
    one) nor [presence_penalty] (which would be zero) is sent. *)
Lemma C8_counterexample :
  exists openaiRequest,
    translateOllamaToOpenAI request_zero_penalties = Some openaiRequest
    /\ own (own request_zero_penalties "options") "repeat_penalty" = JNum 0
    /\ own (own request_zero_penalties "options") "presence_penalty" = JNum 0
    /\ in_text "frequency_penalty" openaiRequest = None
    /\ in_text "presence_penalty" openaiRequest = None
    /\ in_text "temperature" openaiRequest = Some (JNum 0).
Proof.
  eexists. split; [reflexivity|]. vm_compute. repeat split.
Qed.

Lemma C8_witness :
  (exists openaiRequest,
     translateOllamaToOpenAI request_fractions = Some openaiRequest
     /\ in_text "frequency_penalty" openaiRequest = Some (JFloat 0.10000000000000009)
     /\ in_text "temperature" openaiRequest = Some (JFloat 0.8)
     /\ in_text "max_tokens" openaiRequest = Some (JNum 128)
     /\ in_text "top_p" openaiRequest = None
     /\ in_text "presence_penalty" openaiRequest = Some (JFloat 0.5))
  /\ (exists openaiRequest,
        translateOllamaToOpenAI request_penalties = Some openaiRequest
        /\ in_text "frequency_penalty" openaiRequest = Some (JNum 1)
        /\ in_text "temperature" openaiRequest = Some (JNum 0))
  /\ (exists openaiRequest,
        translateOllamaToOpenAI request_text_penalty = Some openaiRequest
        /\ in_text "frequency_penalty" openaiRequest = Some JNull).
Proof.
  split; [|split]; (eexists; split; [reflexivity|]).
  - destruct (C8_outbound_options request_fractions _ eq_refl)
      as (_ & F & _ & T & M & P & PP & _ & _).
    rewrite (F 1.1%float eq_refl), T, M, P, PP. repeat split.
  - destruct (C8_outbound_options request_penalties _ eq_refl)
      as (_ & _ & F & T & _).
    rewrite (F 2%Z eq_refl), T. repeat split.
  - destruct (C8_outbound_options request_text_penalty _ eq_refl) as (F & _).
    rewrite F. reflexivity.
Defined.

(** C9 as stated fails: a span whose opening tag stands alone on its line
    is not emitted, and a closing tag at the end of a line is kept as part
    of the content. *)
Lemma C9_counterexample :
  parse_tagged_prompt prompt_tag_alone [] = []
  /\ parse_tagged_prompt prompt_tag_alone []
     <> [mk_message (JStr "user") (JStr "hello")]
  /\ parse_tagged_prompt prompt_inline_close []
     = [mk_message (JStr "user") (JStr "hi</user>")].
Proof.
  split; [reflexivity|]. split; [|reflexivity].
  intros H; vm_compute in H; discriminate H.
Qed.

Lemma C9_witness :
  parse_tagged_prompt (render ["intro"] spans_example) []
  = [ mk_message (JStr "user") (JStr ("hello" ++ nl ++ "there"));
      mk_message (JStr "assistant") (JStr "ok");
      mk_message (JStr "user") (JStr ("again" ++ nl ++ "and again")) ]
  /\ parse_tagged_prompt "<user>hello" [] = [mk_message (JStr "user") (JStr "hello")].
Proof.
  split.
  - exact (proj1 (proj1 (proj2 C9_tag_parser) ["intro"] spans_example eq_refl eq_refl)).
  - refine (proj2 (proj2 (proj2 C9_tag_parser) "<user>hello" [] _)).
    vm_compute. discriminate.
Defined.

Lemma C10_witness :
  (translateOpenAIToOllamaChat response_no_choices = None
   /\ translateOpenAIToOllamaGenerate response_no_choices = None
   /\ translateOpenAIStreamToOllamaChat response_no_choices = None)
  /\ (exists choice,
        first_choice response_bare = Some choice /\ nullish choice = false).
Proof.
  split.
  - apply (proj1 (C10_translators_need_first_choice response_no_choices)).
    right. reflexivity.
  - eapply (proj2 (C10_translators_need_first_choice response_bare)).
    left. vm_compute. reflexivity.
Defined.

End Examples.

(* ================================================================= *)
(** ** The stream handlers, further *)

Section StreamFurther.

Context `{host : Host}.

Lemma handle_keeps_ended (ev : StreamEvent) (st : Session) :
  streamEnded st = true -> streamEnded (handle ev st) = true.
Proof.
  intros E. rewrite (ended_ignores ev st E). exact E.
Qed.

Lemma run_keeps_ended (evs : list StreamEvent) (st : Session) :
  streamEnded st = true -> streamEnded (run evs st) = true.
Proof.
  intros E. rewrite (ended_ignores_all evs st E). exact E.
Qed.

(** An 'end', 'close' or 'error' event stops the stream: 'close' and
    'error' end it, 'end' is left by the exception. *)
Lemma terminal_stops (ev : StreamEvent) (st : Session) :
  is_terminal ev = true ->
  session_inv st ->
  streamEnded (handle ev st) = true \/ crashed (handle ev st) = true.
Proof.
  intros T I. destruct (streamEnded st) eqn:E.
  { left. rewrite (ended_ignores ev st E). exact E. }
  unfold handle. destruct (crashed st) eqn:C; [right; exact C|].
  destruct ev; try discriminate T.
  - right. apply on_end_spec; assumption.
  - left. apply inv_on_close; assumption.
  - left. apply inv_on_error; assumption.
Qed.

Lemma run_terminal_stops (evs : list StreamEvent) (st : Session) :
  session_inv st ->
  existsb is_terminal evs = true ->
  streamEnded (run evs st) = true \/ crashed (run evs st) = true.
Proof.
  unfold run. revert st. induction evs as [|ev evs IH]; intros st I; simpl;
    [discriminate|].
  intros H. apply orb_prop in H as [H|H].
  - destruct (terminal_stops ev st H I) as [E|C].
    + left. apply (run_keeps_ended evs), E.
    + right. fold (run evs (handle ev st)).
      rewrite (crashed_ignores_all evs _ C). exact C.
  - apply IH; [apply inv_handle, I|exact H].
Qed.

(** X1.  Whatever events the upstream stream raises, in whatever order:
    [streamEnded] is set exactly when [res.end()] has been called; what
    was written before the first [res.end()] then stops with the terminal
    marker; a session that was left by the exception of [res.flush()] is
    not ended, and the marker was its last call on [res]; and after an
    'end', 'close' or 'error' event the session is ended or was left by
    that exception. *)
Theorem X1_marker_precedes_every_stop (evs : list StreamEvent) :
  let st := run evs new_session in
  streamEnded st = res_ended (calls st)
  /\ (streamEnded st = true -> exists ws, delivered (calls st) = ws ++ [DONE])
  /\ (crashed st = true ->
      streamEnded st = false /\ exists cs, calls st = cs ++ [ResWrite DONE])
  /\ (existsb is_terminal evs = true ->
      streamEnded st = true \/ crashed st = true).
Proof.
  intros st.
  destruct (inv_run evs new_session inv_new_session) as (I1 & I2 & I3).
  fold st in I1, I2, I3.
  split; [exact I1|]. split; [exact I2|]. split; [exact I3|].
  apply run_terminal_stops, inv_new_session.
Qed.

(** X2.  Termination is final: once [streamEnded] is set, no event of any
    kind changes the session, so no handler calls [res] again. *)
Theorem X2_ended_session_is_final (evs : list StreamEvent) (st : Session) :
  streamEnded st = true -> run evs st = st.
Proof.
  apply ended_ignores_all.
Qed.

(** X3.  Over the chunks of a session the 'data' handler writes the opening
    frame at most once and no content frame before it: if it wrote a
    content frame at all, it wrote the opening frame. *)
Theorem X3_data_handler_opens_once (chunks : list string) :
  let ws := writes (calls (run (map OnData chunks) new_session)) in
  opened_once ws = true
  /\ (existsb is_content ws = true -> existsb is_opening ws = true).
Proof.
  intros ws. pose proof (data_path_opened_once chunks) as O. fold ws in O.
  split; [exact O|].
  intros C. destruct (existsb is_opening ws) eqn:E; [reflexivity|].
  rewrite (opened_once_no_opening ws E), C in O. discriminate O.
Qed.

(* ----------------------------------------------------------------- *)
(** *** The line buffer *)

Lemma split_nl_nonempty (s : string) : split_nl s <> [].
Proof.
  destruct s as [|c s]; simpl; [discriminate|].
  destruct (Ascii.eqb c nl_char); [discriminate|].
  destruct (split_nl s); discriminate.
Qed.

Lemma split_nl_all_no_nl (s : string) : forallb no_nl (split_nl s) = true.
Proof.
  induction s as [|c s IH]; simpl; [reflexivity|].
  destruct (Ascii.eqb c nl_char) eqn:E; simpl; [exact IH|].
  destruct (split_nl s) as [|l ls]; simpl in *; rewrite E; [reflexivity|exact IH].
Qed.

Lemma last_no_nl (ls : list string) :
  forallb no_nl ls = true -> no_nl (last ls "") = true.
Proof.
  induction ls as [|l ls IH]; [reflexivity|].
  intros H. simpl in H. apply andb_prop in H as [Hl H].
  destruct ls as [|l' ls]; [exact Hl|]. apply (IH H).
Qed.

(** What is cut off a text that goes on: the complete lines of the first
    part stay, its last fragment is continued by the second part. *)
Lemma split_nl_append (x y : string) :
  split_nl (x ++ y) =
  removelast (split_nl x) ++ split_nl (last (split_nl x) "" ++ y).
Proof.
  induction x as [|c x IH]; [reflexivity|].
  cbn [append split_nl].
  pose proof (split_nl_nonempty x) as Hx.
  destruct (Ascii.eqb c nl_char) eqn:E.
  - rewrite IH. destruct (split_nl x) as [|l ls]; [contradiction|]. reflexivity.
  - rewrite IH. destruct (split_nl x) as [|l [|l' ls]]; [contradiction| |].
    + simpl. rewrite E. reflexivity.
    + reflexivity.
Qed.

Lemma data_line_buffer (b : string) (line : string) (st : Session) :
  data_line line (set_buffer b st)
  = (set_buffer b (fst (data_line line st)), snd (data_line line st)).
Proof.
  unfold data_line.
  destruct (startsWith "data: " line); [|reflexivity].
  destruct (substring_from 6 line =? "[DONE]").
  - simpl. destruct (streamEnded st); reflexivity.
  - destruct (read_payload (substring_from 6 line)) as [[e|ollamaData]|];
      try reflexivity.
    simpl. unfold data_delta. simpl.
    destruct (firstChunk st), (truthy (js_or _ _)), (truthy (own ollamaData "done"));
      reflexivity.
Qed.

Lemma data_loop_buffer (b : string) (lines : list string) (st : Session) :
  data_loop lines (set_buffer b st) = set_buffer b (data_loop lines st).
Proof.
  revert st. induction lines as [|line lines IH]; intros st; simpl; [reflexivity|].
  rewrite data_line_buffer.
  destruct (data_line line st) as [st' [|]]; simpl; [apply IH|reflexivity].
Qed.

Lemma set_buffer_twice (b b' : string) (st : Session) :
  set_buffer b (set_buffer b' st) = set_buffer b st.
Proof.
  reflexivity.
Qed.

(** The loop is left early only with the stream ended or by the
    exception. *)
Lemma data_line_return (line : string) (st st' : Session) :
  data_line line st = (st', Return) ->
  streamEnded st' = true \/ crashed st' = true.
Proof.
  unfold data_line.
  destruct (startsWith "data: " line); [|discriminate].
  destruct (substring_from 6 line =? "[DONE]").
  - destruct (streamEnded st) eqn:E; simpl; intros H; inversion H; subst; auto.
  - destruct (read_payload (substring_from 6 line)) as [[e|ollamaData]|];
      intros H; inversion H; subst; left; reflexivity.
Qed.

Lemma data_loop_app (l1 l2 : list string) (st : Session) :
  streamEnded (data_loop l1 st) = false ->
  crashed (data_loop l1 st) = false ->
  data_loop (l1 ++ l2) st = data_loop l2 (data_loop l1 st).
Proof.
  revert st. induction l1 as [|line l1 IH]; intros st; simpl; [reflexivity|].
  destruct (data_line line st) as [st' [|]] eqn:E.
  - apply IH.
  - intros H C. destruct (data_line_return line st st' E) as [F|F];
      rewrite F in *; discriminate.
Qed.

Lemma data_line_keeps_buffer (line : string) (st : Session) :
  responseBuffer (fst (data_line line st)) = responseBuffer st.
Proof.
  unfold data_line.
  destruct (startsWith "data: " line); [|reflexivity].
  destruct (substring_from 6 line =? "[DONE]").
  - simpl. destruct (streamEnded st); reflexivity.
  - destruct (read_payload (substring_from 6 line)) as [[e|ollamaData]|];
      try reflexivity.
    simpl. unfold data_delta.
    destruct (firstChunk st), (truthy (js_or _ _)), (truthy (own ollamaData "done"));
      reflexivity.
Qed.

Lemma data_loop_keeps_buffer (lines : list string) (st : Session) :
  responseBuffer (data_loop lines st) = responseBuffer st.
Proof.
  revert st. induction lines as [|line lines IH]; intros st; simpl; [reflexivity|].
  pose proof (data_line_keeps_buffer line st) as K.
  destruct (data_line line st) as [st' [|]]; simpl in K; [rewrite IH|]; exact K.
Qed.

Lemma on_data_buffer_no_nl (chunk : string) (st : Session) :
  no_nl (responseBuffer st) = true -> no_nl (responseBuffer (on_data chunk st)) = true.
Proof.
  intros H. unfold on_data. destruct (streamEnded st); [exact H|].
  rewrite data_loop_keeps_buffer. simpl.
  apply last_no_nl, split_nl_all_no_nl.
Qed.

Lemma end_line_keeps_buffer (line : string) (st : Session) :
  responseBuffer (fst (end_line line st)) = responseBuffer st.
Proof.
  unfold end_line.
  destruct (startsWith "data: " line); [|reflexivity].
  destruct (substring_from 6 line =? "[DONE]").
  - simpl. destruct (streamEnded st); reflexivity.
  - destruct (read_payload (substring_from 6 line)) as [[e|ollamaData]|];
      try reflexivity.
    simpl. destruct (truthy (own ollamaData "done")); reflexivity.
Qed.

Lemma end_loop_keeps_buffer (lines : list string) (st : Session) :
  responseBuffer (fst (end_loop lines st)) = responseBuffer st.
Proof.
  revert st. induction lines as [|line lines IH]; intros st; simpl; [reflexivity|].
  pose proof (end_line_keeps_buffer line st) as K.
  destruct (end_line line st) as [st' [|]]; simpl in K; [rewrite IH|]; exact K.
Qed.

Lemma on_end_keeps_buffer (st : Session) :
  responseBuffer (on_end st) = responseBuffer st.
Proof.
  unfold on_end. destruct (streamEnded st) eqn:E; [reflexivity|].
  set (r := if negb (trim (responseBuffer st) =? "")
            then end_loop (split_nl (responseBuffer st)) st
            else (st, Next)).
  assert (K : responseBuffer (fst r) = responseBuffer st).
  { unfold r. destruct (negb _); [apply end_loop_keeps_buffer|reflexivity]. }
  destruct r as [st' [|]]; simpl in K; [destruct (negb (streamEnded st'))|];
    simpl; exact K.
Qed.

Lemma handle_buffer_no_nl (ev : StreamEvent) (st : Session) :
  no_nl (responseBuffer st) = true -> no_nl (responseBuffer (handle ev st)) = true.
Proof.
  intros H. unfold handle. destruct (crashed st); [exact H|]. destruct ev.
  - apply on_data_buffer_no_nl, H.
  - rewrite on_end_keeps_buffer. exact H.
  - unfold on_close. destruct (streamEnded st); exact H.
  - unfold on_error. destruct (streamEnded st); exact H.
Qed.

Lemma run_buffer_no_nl (evs : list StreamEvent) (st : Session) :
  no_nl (responseBuffer st) = true -> no_nl (responseBuffer (run evs st)) = true.
Proof.
  unfold run. revert st. induction evs as [|ev evs IH]; intros st H; simpl; [exact H|].
  apply IH, handle_buffer_no_nl, H.
Qed.

(** X5.  Between events the buffer holds an unfinished line only: whatever
    events came, it contains no newline, so no complete line is ever left
    waiting in it. *)
Theorem X5_buffer_holds_no_complete_line (evs : list StreamEvent) :
  no_nl (responseBuffer (run evs new_session)) = true.
Proof.
  apply run_buffer_no_nl. reflexivity.
Qed.

Lemma append_empty_r (s : string) : (s ++ "")%string = s.
Proof.
  induction s as [|c s IH]; simpl; [reflexivity|]. rewrite IH. reflexivity.
Qed.

Lemma append_assoc_str (a b c : string) : ((a ++ b) ++ c = a ++ (b ++ c))%string.
Proof.
  induction a as [|x a IH]; simpl; [reflexivity|]. rewrite IH. reflexivity.
Qed.

Lemma on_data_empty (st : Session) :
  no_nl (responseBuffer st) = true -> on_data "" st = st.
Proof.
  intros H. unfold on_data. destruct (streamEnded st) eqn:E; [reflexivity|].
  rewrite append_empty_r, (split_nl_no_nl _ H). simpl.
  destruct st; reflexivity.
Qed.

(** X6.  An empty chunk changes nothing, at any point of a session: nothing
    is written and the buffer, the first-chunk flag and the end flag stay
    as they are. *)
Theorem X6_empty_chunk_is_ignored (evs : list StreamEvent) :
  on_data "" (run evs new_session) = run evs new_session.
Proof.
  apply on_data_empty, run_buffer_no_nl. reflexivity.
Qed.

Lemma last_append_nonempty {A : Type} (l l' : list A) (d : A) :
  l' <> [] -> last (l ++ l') d = last l' d.
Proof.
  intros N. induction l as [|x l IH]; [reflexivity|].
  simpl. destruct (l ++ l') eqn:E; [|exact IH].
  apply app_eq_nil in E as [_ E]. contradiction.
Qed.

Lemma on_data_split (c1 c2 : string) (st : Session) :
  streamEnded (on_data c1 st) = false ->
  crashed (on_data c1 st) = false ->
  on_data c2 (on_data c1 st) = on_data (c1 ++ c2) st.
Proof.
  intros H C. destruct (streamEnded st) eqn:E.
  - unfold on_data in H. rewrite E in H. rewrite E in H. discriminate H.
  - set (L1 := split_nl (responseBuffer st ++ c1)).
    assert (S1 : on_data c1 st
                 = set_buffer (last L1 "") (data_loop (removelast L1) st)).
    { unfold on_data. rewrite E, data_loop_buffer. reflexivity. }
    rewrite S1 in H, C |- *.
    change (streamEnded (data_loop (removelast L1) st) = false) in H.
    change (crashed (data_loop (removelast L1) st) = false) in C.
    set (L2 := split_nl (last L1 "" ++ c2)).
    assert (S2 : on_data c2 (set_buffer (last L1 "") (data_loop (removelast L1) st))
                 = set_buffer (last L2 "")
                     (data_loop (removelast L2) (data_loop (removelast L1) st))).
    { unfold on_data. cbn [streamEnded set_buffer responseBuffer]. rewrite H.
      fold L2. rewrite !data_loop_buffer. reflexivity. }
    rewrite S2. unfold on_data. rewrite E.
    rewrite <- append_assoc_str, split_nl_append. fold L1. fold L2.
    assert (N2 : L2 <> []) by apply split_nl_nonempty.
    rewrite (removelast_app _ N2), (last_append_nonempty _ _ _ N2).
    rewrite data_loop_buffer, (data_loop_app _ _ _ H C). reflexivity.
Qed.

Lemma on_data_all (chunks : list string) (st : Session) :
  no_nl (responseBuffer st) = true ->
  streamEnded (run (map OnData chunks) st) = false ->
  crashed (run (map OnData chunks) st) = false ->
  run (map OnData chunks) st = on_data (all_chunks chunks) st.
Proof.
  revert st. induction chunks as [|c chunks IH]; intros st B H C.
  - simpl. symmetry. apply on_data_empty, B.
  - change (run (map OnData (c :: chunks)) st)
      with (run (map OnData chunks) (handle (OnData c) st)) in *.
    assert (C0 : crashed st = false).
    { destruct (crashed st) eqn:C0; [|reflexivity].
      unfold handle in C. rewrite C0 in C.
      rewrite (crashed_ignores_all _ _ C0), C0 in C. discriminate C. }
    unfold handle in H, C |- *. rewrite C0 in H, C |- *.
    assert (E : streamEnded (on_data c st) = false).
    { destruct (streamEnded (on_data c st)) eqn:E; [|reflexivity].
      rewrite (ended_ignores_all _ _ E), E in H. discriminate H. }
    assert (C1 : crashed (on_data c st) = false).
    { destruct (crashed (on_data c st)) eqn:C1; [|reflexivity].
      rewrite (crashed_ignores_all _ _ C1), C1 in C. discriminate C. }
    rewrite (IH _ (on_data_buffer_no_nl c st B) H C).
    apply on_data_split; assumption.
Qed.

(** X4.  Chunk boundaries do not matter.  As long as the stream has not
    been stopped (it is not ended and no handler was left by the exception
    of [res.flush()]), the session after any sequence of chunks is the
    session after their concatenation delivered as one chunk: the same
    calls on [res], the same buffer, the same flags, wherever the records
    were cut.  A chunk is the text [chunk.toString()] gives. *)
Theorem X4_chunking_is_irrelevant (chunks : list string) :
  streamEnded (run (map OnData chunks) new_session) = false ->
  crashed (run (map OnData chunks) new_session) = false ->
  run (map OnData chunks) new_session = on_data (all_chunks chunks) new_session.
Proof.
  apply on_data_all. reflexivity.
Qed.

Lemma data_loop_returns (line : string) (rest : list string) (st st' : Session) :
  data_line line st = (st', Return) -> data_loop (line :: rest) st = st'.
Proof.
  intros E. simpl. rewrite E. reflexivity.
Qed.

(** X8.  The end record and an error payload stop the handler at once.
    When a chunk that arrives on an empty buffer starts with the line
    [data: [DONE]], the handler writes the marker and is left by the
    exception of [res.flush()] (line 393, outside the [try]): [res.end()]
    is not called and [streamEnded] stays false.  When it starts with a
    record whose payload carries an error, the error frame and the marker
    are written and the stream is ended.  Either way nothing that follows
    in the chunk is looked at: only its last fragment is kept in the
    buffer. *)
Theorem X8_end_and_error_records_stop_the_chunk
  (payload more : string) (st : Session) :
  streamEnded st = false ->
  responseBuffer st = ""%string ->
  no_nl payload = true ->
  let chunk := ("data: " ++ payload ++ nl ++ more)%string in
  let kept := set_buffer (last (split_nl more) "") st in
  (payload = "[DONE]"%string ->
   on_data chunk st = throw_uncaught (emit [ResWrite DONE] kept))
  /\ (forall e,
        payload <> "[DONE]"%string ->
        read_payload payload = Some (PError e) ->
        on_data chunk st
        = finish [ResWrite (WJson (JObj [("error", e)])); ResWrite DONE; ResEnd] kept).
Proof.
  intros E B Hn chunk kept.
  assert (S : split_nl (responseBuffer st ++ chunk)
              = ("data: " ++ payload)%string :: split_nl more).
  { rewrite B. unfold chunk. cbn [append].
    change (String "d" (String "a" (String "t" (String "a" (String ":"
              (String " " (payload ++ nl ++ more)))))))
      with (("data: " ++ payload) ++ nl ++ more)%string.
    apply split_nl_line. exact Hn. }
  assert (N : split_nl more <> []) by apply split_nl_nonempty.
  assert (R : forall st', data_line ("data: " ++ payload) kept = (st', Return) ->
                on_data chunk st = st').
  { intros st' D. unfold on_data. rewrite E, S.
    change (("data: " ++ payload)%string :: split_nl more)
      with ([("data: " ++ payload)%string] ++ split_nl more).
    rewrite (removelast_app _ N), (last_append_nonempty _ _ _ N).
    apply data_loop_returns. exact D. }
  split.
  - intros ->. apply R. unfold data_line. cbn. rewrite E. reflexivity.
  - intros e Hd Hp. apply R. unfold data_line.
    change (startsWith "data: " ("data: " ++ payload)) with true.
    change (substring_from 6 ("data: " ++ payload)) with payload.
    apply String.eqb_neq in Hd. rewrite Hd, Hp. reflexivity.
Qed.

Lemma split_terminated_lines (lines : list string) :
  forallb no_nl lines = true ->
  split_nl (terminated_lines lines) = lines ++ [""%string].
Proof.
  induction lines as [|l lines IH]; intros H; [reflexivity|].
  cbn [forallb] in H. apply andb_prop in H as [Hl H].
  change (terminated_lines (l :: lines))
    with (l ++ nl ++ terminated_lines lines)%string.
  rewrite (split_nl_line _ _ Hl), (IH H). reflexivity.
Qed.

Lemma data_loop_skips (lines : list string) (st : Session) :
  forallb (fun l => negb (startsWith "data: " l)) lines = true ->
  data_loop lines st = st.
Proof.
  revert st. induction lines as [|l lines IH]; intros st H; [reflexivity|].
  cbn [forallb] in H. apply andb_prop in H as [Hl H].
  cbn [data_loop]. unfold data_line. apply negb_true_iff in Hl. rewrite Hl.
  apply IH, H.
Qed.

(** X7.  Lines that are not [data: ] records (comments, keep-alives, blank
    lines) are dropped without a trace: a chunk of such complete lines,
    arriving on an empty buffer, leaves the session exactly as it was. *)
Theorem X7_other_lines_are_dropped (lines : list string) (st : Session) :
  responseBuffer st = ""%string ->
  forallb no_nl lines = true ->
  forallb (fun l => negb (startsWith "data: " l)) lines = true ->
  on_data (terminated_lines lines) st = st.
Proof.
  intros B Hn Hd. unfold on_data. destruct (streamEnded st) eqn:E; [reflexivity|].
  rewrite B. cbn [append].
  rewrite (split_terminated_lines lines Hn).
  rewrite removelast_last, last_last, data_loop_buffer, (data_loop_skips _ _ Hd).
  destruct st; simpl in *; subst; reflexivity.
Qed.

End StreamFurther.

(* ================================================================= *)
(** ** The response translators, further *)

Section TranslatorsFurther.

Context `{host : Host}.

Lemma literals_agree (response pe ec tt : JSValue) :
  match chat_literal response pe ec tt, generate_literal response pe ec tt with
  | Some chat, Some gen =>
      own gen "model" = own chat "model"
      /\ own gen "created_at" = own chat "created_at"
      /\ own gen "done" = own chat "done"
      /\ token_counts gen = token_counts chat
      /\ own gen "response" = own (own chat "message") "content"
  | None, None => True
  | _, _ => False
  end.
Proof.
  unfold chat_literal, generate_literal.
  destruct (prop response "created") as [created|]; simpl; [|exact I].
  destruct (Date_toISOString created) as [created_at|]; simpl; [|exact I].
  destruct (prop response "choices") as [choices|]; simpl; [|exact I].
  destruct (index0 choices) as [choice|]; simpl; [|exact I].
  destruct (prop choice "message") as [message|]; simpl; [|exact I].
  unfold prop. destruct (nullish message); simpl; [exact I|].
  repeat split.
Qed.

(** X12.  The two non-streaming translators accept exactly the same
    upstream responses, and on a response they accept their replies agree
    on the model, the creation time, the done flag and the three token
    counts; the [response] text of the generate reply is the content of
    the chat reply's message. *)
Theorem X12_generate_and_chat_agree (response : JSValue) :
  match translateOpenAIToOllamaChat response,
        translateOpenAIToOllamaGenerate response with
  | Some chat, Some gen =>
      own gen "model" = own chat "model"
      /\ own gen "created_at" = own chat "created_at"
      /\ own gen "done" = own chat "done"
      /\ token_counts gen = token_counts chat
      /\ own gen "response" = own (own chat "message") "content"
  | None, None => True
  | _, _ => False
  end.
Proof.
  unfold translateOpenAIToOllamaChat, translateOpenAIToOllamaGenerate.
  destruct (prop response "usage") as [usage|]; simpl; [|exact I].
  destruct (truthy usage); [apply literals_agree|].
  destruct (_ && _); apply literals_agree.
Qed.

Lemma chat_literal_iff (response pe ec tt reply : JSValue) :
  chat_literal response pe ec tt = Some reply <->
  exists created_at choice,
    nullish response = false
    /\ Date_toISOString (own response "created") = Some created_at
    /\ first_choice response = Some choice
    /\ nullish choice = false
    /\ nullish (own choice "message") = false
    /\ reply = JObj
         [ ("model", own response "model");
           ("created_at", JStr created_at);
           ("message", JObj [ ("role", own (own choice "message") "role");
                              ("content", own (own choice "message") "content") ]);
           ("done", JBool (is_str "stop" (own choice "finish_reason")));
           ("prompt_eval_count", pe); ("eval_count", ec); ("total_tokens", tt) ].
Proof.
  unfold chat_literal, first_choice. split.
  - intros E.
    apply bind_Some in E as (created & Hc & E). apply prop_Some in Hc as [Hr ->].
    apply bind_Some in E as (created_at & Hd & E).
    apply bind_Some in E as (choices & Hch & E).
    apply bind_Some in E as (choice & Hi & E).
    apply bind_Some in E as (message & Hm & E). apply prop_Some in Hm as [Hn ->].
    apply bind_Some in E as (role & Hro & E). apply prop_Some in Hro as [Hmn ->].
    apply bind_Some in E as (content & Hco & E). apply prop_Some in Hco as [_ ->].
    inversion E; subst. exists created_at, choice.
    rewrite Hch. simpl. repeat split; assumption.
  - intros (created_at & choice & Hr & Hd & Hf & Hn & Hm & ->).
    rewrite (prop_not_nullish _ "created" Hr). simpl. rewrite Hd. simpl.
    destruct (prop response "choices") as [choices|]; simpl in *; [|discriminate].
    rewrite Hf. simpl.
    rewrite (prop_not_nullish _ "message" Hn). simpl.
    rewrite (prop_not_nullish _ "role" Hm), (prop_not_nullish _ "content" Hm).
    reflexivity.
Qed.

(** X13.  The chat translator returns a reply exactly when the response is
    an object whose [created] makes a valid date and whose first choice and
    that choice's message are neither [undefined] nor [null]; every other
    response makes it throw.  The reply then carries the model of the
    response, the role and content of that message unchanged, and [done]
    true only for the finish reason [stop]. *)
Theorem X13_chat_translator_domain (response : JSValue) :
  ((exists reply, translateOpenAIToOllamaChat response = Some reply) <->
   nullish response = false
   /\ (exists created_at, Date_toISOString (own response "created") = Some created_at)
   /\ (exists choice,
         first_choice response = Some choice
         /\ nullish choice = false
         /\ nullish (own choice "message") = false))
  /\
  (forall reply choice,
     translateOpenAIToOllamaChat response = Some reply ->
     first_choice response = Some choice ->
     own reply "model" = own response "model"
     /\ own reply "message"
        = JObj [ ("role", own (own choice "message") "role");
                 ("content", own (own choice "message") "content") ]
     /\ own reply "done" = JBool (is_str "stop" (own choice "finish_reason"))).
Proof.
  assert (L : forall reply,
    translateOpenAIToOllamaChat response = Some reply ->
    nullish response = false
    /\ exists pe ec tt, chat_literal response pe ec tt = Some reply).
  { intros reply. unfold translateOpenAIToOllamaChat, prop.
    destruct (nullish response); simpl; [discriminate|].
    destruct (truthy (own response "usage")); [|destruct (_ && _)];
      intros E; eauto 6. }
  split; [split|].
  - intros [reply E]. apply L in E as (Hr & pe & ec & tt & E).
    apply chat_literal_iff in E as (ca & ch & _ & Hd & Hf & Hn & Hm & _).
    eauto 8.
  - intros (Hr & [ca Hd] & ch & Hf & Hn & Hm).
    assert (S : forall pe ec tt, exists reply,
                  chat_literal response pe ec tt = Some reply).
    { intros pe ec tt. eexists. apply chat_literal_iff.
      exists ca, ch. repeat split; eauto. }
    unfold translateOpenAIToOllamaChat. rewrite (prop_not_nullish _ "usage" Hr).
    simpl. destruct (truthy (own response "usage")); [|destruct (_ && _)];
      apply S.
  - intros reply choice E Hf. apply L in E as (_ & pe & ec & tt & E).
    apply chat_literal_iff in E as (ca & ch & _ & _ & Hf' & _ & _ & ->).
    rewrite Hf in Hf'. inversion Hf'; subst. repeat split.
Qed.

(* ----------------------------------------------------------------- *)
(** *** The frames of a stream *)

(** What the stream translator returns, property by property. *)
Lemma stream_frame (response ollamaData : JSValue) :
  translateOpenAIStreamToOllamaChat response = Some ollamaData ->
  exists choice,
    first_choice response = Some choice
    /\ nullish choice = false
    /\ let delta := js_or (own choice "delta") (JObj []) in
       let usage := own response "usage" in
       let timings := own response "timings" in
       let isDone := truthy (own choice "finish_reason") in
       own ollamaData "model" = own response "model"
       /\ own ollamaData "done" = JBool isDone
       /\ own (own ollamaData "message") "role"
          = js_or (own delta "role") (JStr "assistant")
       /\ own (own ollamaData "message") "content"
          = js_or (own delta "content") (JStr "")
       /\ own (own ollamaData "message") "tool_calls"
          = (if truthy (own delta "tool_calls")
                && js_gt0 (own (own delta "tool_calls") "length")
             then own delta "tool_calls" else JUndefined)
       /\ token_counts ollamaData
          = (if truthy usage then
               (js_or (own usage "prompt_tokens") (JNum 0),
                js_or (own usage "completion_tokens") (JNum 0),
                js_or (own usage "total_tokens") (JNum 0))
             else if truthy timings && negb (is_undefined (own timings "cache_n")) then
               (own timings "cache_n",
                js_or (own timings "predicted_n") (JNum 0),
                js_add (own timings "cache_n")
                       (js_or (own timings "predicted_n") (JNum 0)))
             else (JUndefined, JUndefined, JUndefined))
       /\ own ollamaData "done_reason" = (if isDone then JStr "stop" else JUndefined)
       /\ own ollamaData "context" = (if isDone then JArr [] else JUndefined)
       /\ (forall k,
             In k ["total_duration"; "load_duration";
                   "prompt_eval_duration"; "eval_duration"] ->
             own ollamaData k
             = if isDone && truthy timings
               then js_or (own timings k) (JNum 0) else JUndefined).
Proof.
  unfold translateOpenAIStreamToOllamaChat, first_choice. intros E.
  apply bind_Some in E as (choices & Hc & E).
  apply bind_Some in E as (choice & Hi & E).
  apply bind_Some in E as (d & Hd & E). apply prop_Some in Hd as [Hn ->].
  exists choice. rewrite Hc. simpl bind. repeat (split; [assumption|]).
  inversion E as [Ho]; clear E Ho.
  unfold stream_final, stream_usage, token_counts.
  destruct (truthy (own choice "finish_reason"));
    destruct (truthy (own response "usage"));
    destruct (truthy (own response "timings"));
    destruct (is_undefined (own (own response "timings") "cache_n"));
    destruct (truthy (own (js_or (own choice "delta") (JObj [])) "tool_calls")
              && js_gt0 (own (own (js_or (own choice "delta") (JObj []))
                                  "tool_calls") "length"));
    cbn; repeat split;
    intros k [<-|[<-|[<-|[<-|[]]]]]; reflexivity.
Qed.

(** X10.  A frame is final ([done] true) exactly when the delta's finish
    reason is truthy, and only a final frame carries [done_reason] (always
    [stop]), the empty [context] and, when the upstream sent timings, the
    four durations; on every other frame these properties are absent. *)
Theorem X10_final_fields_on_final_frames_only (response ollamaData choice : JSValue) :
  translateOpenAIStreamToOllamaChat response = Some ollamaData ->
  first_choice response = Some choice ->
  own ollamaData "done" = JBool (truthy (own choice "finish_reason"))
  /\ (truthy (own choice "finish_reason") = false ->
      forall k,
        In k ["done_reason"; "context"; "total_duration"; "load_duration";
              "prompt_eval_duration"; "eval_duration"] ->
        own ollamaData k = JUndefined)
  /\ (truthy (own choice "finish_reason") = true ->
      own ollamaData "done_reason" = JStr "stop"
      /\ own ollamaData "context" = JArr []
      /\ forall k,
           In k ["total_duration"; "load_duration";
                 "prompt_eval_duration"; "eval_duration"] ->
           own ollamaData k
           = if truthy (own response "timings")
             then js_or (own (own response "timings") k) (JNum 0)
             else JUndefined).
Proof.
  intros E Hf. destruct (stream_frame response ollamaData E)
    as (choice' & Hf' & _ & _ & Hdone & _ & _ & _ & _ & Hr & Hc & Hk).
  rewrite Hf in Hf'. inversion Hf'; subst choice'. clear Hf'.
  split; [exact Hdone|]. split.
  - intros F k Hin. rewrite F in *.
    destruct Hin as [<-|[<-|Hin]]; [exact Hr|exact Hc|].
    rewrite (Hk k Hin). reflexivity.
  - intros T. rewrite T in *. repeat split; [exact Hr|exact Hc|].
    intros k Hin. rewrite (Hk k Hin). reflexivity.
Qed.

(** X11.  The token counts of a streamed frame follow the precedence of the
    single replies, with one difference: with a usage block they are its
    counts, else with timings that carry [cache_n] they are [cache_n],
    [predicted_n] and their sum, and with neither they are absent, not
    zero.  The three frames the 'data' handler builds copy them. *)
Theorem X11_stream_token_counts (response ollamaData : JSValue) :
  translateOpenAIStreamToOllamaChat response = Some ollamaData ->
  let usage := own response "usage" in
  let timings := own response "timings" in
  token_counts ollamaData
  = (if truthy usage then
       (js_or (own usage "prompt_tokens") (JNum 0),
        js_or (own usage "completion_tokens") (JNum 0),
        js_or (own usage "total_tokens") (JNum 0))
     else if truthy timings && negb (is_undefined (own timings "cache_n")) then
       (own timings "cache_n",
        js_or (own timings "predicted_n") (JNum 0),
        js_add (own timings "cache_n") (js_or (own timings "predicted_n") (JNum 0)))
     else (JUndefined, JUndefined, JUndefined))
  /\ token_counts (firstChunkData ollamaData) = token_counts ollamaData
  /\ token_counts (contentChunk ollamaData) = token_counts ollamaData
  /\ token_counts (doneChunk ollamaData) = token_counts ollamaData.
Proof.
  intros E usage timings.
  destruct (stream_frame response ollamaData E)
    as (choice & _ & _ & _ & _ & _ & _ & _ & Hcounts & _).
  split; [exact Hcounts|]. repeat split.
Qed.

(** X9.  A heartbeat delta (no content, no tool calls, no finish reason)
    produces no frame of its own: the 'data' handler writes nothing for it,
    except the opening frame when it is the first delta of the stream. *)
Theorem X9_heartbeat_writes_no_frame
  (response ollamaData choice : JSValue) (st : Session) :
  translateOpenAIStreamToOllamaChat response = Some ollamaData ->
  first_choice response = Some choice ->
  truthy (own (js_or (own choice "delta") (JObj [])) "content") = false ->
  truthy (own (js_or (own choice "delta") (JObj [])) "tool_calls") = false ->
  truthy (own choice "finish_reason") = false ->
  data_delta ollamaData st
  = if firstChunk st
    then clear_firstChunk (emit [ResWrite (WJson (firstChunkData ollamaData))] st)
    else st.
Proof.
  intros E Hf Hc Ht Hfin.
  destruct (stream_frame response ollamaData E)
    as (choice' & Hf' & _ & _ & Hdone & _ & Hcontent & Htools & _).
  rewrite Hf in Hf'. inversion Hf'; subst choice'. clear Hf'.
  unfold data_delta.
  rewrite Hdone, Hfin, Hcontent, Htools, Ht. cbn [andb].
  rewrite !truthy_js_or, Hc. cbn [truthy orb negb String.eqb].
  destruct (firstChunk st); reflexivity.
Qed.

End TranslatorsFurther.

(* ================================================================= *)
(** ** The request translator, further *)

Section RequestFurther.

Context `{host : Host}.

Lemma messages_step_empty (request : JSValue) :
  no_messages request ->
  match own request "messages" with
  | JArr items => push_messages items []
  | _ => Some []
  end = Some [].
Proof.
  unfold no_messages. destruct (own request "messages"); try reflexivity.
  intros [Hn Hk]. rewrite (push_messages_spec items [] Hn), Hk. reflexivity.
Qed.

(** X14.  A [system] text shadows the prompt and the history: when the
    request's own messages leave the list empty and [system] is truthy, the
    normalized sequence is the single system message, whatever [prompt] and
    [history] hold; they are not sent. *)
Theorem X14_system_shadows_prompt_and_history (request : JSValue) :
  nullish request = false ->
  no_messages request ->
  truthy (own request "system") = true ->
  normalize_messages request
  = Some [mk_message (JStr "system") (own request "system")].
Proof.
  intros Hr Hm Hs. unfold normalize_messages.
  rewrite (prop_not_nullish request "messages" Hr). simpl bind.
  rewrite (messages_step_empty request Hm). simpl. rewrite Hs. reflexivity.
Qed.

(** X15.  A prompt without tags is sent as it is: with no messages kept and
    no system text, a non-empty string prompt that contains neither
    [<user>] nor [<assistant>] becomes the single user message whose
    content is the prompt, untrimmed; the history is not consulted. *)
Theorem X15_plain_prompt_verbatim (request : JSValue) (prompt : string) :
  nullish request = false ->
  no_messages request ->
  truthy (own request "system") = false ->
  own request "prompt" = JStr prompt ->
  prompt <> ""%string ->
  includes "<user>" prompt = false ->
  includes "<assistant>" prompt = false ->
  normalize_messages request = Some [mk_message (JStr "user") (JStr prompt)].
Proof.
  intros Hr Hm Hs Hp Hne Hu Ha. unfold normalize_messages.
  rewrite (prop_not_nullish request "messages" Hr). simpl bind.
  rewrite (messages_step_empty request Hm). simpl. rewrite Hs, Hp. simpl.
  apply String.eqb_neq in Hne. rewrite Hne. simpl.
  unfold push_prompt. simpl. rewrite Hu. simpl. rewrite Ha. reflexivity.
Qed.

Lemma push_history_spec (items acc : list JSValue) :
  Forall (fun item => nullish item = false) items ->
  push_history items acc
  = Some (acc ++ map history_pushed (filter history_kept items)).
Proof.
  intros H. revert acc.
  induction H as [|item items Hn _ IH]; intros acc; simpl.
  - rewrite app_nil_r. reflexivity.
  - rewrite (prop_not_nullish item "role" Hn). simpl.
    unfold history_kept at 1.
    destruct (is_str "user" (own item "role") || is_str "assistant" (own item "role"));
      simpl.
    + rewrite IH, <- app_assoc. reflexivity.
    + apply IH.
Qed.

(** X16.  The history is the last source.  With no messages kept, no system
    text and no prompt, a [history] array without [null] entries gives the
    entries whose role is exactly [user] or [assistant], in order, each
    reduced to its role and its content, an absent or falsy content
    becoming the empty string; when none qualifies the single empty user
    message is sent. *)
Theorem X16_history_fallback (request : JSValue) (items : list JSValue) :
  nullish request = false ->
  no_messages request ->
  truthy (own request "system") = false ->
  truthy (own request "prompt") = false ->
  own request "history" = JArr items ->
  Forall (fun item => nullish item = false) items ->
  normalize_messages request
  = Some (match map history_pushed (filter history_kept items) with
          | [] => [mk_message (JStr "user") (JStr "")]
          | kept_items => kept_items
          end).
Proof.
  intros Hr Hm Hs Hp Hh Hn. unfold normalize_messages.
  rewrite (prop_not_nullish request "messages" Hr). simpl bind.
  rewrite (messages_step_empty request Hm). simpl. rewrite Hs, Hp, Hh. simpl.
  rewrite (push_history_spec items [] Hn). simpl.
  destruct (map history_pushed (filter history_kept items)); reflexivity.
Qed.

Lemma push_messages_null (items acc : list JSValue) :
  Exists (fun item => nullish item = true) items ->
  push_messages items acc = None.
Proof.
  intros H. revert acc. induction H as [item items Hn|item items _ IH]; intros acc.
  - simpl. unfold prop. rewrite Hn. reflexivity.
  - simpl. destruct (prop item "role") as [role|]; simpl; [|reflexivity].
    destruct (truthy (js_and role (own item "content"))); apply IH.
Qed.

(** X17.  A [null] entry in [messages] is an internal error: the request
    translator throws, so both endpoints answer 500 with the generic
    server error, in streaming mode too, and the upstream is never
    called. *)
Theorem X17_null_message_is_a_server_error
  (post : JSValue -> Outcome) (request : JSValue) (items : list JSValue)
  (accept_header : option string) :
  nullish request = false ->
  own request "messages" = JArr items ->
  Exists (fun item => nullish item = true) items ->
  translateOllamaToOpenAI request = None
  /\ api_generate post request = {| status := 500; body := server_error |}
  /\ api_chat post request accept_header
     = Single {| status := 500; body := server_error |}.
Proof.
  intros Hr Hm Hn.
  assert (T : translateOllamaToOpenAI request = None).
  { unfold translateOllamaToOpenAI, normalize_messages.
    rewrite (prop_not_nullish request "messages" Hr), Hm. simpl.
    rewrite (push_messages_null items [] Hn). reflexivity. }
  split; [exact T|]. split.
  - unfold api_generate. rewrite T. reflexivity.
  - unfold api_chat, api_chat_single.
    assert (S : exists b, isStreaming request accept_header = Some b).
    { unfold isStreaming. rewrite (prop_not_nullish request "stream" Hr).
      simpl. eauto. }
    destruct S as [b S]. rewrite S, T. destruct b; reflexivity.
Qed.

Lemma lookup_In (k : string) (fs : list (string * JSValue)) (v : JSValue) :
  lookup k fs = Some v -> In k (map fst fs).
Proof.
  induction fs as [|[k' v'] fs IH]; simpl; [discriminate|].
  destruct (String.eqb_spec k' k); [left; assumption|right; auto].
Qed.

Lemma wire_fields_keys (fs : list (string * JSValue)) (k : string) :
  In k (map fst (wire_fields fs)) -> In k (map fst fs).
Proof.
  unfold wire_fields. intros H. apply in_map_iff in H as ([k' v] & <- & Hin).
  apply filter_In in Hin as [Hin _]. apply in_map_iff. exists (k', v). auto.
Qed.

(** X18.  What is sent upstream.  The JSON text of the outbound request
    never has a key outside the eleven of the object literal, so an option
    the translator does not know is dropped; and it always has a truthy
    [model], a non-empty [messages] array and a [stream] value. *)
Theorem X18_outbound_request_shape (request openaiRequest : JSValue) :
  translateOllamaToOpenAI request = Some openaiRequest ->
  (forall k, ~ In k openaiRequest_fields -> sent k openaiRequest = None)
  /\ (exists model, sent "model" openaiRequest = Some model /\ truthy model = true)
  /\ (exists messages,
        sent "messages" openaiRequest = Some (JArr messages) /\ messages <> [])
  /\ (exists stream, sent "stream" openaiRequest = Some stream).
Proof.
  unfold translateOllamaToOpenAI. intros E.
  apply bind_Some in E as (messages & Hm & E). inversion E as [Ho]; clear E.
  split; [|split; [|split]].
  - intros k Hk. unfold sent, on_wire.
    destruct (lookup k (wire_fields _)) as [v|] eqn:L; [|reflexivity].
    exfalso. apply Hk. apply lookup_In in L. apply wire_fields_keys in L. exact L.
  - unfold sent, on_wire.
    rewrite lookup_wire_fields by (apply openaiRequest_keys; reflexivity).
    simpl. unfold js_or. destruct (truthy (own request "model")) eqn:T.
    + rewrite (truthy_defined _ T). eauto.
    + simpl. eauto.
  - unfold sent, on_wire.
    rewrite lookup_wire_fields by (apply openaiRequest_keys; reflexivity).
    simpl. exists messages. split; [reflexivity|].
    apply (normalize_nonempty request messages Hm).
  - unfold sent, on_wire.
    rewrite lookup_wire_fields by (apply openaiRequest_keys; reflexivity).
    simpl. unfold js_or. destruct (truthy (own request "stream")) eqn:T.
    + rewrite (truthy_defined _ T). eauto.
    + simpl. eauto.
Qed.

Lemma lookup_set_same (k : string) (v : JSValue) (fs : list (string * JSValue)) :
  lookup k (set_field k v fs) = Some v.
Proof.
  induction fs as [|[k' v'] fs IH]; simpl.
  - rewrite String.eqb_refl. reflexivity.
  - destruct (String.eqb_spec k' k) as [->|N]; simpl.
    + rewrite String.eqb_refl. reflexivity.
    + apply String.eqb_neq in N. rewrite N. exact IH.
Qed.

Lemma lookup_set_other (k k0 : string) (v : JSValue) (fs : list (string * JSValue)) :
  k0 <> k -> lookup k0 (set_field k v fs) = lookup k0 fs.
Proof.
  intros N. induction fs as [|[k' v'] fs IH]; simpl.
  - apply not_eq_sym, String.eqb_neq in N. rewrite N. reflexivity.
  - destruct (String.eqb_spec k' k) as [->|N']; simpl.
    + apply not_eq_sym, String.eqb_neq in N. rewrite N. reflexivity.
    + destruct (k' =? k0); [reflexivity|exact IH].
Qed.

(** X19.  When streaming is selected, also by the Accept header alone, the
    request that goes upstream carries [stream: true] and is otherwise the
    translated request, property for property. *)
Theorem X19_streaming_forces_stream_flag
  (post : JSValue -> Outcome) (request openaiRequest : JSValue)
  (accept_header : option string) :
  isStreaming request accept_header = Some true ->
  translateOllamaToOpenAI request = Some openaiRequest ->
  exists upstreamRequest,
    api_chat post request accept_header = Streamed upstreamRequest
    /\ own upstreamRequest "stream" = JBool true
    /\ forall k, k <> "stream"%string ->
         own upstreamRequest k = own openaiRequest k.
Proof.
  intros Hs Ht. unfold api_chat. rewrite Hs, Ht. eexists. split; [reflexivity|].
  unfold translateOllamaToOpenAI in Ht.
  apply bind_Some in Ht as (messages & _ & Ht). inversion Ht as [Ho]; clear Ht.
  split.
  - unfold assign, own. rewrite lookup_set_same. reflexivity.
  - intros k N. unfold assign, own. rewrite (lookup_set_other _ _ _ _ N).
    reflexivity.
Qed.

(** X20.  The replies of the two endpoints when the upstream call does not
    give a translatable answer.  A rejection without a response is 504
    with the timeout error when its code is [ECONNABORTED] and 500 with the
    generic server error otherwise; an answer that resolves but has no
    choice to read is 500 as well, not a reply with empty content. *)
Theorem X20_failure_replies
  (post : JSValue -> Outcome) (request openaiRequest : JSValue) :
  translateOllamaToOpenAI request = Some openaiRequest ->
  (forall e,
     post openaiRequest = Rejected e -> err_response e = None ->
     let reply :=
       if is_str "ECONNABORTED" (err_code e)
       then {| status := 504; body := timeout_error |}
       else {| status := 500; body := server_error |} in
     api_generate post request = reply /\ api_chat_single post request = reply)
  /\
  (forall data,
     post openaiRequest = Resolved data ->
     own data "choices" = JUndefined \/ own data "choices" = JArr [] ->
     api_generate post request = {| status := 500; body := server_error |}
     /\ api_chat_single post request = {| status := 500; body := server_error |}).
Proof.
  intros Ht. split.
  - intros e Hp He. unfold api_generate, api_chat_single, catch_reply.
    rewrite Ht, Hp, He. split; reflexivity.
  - intros data Hp Hc. unfold api_generate, api_chat_single.
    rewrite Ht, Hp.
    rewrite (none_of_no_choice data (translateOpenAIToOllamaGenerate data) Hc
               (generate_choice data)).
    rewrite (none_of_no_choice data (translateOpenAIToOllamaChat data) Hc
               (chat_choice data)).
    split; reflexivity.
Qed.

End RequestFurther.

(* ================================================================= *)
(** ** The tag parser and the message list, further *)

Section ParserFurther.

Context `{host : Host}.

Lemma tag_line_idle (st : TagState) (line : string) :
  opens line = false ->
  currentContent st = ""%string ->
  tag_line st line = st.
Proof.
  unfold opens, tag_line, flush_close. intros H C.
  apply orb_false_elim in H as [-> ->]. rewrite C. simpl.
  destruct (_ || _); reflexivity.
Qed.

Lemma fold_idle (lines : list string) (st : TagState) :
  forallb (fun l => negb (opens l)) lines = true ->
  currentContent st = ""%string ->
  fold_left tag_line lines st = st.
Proof.
  induction lines as [|l lines IH]; intros H C; [reflexivity|].
  cbn [forallb] in H. apply andb_prop in H as [Hl H].
  apply negb_true_iff in Hl. cbn [fold_left].
  rewrite (tag_line_idle st l Hl C). apply IH; assumption.
Qed.

Lemma includes_nonempty (p s : string) :
  p <> ""%string -> includes p s = true -> s <> ""%string.
Proof.
  intros Hp H ->. destruct p; [contradiction|discriminate H].
Qed.

(** X23.  Tags are honoured at the start of a line only.  A prompt that
    mentions [<user>] or [<assistant>] but has no line starting with one of
    them is parsed to nothing, and when it is the only source the request
    goes upstream with the single empty user message: the text of the
    prompt is lost. *)
Theorem X23_prompt_without_opening_line_is_lost (request : JSValue) (prompt : string) :
  nullish request = false ->
  no_messages request ->
  truthy (own request "system") = false ->
  own request "prompt" = JStr prompt ->
  includes "<user>" prompt = true \/ includes "<assistant>" prompt = true ->
  forallb (fun l => negb (opens l)) (split_nl prompt) = true ->
  isArray (own request "history") = false ->
  parse_tagged_prompt prompt [] = []
  /\ normalize_messages request = Some [mk_message (JStr "user") (JStr "")].
Proof.
  intros Hr Hm Hs Hp Hi Hl Hh.
  assert (P : parse_tagged_prompt prompt [] = []).
  { unfold parse_tagged_prompt.
    rewrite (fold_idle (split_nl prompt)
               {| currentRole := JNull; currentContent := ""; tagMessages := [] |}
               Hl eq_refl).
    reflexivity. }
  split; [exact P|].
  assert (Hne : prompt <> ""%string).
  { destruct Hi as [Hi|Hi]; eapply includes_nonempty; try exact Hi; discriminate. }
  unfold normalize_messages.
  rewrite (prop_not_nullish request "messages" Hr). simpl bind.
  rewrite (messages_step_empty request Hm). simpl. rewrite Hs, Hp. simpl.
  apply String.eqb_neq in Hne. rewrite Hne. simpl.
  assert (Q : push_prompt (JStr prompt) [] = Some []).
  { unfold push_prompt. simpl.
    destruct (includes "<user>" prompt); simpl; [rewrite P; reflexivity|].
    destruct Hi as [Hi|Hi]; [discriminate|]. rewrite Hi. simpl. rewrite P.
    reflexivity. }
  rewrite Q. simpl.
  destruct (own request "history"); try reflexivity. discriminate Hh.
Qed.

Lemma pending_le (st : TagState) : (pending st <= 1)%nat.
Proof.
  unfold pending. destruct (_ =? _); lia.
Qed.

Lemma flush_open_inv (st : TagState) (n : nat) :
  tag_inv st n ->
  Forall tagged_message (tagMessages (flush_open st))
  /\ (List.length (tagMessages (flush_open st)) <= n)%nat.
Proof.
  unfold tag_inv, flush_open, pending. intros (F & R & L).
  destruct (currentContent st =? "") eqn:E.
  - rewrite andb_false_r. split; [exact F|lia].
  - apply String.eqb_neq in E. destruct (R E) as [t Ht].
    destruct (truthy (currentRole st)); simpl.
    + split.
      * apply Forall_app. split; [exact F|]. constructor; [|constructor].
        rewrite Ht. exists t, (currentContent st). reflexivity.
      * rewrite length_app. simpl. lia.
    + split; [exact F|lia].
Qed.

Lemma opened_inv (st : TagState) (t : Tag) (rest : string) (n : nat) :
  tag_inv st n ->
  tag_inv {| currentRole := JStr (tag_name t);
             currentContent := rest;
             tagMessages := tagMessages (flush_open st) |} (S n).
Proof.
  intros I. pose proof (flush_open_inv st n I) as [FF FL].
  split; [exact FF|]. split.
  - intros _. exists t. reflexivity.
  - cbn [tagMessages].
    pose proof (pending_le {| currentRole := JStr (tag_name t);
                              currentContent := rest;
                              tagMessages := tagMessages (flush_open st) |}).
    lia.
Qed.

Lemma flush_close_inv (st : TagState) (n : nat) :
  tag_inv st n -> tag_inv (flush_close st) n.
Proof.
  intros (F & R & L). unfold flush_close.
  destruct (currentContent st =? "") eqn:E; cbn [negb]; [split; auto|].
  unfold pending in L. rewrite E in L.
  apply String.eqb_neq in E. destruct (R E) as [t Ht].
  split; [|split]; cbn [tagMessages currentContent currentRole].
  - apply Forall_app. split; [exact F|]. constructor; [|constructor].
    rewrite Ht. exists t, (currentContent st). reflexivity.
  - intros N. contradiction.
  - rewrite length_app. unfold pending. cbn [currentContent String.eqb length].
    lia.
Qed.

Lemma continued_inv (st : TagState) (line : string) (n : nat) :
  tag_inv st n ->
  tag_inv (if negb (currentContent st =? "")
           then {| currentRole := currentRole st;
                   currentContent := currentContent st ++ nl ++ line;
                   tagMessages := tagMessages st |}
           else st) n.
Proof.
  intros I. destruct (currentContent st =? "") eqn:E; cbn [negb]; [exact I|].
  destruct I as (F & R & L). unfold pending in L. rewrite E in L.
  apply String.eqb_neq in E.
  split; [exact F|]. split; cbn [tagMessages currentContent currentRole].
  - intros _. apply (R E).
  - pose proof (pending_le {| currentRole := currentRole st;
                              currentContent := currentContent st ++ nl ++ line;
                              tagMessages := tagMessages st |}).
    cbn [tagMessages] in *. lia.
Qed.

Lemma tag_line_inv (st : TagState) (line : string) (n : nat) :
  tag_inv st n ->
  tag_inv (tag_line st line) (if opens line then S n else n).
Proof.
  intros I. unfold tag_line, opens.
  destruct (startsWith "<user>" line).
  - apply (opened_inv st User _ n I).
  - destruct (startsWith "<assistant>" line).
    + apply (opened_inv st Assistant _ n I).
    + cbn [orb]. destruct (_ || _).
      * apply flush_close_inv, I.
      * apply continued_inv, I.
Qed.

Lemma fold_tag_inv (lines : list string) (st : TagState) (n : nat) :
  tag_inv st n ->
  tag_inv (fold_left tag_line lines st) (n + List.length (filter opens lines)).
Proof.
  revert st n. induction lines as [|l lines IH]; intros st n I.
  - simpl. rewrite Nat.add_0_r. exact I.
  - cbn [fold_left filter]. pose proof (tag_line_inv st l n I) as I'.
    destruct (opens l).
    + apply IH in I'. simpl. rewrite Nat.add_succ_r. exact I'.
    + apply IH, I'.
Qed.

(** X24.  What the tag parser can produce.  Every message it emits has the
    role [user] or [assistant] (never [system], never a role of the
    prompt's making) and a trimmed string as content; and it emits at most
    one message per line that starts with an opening tag. *)
Theorem X24_parser_output_bounds (prompt : string) :
  Forall tagged_message (parse_tagged_prompt prompt [])
  /\ (List.length (parse_tagged_prompt prompt [])
      <= List.length (filter opens (split_nl prompt)))%nat.
Proof.
  unfold parse_tagged_prompt.
  apply (flush_open_inv _ (0 + List.length (filter opens (split_nl prompt)))).
  apply fold_tag_inv. split; [constructor|]. split.
  - intros N. contradiction.
  - exact (le_n 0).
Qed.

Lemma tag_line_shape (st : TagState) (line : string) :
  Forall role_content_only (tagMessages st) ->
  Forall role_content_only (tagMessages (tag_line st line)).
Proof.
  intros F.
  assert (FO : Forall role_content_only (tagMessages (flush_open st))).
  { unfold flush_open. destruct (_ && _); simpl; [|exact F].
    apply Forall_app. split; [exact F|]. repeat constructor. eexists _, _. reflexivity. }
  unfold tag_line.
  destruct (startsWith "<user>" line); [exact FO|].
  destruct (startsWith "<assistant>" line); [exact FO|].
  destruct (_ || _).
  - unfold flush_close. destruct (negb _); simpl; [|exact F].
    apply Forall_app. split; [exact F|]. repeat constructor. eexists _, _. reflexivity.
  - destruct (negb _); exact F.
Qed.

Lemma parse_shape (prompt : string) (messages : list JSValue) :
  Forall role_content_only messages ->
  Forall role_content_only (parse_tagged_prompt prompt messages).
Proof.
  intros F. unfold parse_tagged_prompt.
  set (init := {| currentRole := JNull; currentContent := ""; tagMessages := messages |}).
  assert (G : forall lines st, Forall role_content_only (tagMessages st) ->
                Forall role_content_only (tagMessages (fold_left tag_line lines st))).
  { induction lines as [|l lines IH]; intros st H; [exact H|].
    simpl. apply IH, tag_line_shape, H. }
  specialize (G (split_nl prompt) init F).
  unfold flush_open. destruct (_ && _); simpl; [|exact G].
  apply Forall_app. split; [exact G|]. repeat constructor. eexists _, _. reflexivity.
Qed.

Lemma push_messages_shape (items acc out : list JSValue) :
  Forall role_content_only acc ->
  push_messages items acc = Some out -> Forall role_content_only out.
Proof.
  revert acc. induction items as [|item items IH]; intros acc F; simpl.
  - intros E; inversion E; subst; exact F.
  - destruct (prop item "role") as [role|]; simpl; [|discriminate].
    destruct (truthy _); apply IH; [|exact F].
    apply Forall_app. split; [exact F|]. repeat constructor. eexists _, _. reflexivity.
Qed.

Lemma push_history_shape (items acc out : list JSValue) :
  Forall role_content_only acc ->
  push_history items acc = Some out -> Forall role_content_only out.
Proof.
  revert acc. induction items as [|item items IH]; intros acc F; simpl.
  - intros E; inversion E; subst; exact F.
  - destruct (prop item "role") as [role|]; simpl; [|discriminate].
    destruct (_ || _); apply IH; [|exact F].
    apply Forall_app. split; [exact F|]. repeat constructor. eexists _, _. reflexivity.
Qed.

Lemma push_prompt_shape (prompt : JSValue) (acc out : list JSValue) :
  Forall role_content_only acc ->
  push_prompt prompt acc = Some out -> Forall role_content_only out.
Proof.
  intros F. unfold push_prompt.
  destruct (prompt_includes "<user>" prompt) as [[|]|]; simpl; try discriminate.
  - destruct prompt; try discriminate. intros E; inversion E; subst.
    apply parse_shape, F.
  - destruct (prompt_includes "<assistant>" prompt) as [[|]|]; simpl;
      try discriminate.
    + destruct prompt; try discriminate. intros E; inversion E; subst.
      apply parse_shape, F.
    + intros E; inversion E; subst. apply Forall_app. split; [exact F|].
      repeat constructor. eexists _, _. reflexivity.
Qed.

(** X25.  Whatever the request holds, every message that goes upstream is
    an object with a [role] and a [content] and nothing else: no other
    property of an entry of [messages] or [history] (a name, images, tool
    calls) is forwarded. *)
Theorem X25_only_role_and_content_are_sent (request openaiRequest : JSValue) :
  translateOllamaToOpenAI request = Some openaiRequest ->
  exists messages,
    own openaiRequest "messages" = JArr messages
    /\ Forall role_content_only messages.
Proof.
  unfold translateOllamaToOpenAI. intros E.
  apply bind_Some in E as (messages & Hm & E). inversion E as [Ho]; clear E.
  exists messages. split; [reflexivity|].
  unfold normalize_messages in Hm.
  apply bind_Some in Hm as (rm & _ & Hm).
  apply bind_Some in Hm as (m1 & H1 & Hm).
  apply bind_Some in Hm as (m2 & H2 & Hm).
  apply bind_Some in Hm as (m3 & H3 & Hm).
  apply bind_Some in Hm as (m4 & H4 & Hm).
  assert (F1 : Forall role_content_only m1).
  { destruct rm; inversion H1; subst; try constructor.
    eapply push_messages_shape; [constructor|eassumption]. }
  assert (F2 : Forall role_content_only m2).
  { destruct (is_nil m1 && truthy (own request "system"));
      inversion H2; subst; [|exact F1].
    apply Forall_app. split; [exact F1|]. repeat constructor. eexists _, _. reflexivity. }
  assert (F3 : Forall role_content_only m3).
  { destruct (is_nil m2 && truthy (own request "prompt"));
      [|inversion H3; subst; exact F2].
    eapply push_prompt_shape; eassumption. }
  assert (F4 : Forall role_content_only m4).
  { destruct (is_nil m3); [|inversion H4; subst; exact F3].
    destruct (own request "history"); inversion H4; subst; try exact F3.
    eapply push_history_shape; eassumption. }
  inversion Hm; subst. destruct (is_nil m4); [|exact F4].
  apply Forall_app. split; [exact F4|]. repeat constructor. eexists _, _. reflexivity.
Qed.

End ParserFurther.

(* ================================================================= *)
(** ** The listing endpoints *)

Section ListingFurther.

Context `{host : Host}.

Lemma tag_entries_spec (models : list JSValue) :
  Forall (fun model => nullish model = false) models ->
  tag_entries models = Some (map listed models).
Proof.
  induction 1 as [|model models Hn _ IH]; simpl; [reflexivity|].
  unfold tag_entry. rewrite (prop_not_nullish model "id" Hn). simpl.
  rewrite IH. reflexivity.
Qed.

(** X21.  [/api/tags] lists one entry per upstream model, in the upstream
    order, named by the model's [id] and of size zero; and whatever goes
    wrong (the upstream rejects, with any status, or its listing is no
    array) the reply is 500 with the generic server error: an upstream
    status is not passed through here. *)
Theorem X21_tags_listing (get : Outcome) :
  (forall data models,
     get = Resolved data ->
     nullish data = false ->
     own data "data" = JArr models ->
     Forall (fun model => nullish model = false) models ->
     api_tags get
     = {| status := 200; body := JObj [("models", JArr (map listed models))] |})
  /\ (forall e, get = Rejected e ->
        api_tags get = {| status := 500; body := server_error |})
  /\ (forall data,
        get = Resolved data ->
        isArray (own data "data") = false ->
        api_tags get = {| status := 500; body := server_error |}).
Proof.
  split; [|split].
  - intros data models -> Hd Hl Hm. unfold api_tags.
    rewrite (prop_not_nullish data "data" Hd), Hl. simpl.
    rewrite (tag_entries_spec models Hm). reflexivity.
  - intros e ->. reflexivity.
  - intros data -> Ha. unfold api_tags, prop.
    destruct (nullish data); [reflexivity|]. simpl.
    destruct (own data "data"); try reflexivity. discriminate Ha.
Qed.

(** X22.  [/api/show] asks the upstream for the model the body names.  A
    404 from the upstream becomes a 404 whose message names that model;
    every other rejection, and an answer whose [created] is no valid date,
    becomes the generic 500; an answer with a valid date becomes 200 with
    the model echoed, the date as [modified_at] and size zero. *)
Theorem X22_show_replies
  (to_text : JSValue -> string) (get : string -> Outcome) (reqBody : JSValue) :
  nullish reqBody = false ->
  let model := own reqBody "model" in
  let answer := get ("/v1/models/" ++ interpolate to_text model)%string in
  (forall e data,
     answer = Rejected e -> err_response e = Some (404%Z, data) ->
     api_show to_text get reqBody
     = {| status := 404;
          body := JObj [("error",
            JStr ("model not found: " ++ interpolate to_text model)%string)] |})
  /\ (forall e,
        answer = Rejected e ->
        (forall data, err_response e <> Some (404%Z, data)) ->
        api_show to_text get reqBody = {| status := 500; body := server_error |})
  /\ (forall data,
        answer = Resolved data ->
        api_show to_text get reqBody
        = match (created <- prop data "created" ;; Date_toISOString created) with
          | Some modified_at =>
              {| status := 200;
                 body := JObj [ ("model", model); ("details", show_details);
                                ("modified_at", JStr modified_at);
                                ("size", JNum 0) ] |}
          | None => {| status := 500; body := server_error |}
          end).
Proof.
  intros Hb model answer. unfold api_show.
  rewrite (prop_not_nullish reqBody "model" Hb). fold model. fold answer.
  split; [|split].
  - intros e data -> ->. reflexivity.
  - intros e -> Hn. destruct (err_response e) as [[st data]|]; [|reflexivity].
    destruct st as [|p|p]; try reflexivity.
    destruct (Z.eq_dec (Z.pos p) 404) as [Heq|Hne].
    + exfalso. apply (Hn data). rewrite Heq. reflexivity.
    + repeat (destruct p as [p|p|]; try reflexivity); contradiction.
  - intros data ->. reflexivity.
Qed.

End ListingFurther.

(* ================================================================= *)
(** ** The further properties on concrete inputs *)

Section FurtherExamples.

#[local] Existing Instance Sample.host.

Lemma X1_witness :
  (streamEnded (run events_error_midway new_session) = true
   /\ exists ws,
        delivered (calls (run events_error_midway new_session)) = ws ++ [DONE])
  /\ (crashed (run events_end_first new_session) = true
      /\ streamEnded (run events_end_first new_session) = false
      /\ exists cs,
           calls (run events_end_first new_session) = cs ++ [ResWrite DONE]).
Proof.
  split.
  - assert (E : streamEnded (run events_error_midway new_session) = true)
      by reflexivity.
    split; [exact E|].
    apply (proj1 (proj2 (X1_marker_precedes_every_stop events_error_midway))).
    exact E.
  - assert (C : crashed (run events_end_first new_session) = true) by reflexivity.
    split; [exact C|].
    apply (proj1 (proj2 (proj2 (X1_marker_precedes_every_stop events_end_first)))).
    exact C.
Defined.

Lemma X2_witness :
  run [OnData scenario_chunk2; OnEnd; OnClose] (session [chunk_finish_then_delta])
  = session [chunk_finish_then_delta].
Proof.
  apply X2_ended_session_is_final. vm_compute. reflexivity.
Defined.

Lemma X3_witness :
  existsb is_opening
    (writes (calls (run (map OnData [scenario_chunk1; scenario_chunk2]) new_session)))
  = true.
Proof.
  apply (proj2 (X3_data_handler_opens_once [scenario_chunk1; scenario_chunk2])).
  vm_compute. reflexivity.
Defined.

Lemma X4_witness :
  run (map OnData chunks_cut) new_session
  = on_data (all_chunks chunks_cut) new_session.
Proof.
  apply X4_chunking_is_irrelevant; vm_compute; reflexivity.
Defined.

Lemma X7_witness :
  on_data (terminated_lines keep_alive_lines) new_session = new_session.
Proof.
  apply X7_other_lines_are_dropped; reflexivity.
Defined.

Lemma X8_witness :
  on_data ("data: [DONE]" ++ nl ++ "data: x")%string new_session
  = throw_uncaught (emit [ResWrite DONE] (set_buffer "data: x" new_session))
  /\ on_data ("data: " ++ error_payload ++ nl ++ line_delta_Hi ++ nl)%string new_session
     = finish [ ResWrite (WJson (JObj [("error",
                  JObj [("message", JStr "overloaded")])]));
                ResWrite DONE; ResEnd ] new_session.
Proof.
  split.
  - apply (proj1 (X8_end_and_error_records_stop_the_chunk
                    "[DONE]" "data: x" new_session eq_refl eq_refl eq_refl)).
    reflexivity.
  - apply (proj2 (X8_end_and_error_records_stop_the_chunk
                    error_payload (line_delta_Hi ++ nl) new_session
                    eq_refl eq_refl eq_refl)).
    + vm_compute. discriminate.
    + vm_compute. reflexivity.
Defined.

Lemma X9_witness :
  exists ollamaData,
    translateOpenAIStreamToOllamaChat response_heartbeat = Some ollamaData
    /\ data_delta ollamaData (clear_firstChunk new_session)
       = clear_firstChunk new_session.
Proof.
  eexists. split; [vm_compute; reflexivity|].
  match goal with
  | |- data_delta ?od ?st = _ =>
      assert (E : translateOpenAIStreamToOllamaChat response_heartbeat = Some od)
        by (vm_compute; reflexivity);
      assert (F : first_choice response_heartbeat
                  = Some (json "{'delta':{'role':'assistant','content':''},'finish_reason':null}"))
        by (vm_compute; reflexivity);
      apply (X9_heartbeat_writes_no_frame response_heartbeat od _ st E F);
      reflexivity
  end.
Defined.

Lemma X10_witness :
  exists ollamaData,
    translateOpenAIStreamToOllamaChat response_final_delta = Some ollamaData
    /\ own ollamaData "done" = JBool true
    /\ own ollamaData "done_reason" = JStr "stop"
    /\ own ollamaData "total_duration" = JNum 9
    /\ own ollamaData "eval_duration" = JNum 0.
Proof.
  eexists. split; [vm_compute; reflexivity|].
  match goal with
  | |- own ?od _ = _ /\ _ =>
      assert (E : translateOpenAIStreamToOllamaChat response_final_delta = Some od)
        by (vm_compute; reflexivity);
      assert (F : first_choice response_final_delta
                  = Some (json "{'delta':{},'finish_reason':'length'}"))
        by (vm_compute; reflexivity);
      destruct (X10_final_fields_on_final_frames_only
                  response_final_delta od _ E F) as (D & _ & T)
  end.
  destruct (T eq_refl) as (R & _ & K).
  split; [exact D|]. split; [exact R|]. split.
  - rewrite (K "total_duration"); [reflexivity|simpl; auto].
  - rewrite (K "eval_duration"); [reflexivity|simpl; auto].
Defined.

Lemma X11_witness :
  (exists ollamaData,
     translateOpenAIStreamToOllamaChat response_final_delta = Some ollamaData
     /\ token_counts ollamaData = (JNum 4, JNum 6, JNum 10))
  /\ (exists ollamaData,
        translateOpenAIStreamToOllamaChat response_heartbeat = Some ollamaData
        /\ token_counts ollamaData = (JUndefined, JUndefined, JUndefined)).
Proof.
  split; eexists; (split; [vm_compute; reflexivity|]).
  - match goal with
    | |- token_counts ?od = _ =>
        assert (E : translateOpenAIStreamToOllamaChat response_final_delta = Some od)
          by (vm_compute; reflexivity);
        rewrite (proj1 (X11_stream_token_counts response_final_delta od E))
    end.
    reflexivity.
  - match goal with
    | |- token_counts ?od = _ =>
        assert (E : translateOpenAIStreamToOllamaChat response_heartbeat = Some od)
          by (vm_compute; reflexivity);
        rewrite (proj1 (X11_stream_token_counts response_heartbeat od E))
    end.
    reflexivity.
Defined.

Lemma X13_witness :
  (exists reply, translateOpenAIToOllamaChat response_bare = Some reply)
  /\ ~ (exists reply, translateOpenAIToOllamaChat (json "{'choices':[{'message':{}}]}")
                      = Some reply).
Proof.
  split.
  - apply (proj2 (proj1 (X13_chat_translator_domain response_bare))).
    split; [reflexivity|]. split.
    + eexists. vm_compute. reflexivity.
    + eexists. split; [vm_compute; reflexivity|]. split; reflexivity.
  - intros H.
    apply (proj1 (proj1 (X13_chat_translator_domain _))) in H
      as (_ & [created_at D] & _).
    vm_compute in D. discriminate D.
Defined.

Lemma X14_witness :
  normalize_messages request_system_and_prompt
  = Some [mk_message (JStr "system") (JStr "be brief")].
Proof.
  apply (X14_system_shadows_prompt_and_history request_system_and_prompt).
  - reflexivity.
  - exact I.
  - reflexivity.
Defined.

Lemma X15_witness :
  normalize_messages request_prompt_stream
  = Some [mk_message (JStr "user") (JStr "hi")].
Proof.
  refine (X15_plain_prompt_verbatim request_prompt_stream "hi"
            eq_refl I eq_refl eq_refl _ eq_refl eq_refl).
  discriminate.
Defined.

Lemma X16_witness :
  normalize_messages request_history
  = Some [ mk_message (JStr "user") (JStr "a");
           mk_message (JStr "assistant") (JStr "") ].
Proof.
  refine (X16_history_fallback request_history
            [ json "{'role':'user','content':'a'}";
              json "{'role':'system','content':'s'}";
              json "{'role':'assistant'}" ]
            eq_refl I eq_refl eq_refl eq_refl _).
  repeat constructor.
Defined.

Lemma X17_witness :
  api_generate post_401 request_null_entry
    = {| status := 500; body := server_error |}
  /\ api_chat post_401 request_null_entry (Some "text/event-stream")
     = Single {| status := 500; body := server_error |}.
Proof.
  apply (X17_null_message_is_a_server_error post_401 request_null_entry
           [json "{'role':'user','content':'hi'}"; JNull]
           (Some "text/event-stream") eq_refl eq_refl).
  apply Exists_cons_tl, Exists_cons_hd. reflexivity.
Defined.

Lemma X18_witness :
  exists openaiRequest,
    translateOllamaToOpenAI request_unknown_options = Some openaiRequest
    /\ sent "keep_alive" openaiRequest = None
    /\ sent "top_k" openaiRequest = None
    /\ sent "options" openaiRequest = None.
Proof.
  eexists. split; [reflexivity|].
  pose proof (proj1 (X18_outbound_request_shape request_unknown_options _ eq_refl))
    as K.
  repeat split; apply K; simpl; intuition discriminate.
Defined.

Lemma X19_witness :
  exists upstreamRequest,
    api_chat post_401 request_chat (Some "text/event-stream")
      = Streamed upstreamRequest
    /\ own upstreamRequest "stream" = JBool true.
Proof.
  destruct (X19_streaming_forces_stream_flag post_401 request_chat _
              (Some "text/event-stream") eq_refl eq_refl)
    as (u & A & S & _).
  exists u. split; assumption.
Defined.

Lemma X20_witness :
  api_generate post_timeout request_prompt_stream
    = {| status := 504; body := timeout_error |}
  /\ api_chat_single post_no_choices request_chat
     = {| status := 500; body := server_error |}.
Proof.
  split.
  - exact (proj1 (proj1 (X20_failure_replies post_timeout request_prompt_stream
                           _ eq_refl)
                    {| err_response := None; err_code := JStr "ECONNABORTED" |}
                    eq_refl eq_refl)).
  - exact (proj2 (proj2 (X20_failure_replies post_no_choices request_chat
                           _ eq_refl)
                    response_no_choices eq_refl (or_intror eq_refl))).
Defined.

Lemma X21_witness :
  api_tags (Resolved models_answer)
  = {| status := 200;
       body := JObj [("models",
         JArr [ JObj [("name", JStr "a"); ("modified_at", JStr Date_now);
                      ("size", JNum 0)];
                JObj [("name", JStr "b"); ("modified_at", JStr Date_now);
                      ("size", JNum 0)] ])] |}
  /\ api_tags (Rejected {| err_response := Some (401%Z, upstream_401_body);
                           err_code := JNull |})
     = {| status := 500; body := server_error |}.
Proof.
  split.
  - refine (proj1 (X21_tags_listing (Resolved models_answer)) models_answer
              [json "{'id':'a'}"; json "{'id':'b'}"] eq_refl eq_refl eq_refl _).
    repeat constructor.
  - exact (proj1 (proj2 (X21_tags_listing _)) _ eq_refl).
Defined.

Lemma X22_witness :
  api_show no_text get_404 (json "{'model':'llama'}")
  = {| status := 404; body := JObj [("error", JStr "model not found: llama")] |}.
Proof.
  exact (proj1 (X22_show_replies no_text get_404 (json "{'model':'llama'}") eq_refl)
           {| err_response := Some (404%Z, JNull); err_code := JStr "ERR_BAD_REQUEST" |}
           JNull eq_refl eq_refl).
Defined.

Lemma X23_witness :
  normalize_messages request_inline_tags
  = Some [mk_message (JStr "user") (JStr "")].
Proof.
  apply (proj2 (X23_prompt_without_opening_line_is_lost request_inline_tags
                  "please answer <user>hi</user>"
                  eq_refl I eq_refl eq_refl (or_introl eq_refl) eq_refl eq_refl)).
Defined.

Lemma X25_witness :
  exists openaiRequest messages,
    translateOllamaToOpenAI (request_with items_extra_field) = Some openaiRequest
    /\ own openaiRequest "messages" = JArr messages
    /\ Forall role_content_only messages.
Proof.
  eexists.
  destruct (X25_only_role_and_content_are_sent (request_with items_extra_field) _
              eq_refl) as (messages & M & F).
  exists messages. split; [reflexivity|]. split; assumption.
Defined.

End FurtherExamples.
